(** * Zoho Projects time tracker: timer state machine and OAuth redirect capture

    A shallow embedding of the TypeScript sources of the extension:
    - [Tasks]      : [TasksManager] (tasks.ts), the timer that logs time;
    - [StatusBar]  : [ZohoStatusBar] (status-bar.ts), the displayed stopwatch;
    - [LocalServer]: [LocalAuthServer] (local-auth-server.ts);
    - [Auth]       : [ZohoAuthenticationProvider] on the loopback listener;
    - [AuthDraft]  : the draft provider of authentication.ts.new;
    - [UriAuth]    : the provider on the custom-scheme URI handler.

    Clock readings ([new Date().getTime()]) are integers of milliseconds,
    remote calls are answered by an oracle given as an argument, and every
    operation returns its result together with the state it leaves and the
    list of effects it performed, in order. *)

From stdpp Require Import gmap strings list.
From Stdlib Require Import ZArith Ascii String DecimalString.

Set Warnings "-register-all".
Open Scope Z_scope.
Open Scope string_scope.
Open Scope list_scope.

(** JavaScript truthiness of a [string | undefined]. *)
Definition truthy (s : option string) : bool :=
  match s with
  | Some EmptyString => false
  | Some _ => true
  | None => false
  end.

(** [n.toString().padStart(2, "0")] for an integer [n]. *)
Definition pad2 (n : Z) : string :=
  let s := NilZero.string_of_int (Z.to_int n) in
  match s with
  | String _ EmptyString => "0" +:+ s
  | _ => s
  end.

(** [s.startsWith(p)], [s.includes(p)] and [s.replace(p, r)] with a string
    pattern (the first occurrence only), on strings as sequences of bytes. *)
Fixpoint startsWith (s p : string) {struct p} : bool :=
  match p with
  | EmptyString => true
  | String a p' =>
      match s with
      | String b s' => if Ascii.eqb a b then startsWith s' p' else false
      | EmptyString => false
      end
  end.

Fixpoint includes (s p : string) {struct s} : bool :=
  startsWith s p ||
  match s with
  | EmptyString => false
  | String _ s' => includes s' p
  end.

Fixpoint drop_chars (n : nat) (s : string) : string :=
  match n, s with
  | S n', String _ s' => drop_chars n' s'
  | _, _ => s
  end.

Fixpoint replace (s p r : string) {struct s} : string :=
  if startsWith s p then r +:+ drop_chars (String.length p) s
  else match s with
       | EmptyString => s
       | String c s' => String c (replace s' p r)
       end.

(* ================================================================== *)
(** ** tasks.ts: [TasksManager] *)
(* ================================================================== *)
Module Tasks.

(** [ZohoTask] of api.ts; [subtasks] is optional in the source. *)
Inductive ZohoTask := {
  id : string;
  name : string;
  project_id : string;            (* task.project.id *)
  subtasks : option (list ZohoTask)
}.

Record ZohoTimeLog := {
  task_id : string;
  hours : Z;
  minutes : Z;
  work_date : string;
  bill_status : string;
  notes : string
}.

(** The [currentTimer] object. *)
Record Timer := {
  taskId : string;
  projectId : string;
  startTime : Z;
  isPaused : bool;
  pausedAt : option Z;
  totalPausedMs : Z
}.

Record TasksManager := {
  apiClient : option string;      (* the client, built from an access token *)
  portalId : option string;
  tasks : list ZohoTask;
  currentTimer : option Timer
}.

(** The remote calls of [ZohoApiClient] that the timer uses. *)
Inductive api_request :=
| ReqStartTimer (portal project task : string)
| ReqPauseTimer (portal project task : string)
| ReqStopTimer (portal project task : string)
| ReqLogTime (portal project : string) (log : ZohoTimeLog).

(** A call returns [response.data] (only its truthiness is inspected) or
    [handleApiError] throws an [Error] carrying a message. *)
Inductive api_reply :=
| Data (truthy_data : bool)
| Throws (message : string).

Definition remote := api_request -> api_reply.

Inductive event :=
| Call (r : api_request)
| ShowErrorMessage (msg : string)
| ShowWarningMessage (msg : string).

Record outcome := {
  ret : bool;
  post : TasksManager;
  trace : list event
}.

Definition fresh : TasksManager :=
  {| apiClient := None; portalId := None; tasks := []; currentTimer := None |}.

Definition initialize (accessToken : string) (m : TasksManager) : TasksManager :=
  {| apiClient := Some accessToken; portalId := portalId m;
     tasks := tasks m; currentTimer := currentTimer m |}.

Definition set_timer (m : TasksManager) (t : option Timer) : TasksManager :=
  {| apiClient := apiClient m; portalId := portalId m;
     tasks := tasks m; currentTimer := t |}.

(** [loadMyTasks]: the reply of [getMyTasks] replaces [this.tasks]; when the
    call throws ([None]) the loaded tasks stay as they are. *)
Definition loadMyTasks (reply : option (list ZohoTask)) (m : TasksManager)
  : TasksManager :=
  if bool_decide (is_Some (apiClient m)) && truthy (portalId m) then
    match reply with
    | Some ts => {| apiClient := apiClient m; portalId := portalId m;
                    tasks := ts; currentTimer := currentTimer m |}
    | None => m
    end
  else m.

Definition find_by_id (tid : string) (ts : list ZohoTask) : option ZohoTask :=
  List.find (fun t => bool_decide (id t = tid)) ts.

(** [for (const parentTask of this.tasks)]: the first subtask that matches. *)
Fixpoint find_in_subtasks (tid : string) (ts : list ZohoTask) : option ZohoTask :=
  match ts with
  | [] => None
  | parent :: rest =>
      match subtasks parent with
      | Some sts =>
          match find_by_id tid sts with
          | Some st => Some st
          | None => find_in_subtasks tid rest
          end
      | None => find_in_subtasks tid rest
      end
  end.

Definition findTaskById (m : TasksManager) (tid : string) : option ZohoTask :=
  match find_by_id tid (tasks m) with
  | Some t => Some t
  | None => find_in_subtasks tid (tasks m)
  end.

(** The resumed timer of the branch "temporizador existente pausado". *)
Definition resumed (now : Z) (t : Timer) : Timer :=
  {| taskId := taskId t;
     projectId := projectId t;
     startTime := startTime t;
     isPaused := false;
     pausedAt := None;
     totalPausedMs :=
       match pausedAt t with
       | Some p => totalPausedMs t + (now - p)
       | None => totalPausedMs t
       end |}.

Definition is_resume (m : TasksManager) (tid : string) : option Timer :=
  match currentTimer m with
  | Some t => if bool_decide (taskId t = tid) && isPaused t then Some t else None
  | None => None
  end.

Definition startTimer (api : remote) (now : Z) (tid : string) (m : TasksManager)
  : outcome :=
  match apiClient m, truthy (portalId m), portalId m with
  | Some _, true, Some portal =>
      match findTaskById m tid with
      | None =>
          {| ret := false; post := m;
             trace := [ShowErrorMessage "No se encontró la tarea seleccionada"] |}
      | Some task =>
          match is_resume m tid with
          | Some t =>
              {| ret := true; post := set_timer m (Some (resumed now t)); trace := [] |}
          | None =>
              let req := ReqStartTimer portal (project_id task) tid in
              match api req with
              | Data true =>
                  {| ret := true;
                     post := set_timer m (Some
                       {| taskId := tid; projectId := project_id task;
                          startTime := now; isPaused := false;
                          pausedAt := None; totalPausedMs := 0 |});
                     trace := [Call req] |}
              | Data false => {| ret := false; post := m; trace := [Call req] |}
              | Throws msg =>
                  {| ret := false; post := m;
                     trace := [Call req; ShowErrorMessage msg;
                               ShowErrorMessage ("Error al iniciar temporizador: " +:+ msg)] |}
              end
          end
      end
  | _, _, _ =>
      {| ret := false; post := m;
         trace := [ShowErrorMessage "No se ha inicializado correctamente"] |}
  end.

Definition paused (now : Z) (t : Timer) : Timer :=
  {| taskId := taskId t; projectId := projectId t; startTime := startTime t;
     isPaused := true; pausedAt := Some now; totalPausedMs := totalPausedMs t |}.

Definition pauseTimer (api : remote) (now : Z) (m : TasksManager) : outcome :=
  match apiClient m, truthy (portalId m), portalId m, currentTimer m with
  | Some _, true, Some portal, Some t =>
      if isPaused t then
        {| ret := false; post := m;
           trace := [ShowWarningMessage "El temporizador ya está pausado"] |}
      else
        let req := ReqPauseTimer portal (projectId t) (taskId t) in
        match api req with
        | Data true =>
            {| ret := true; post := set_timer m (Some (paused now t));
               trace := [Call req] |}
        | Data false => {| ret := false; post := m; trace := [Call req] |}
        | Throws msg =>
            {| ret := false; post := m;
               trace := [Call req; ShowErrorMessage msg;
                         ShowErrorMessage ("Error al pausar temporizador: " +:+ msg)] |}
        end
  | _, _, _, _ =>
      {| ret := false; post := m;
         trace := [ShowErrorMessage "No hay un temporizador activo"] |}
  end.

(** [totalMs] as [stopTimer] computes it (lines 252-255). *)
Definition stop_totalMs (now : Z) (t : Timer) : Z :=
  now - startTime t - totalPausedMs t.

(** The [ZohoTimeLog] that [stopTimer] submits. *)
Definition stop_timeLog (now : Z) (today : string) (t : Timer) : ZohoTimeLog :=
  let totalMs := stop_totalMs now t in
  let totalMinutes := totalMs / (1000 * 60) in
  {| task_id := taskId t;
     hours := totalMinutes / 60;
     minutes := Z.rem totalMinutes 60;
     work_date := today;
     bill_status := "Billable";
     notes := "Tiempo registrado automáticamente por VS Code Extension" |}.

Definition stopTimer (api : remote) (now : Z) (today : string) (m : TasksManager)
  : outcome :=
  match apiClient m, truthy (portalId m), portalId m, currentTimer m with
  | Some _, true, Some portal, Some t =>
      let req := ReqStopTimer portal (projectId t) (taskId t) in
      match api req with
      | Data true =>
          let log := ReqLogTime portal (projectId t) (stop_timeLog now today t) in
          match api log with
          | Data _ =>
              {| ret := true; post := set_timer m None; trace := [Call req; Call log] |}
          | Throws msg =>
              {| ret := false; post := m;
                 trace := [Call req; Call log; ShowErrorMessage msg;
                           ShowErrorMessage ("Error al detener temporizador: " +:+ msg)] |}
          end
      | Data false => {| ret := false; post := m; trace := [Call req] |}
      | Throws msg =>
          {| ret := false; post := m;
             trace := [Call req; ShowErrorMessage msg;
                       ShowErrorMessage ("Error al detener temporizador: " +:+ msg)] |}
      end
  | _, _, _, _ =>
      {| ret := false; post := m;
         trace := [ShowErrorMessage "No hay un temporizador activo"] |}
  end.

(** [totalMs] as [getCurrentTimerElapsed] computes it (lines 303-311). *)
Definition elapsed_totalMs (now : Z) (t : Timer) : Z :=
  let totalMs := now - startTime t - totalPausedMs t in
  match isPaused t, pausedAt t with
  | true, Some p => totalMs - (now - p)
  | _, _ => totalMs
  end.

Definition getCurrentTimerElapsed (now : Z) (m : TasksManager) : string :=
  match currentTimer m with
  | None => "00:00:00"
  | Some t =>
      let totalSeconds := elapsed_totalMs now t / 1000 in
      let hours := totalSeconds / 3600 in
      let minutes := Z.rem totalSeconds 3600 / 60 in
      let seconds := Z.rem totalSeconds 60 in
      pad2 hours +:+ ":" +:+ pad2 minutes +:+ ":" +:+ pad2 seconds
  end.

Inductive status := running | paused_status | stopped.

Definition getTimerStatus (m : TasksManager) : status :=
  match currentTimer m with
  | None => stopped
  | Some t => if isPaused t then paused_status else running
  end.

(** [getCurrentTimerTask()]. *)
Definition getCurrentTimerTask (m : TasksManager) : option ZohoTask :=
  match currentTimer m with
  | None => None
  | Some t => findTaskById m (taskId t)
  end.

(** One call on the manager, with the clock reading and the answers of the
    remote service that it meets. *)
Inductive call :=
| CallInitialize (accessToken : string)
| CallLoadMyTasks (reply : option (list ZohoTask))
| CallStartTimer (api : remote) (now : Z) (tid : string)
| CallPauseTimer (api : remote) (now : Z)
| CallStopTimer (api : remote) (now : Z) (today : string).

Definition perform (c : call) (m : TasksManager) : TasksManager :=
  match c with
  | CallInitialize tok => initialize tok m
  | CallLoadMyTasks reply => loadMyTasks reply m
  | CallStartTimer api now tid => post (startTimer api now tid m)
  | CallPauseTimer api now => post (pauseTimer api now m)
  | CallStopTimer api now today => post (stopTimer api now today m)
  end.

Definition perform_all (cs : list call) (m : TasksManager) : TasksManager :=
  fold_left (fun m c => perform c m) cs m.

(** The clock reading of a call, if it takes one. *)
Definition reading (c : call) : option Z :=
  match c with
  | CallStartTimer _ now _ | CallPauseTimer _ now | CallStopTimer _ now _ => Some now
  | _ => None
  end.

(** The readings never go back, starting from [since]. *)
Fixpoint clock_monotone (since : Z) (cs : list call) : Prop :=
  match cs with
  | [] => True
  | c :: rest =>
      match reading c with
      | Some now => since <= now /\ clock_monotone now rest
      | None => clock_monotone since rest
      end
  end.

Fixpoint last_reading (since : Z) (cs : list call) : Z :=
  match cs with
  | [] => since
  | c :: rest => last_reading (default since (reading c)) rest
  end.

(** The bookkeeping of a timer makes sense at clock reading [T]: the paused
    total is not negative, [pausedAt] is there exactly while paused, and
    neither the start plus the pauses nor the pause lies in the future. *)
Definition consistent (T : Z) (t : Timer) : Prop :=
  0 <= totalPausedMs t /\
  match pausedAt t with
  | Some p => isPaused t = true /\ startTime t + totalPausedMs t <= p /\ p <= T
  | None => isPaused t = false /\ startTime t + totalPausedMs t <= T
  end.

End Tasks.

(* ================================================================== *)
(** ** status-bar.ts: [ZohoStatusBar] *)
(* ================================================================== *)
Module StatusBar.

Record ZohoStatusBar := {
  timer : bool;                   (* an interval is installed *)
  startTime : option Z;
  isRunning : bool;
  isPaused : bool;
  pausedDuration : Z;
  currentTask : option string;    (* the id of the task shown *)
  elapsedSeconds : Z
}.

Inductive event :=
| ShowWarningMessage (msg : string).

Definition reset (s : ZohoStatusBar) : ZohoStatusBar :=
  {| timer := false; startTime := None; isRunning := false; isPaused := false;
     pausedDuration := 0; currentTask := None; elapsedSeconds := 0 |}.

Definition start (now : Z) (task : string) (s : ZohoStatusBar)
  : ZohoStatusBar * list event :=
  if isRunning s && negb (isPaused s) then
    (s, [ShowWarningMessage
           "Ya hay un temporizador activo. Deténgalo antes de iniciar uno nuevo."])
  else
    let s1 :=
      if isPaused s then
        {| timer := timer s; startTime := Some now; isRunning := isRunning s;
           isPaused := false;
           pausedDuration :=
             match startTime s with
             | Some st => pausedDuration s + (now - st) / 1000
             | None => pausedDuration s
             end;
           currentTask := currentTask s; elapsedSeconds := elapsedSeconds s |}
      else
        {| timer := false; startTime := Some now; isRunning := false;
           isPaused := false; pausedDuration := 0; currentTask := Some task;
           elapsedSeconds := 0 |} in
    ({| timer := true; startTime := startTime s1; isRunning := true;
        isPaused := isPaused s1; pausedDuration := pausedDuration s1;
        currentTask := currentTask s1; elapsedSeconds := elapsedSeconds s1 |}, []).

Definition initial : ZohoStatusBar :=
  {| timer := false; startTime := None; isRunning := false; isPaused := false;
     pausedDuration := 0; currentTask := None; elapsedSeconds := 0 |}.

(** [pause()]: the interval is cleared and the flag raised. The text of the
    status bar item is not part of this record. *)
Definition pause (s : ZohoStatusBar) : ZohoStatusBar * list event :=
  if negb (isRunning s) then
    (s, [ShowWarningMessage "No hay un temporizador activo."])
  else if isPaused s then
    (s, [ShowWarningMessage "El temporizador ya está en pausa."])
  else
    ({| timer := false; startTime := startTime s; isRunning := isRunning s;
        isPaused := true; pausedDuration := pausedDuration s;
        currentTask := currentTask s; elapsedSeconds := elapsedSeconds s |}, []).

(** What [stop()] returns. *)
Record Stopped := {
  task : option string;
  duration : Z;
  hours : Z;
  minutes : Z;
  seconds : Z
}.

Definition stop (s : ZohoStatusBar) : ZohoStatusBar * Stopped * list event :=
  if negb (isRunning s) then
    (s, {| task := None; duration := 0; hours := 0; minutes := 0; seconds := 0 |},
     [ShowWarningMessage "No hay un temporizador activo."])
  else
    let elapsed := elapsedSeconds s in
    (reset s,
     {| task := currentTask s; duration := elapsed;
        hours := elapsed / 3600;
        minutes := Z.rem elapsed 3600 / 60;
        seconds := Z.rem elapsed 60 |},
     []).

(** [updateTimer()], which the interval runs every second. *)
Definition updateTimer (now : Z) (s : ZohoStatusBar) : ZohoStatusBar :=
  match startTime s with
  | Some st =>
      if isPaused s then s
      else {| timer := timer s; startTime := startTime s; isRunning := isRunning s;
              isPaused := isPaused s; pausedDuration := pausedDuration s;
              currentTask := currentTask s;
              elapsedSeconds := (now - st) / 1000 + pausedDuration s |}
  | None => s
  end.

Definition formatTime (secs : Z) : string :=
  let hours := secs / 3600 in
  let minutes := Z.rem secs 3600 / 60 in
  let s := Z.rem secs 60 in
  pad2 hours +:+ ":" +:+ pad2 minutes +:+ ":" +:+ pad2 s.

Definition isTimerRunning (s : ZohoStatusBar) : bool := isRunning s && negb (isPaused s).
Definition isTimerPaused (s : ZohoStatusBar) : bool := isRunning s && isPaused s.

(** What happens to a status bar: its methods are called, and the interval,
    while installed, fires. *)
Inductive action :=
| DoStart (now : Z) (task : string)
| DoPause
| DoStop
| Tick (now : Z).

Definition act (a : action) (s : ZohoStatusBar) : ZohoStatusBar :=
  match a with
  | DoStart now task => (start now task s).1
  | DoPause => (pause s).1
  | DoStop => (stop s).1.1
  | Tick now => if timer s then updateTimer now s else s
  end.

Definition act_all (l : list action) (s : ZohoStatusBar) : ZohoStatusBar :=
  fold_left (fun s a => act a s) l s.

(** The states a status bar can be in: the initial one, or running (paused
    or not) with a start time and a task, the interval installed exactly
    when not paused. *)
Definition settled (s : ZohoStatusBar) : Prop :=
  s = initial \/
  (isRunning s = true /\ timer s = negb (isPaused s) /\
   is_Some (startTime s) /\ is_Some (currentTask s)).

(** A string of the form dd:dd:dd, each d a decimal digit. *)
Definition digit (c : ascii) : bool :=
  ((48 <=? N_of_ascii c) && (N_of_ascii c <=? 57))%N.

Definition clock_shape (s : string) : bool :=
  match s with
  | String a (String b (String ":" (String c (String d (String ":"
      (String e (String f EmptyString))))))) =>
      digit a && digit b && digit c && digit d && digit e && digit f
  | _ => false
  end.

End StatusBar.

(* ================================================================== *)
(** ** local-auth-server.ts: [LocalAuthServer] *)
(* ================================================================== *)
Module LocalServer.

(** A value of the object [url.parse(u, true).query]: a string, or, when
    the key occurs more than once, the array of its values (two at least). *)
Inductive qvalue :=
| QStr (s : string)
| QArr (first second : string) (others : list string).

#[global] Instance qvalue_eq_dec : EqDecision qvalue.
Proof. solve_decision. Defined.

Definition qtruthy (v : option qvalue) : bool :=
  match v with
  | Some (QStr EmptyString) => false
  | Some _ => true
  | None => false
  end.

(** [v.toString()]: an array joins its elements with a comma. *)
Definition qtoString (v : qvalue) : string :=
  match v with
  | QStr s => s
  | QArr a b l => String.concat "," (a :: b :: l)
  end.

(** An incoming request: [req.url] and what [url.parse(req.url || "", true)]
    makes of it. *)
Record IncomingMessage := {
  url : option string;
  pathname : option string;
  query : gmap string qvalue
}.

Inductive page :=
| SuccessPage                     (* "Autenticación completada", closes itself *)
| MessagePage (message : string). (* [sendResponse] of authentication.ts.new *)

Record ServerResponse := {
  statusCode : Z;
  body : page
}.

(** What [authCodeEmitter.emit] is called with. *)
Inductive emission :=
| EmitAuthCode (code state : string)
| EmitError (message : string).

Definition handleRequest (req : IncomingMessage) : ServerResponse * emission :=
  let code := query req !! "code" in
  let state := query req !! "state" in
  ({| statusCode := 200; body := SuccessPage |},
   match code, state with
   | Some c, Some s =>
       if qtruthy code && qtruthy state
       then EmitAuthCode (qtoString c) (qtoString s)
       else EmitError "No se recibió código de autorización o estado"
   | _, _ => EmitError "No se recibió código de autorización o estado"
   end).

(** The outcome of [server.listen(port)]: the callback runs, or the server
    emits ["error"]. *)
Inductive bind_result :=
| Listening
| BindError (message : string).

Record LocalAuthServer := {
  server : option bool;           (* the http.Server, and whether it listens *)
  port : Z
}.

Definition new (p : Z) : LocalAuthServer := {| server := None; port := p |}.
Definition default_port : Z := 3000.

(** [start()]: resolves ([inl]) or rejects ([inr]) with the error. One call
    of [listen] on [this.port], nothing else. *)
Definition start (bind : Z -> bind_result) (s : LocalAuthServer)
  : LocalAuthServer * (unit + string) * list Z :=
  match server s with
  | Some _ => (s, inl tt, [])
  | None =>
      match bind (port s) with
      | Listening => ({| server := Some true; port := port s |}, inl tt, [port s])
      | BindError msg => ({| server := Some false; port := port s |}, inr msg, [port s])
      end
  end.

Definition stop (s : LocalAuthServer) : LocalAuthServer :=
  {| server := None; port := port s |}.

Definition getRedirectUri (s : LocalAuthServer) : string :=
  "http://localhost:" +:+ NilZero.string_of_int (Z.to_int (port s)) +:+ "/auth-callback".

End LocalServer.

(* ================================================================== *)
(** ** authentication.ts on the loopback listener *)
(* ================================================================== *)
Module Auth.
Import LocalServer.

Record AuthenticationSession := {
  accessToken : string;
  account_id : string;
  account_label : string;
  session_id : string;
  scopes : list string
}.

Record Provider := {
  localAuthServer : option LocalAuthServer;
  authenticationSession : option AuthenticationSession;
  isAuthenticating : bool;
  secrets : gmap string string;
  globalState : gmap string string
}.

(** An awaited call resolves with its data or throws an [Error]. *)
Inductive reply (A : Type) :=
| Ok (data : A)
| Fails (message : string).
Arguments Ok {A} data.
Arguments Fails {A} message.

Record TokenData := { access_token : string; refresh_token : string }.
Record PortalData := { user_id : option string; portal_name : option string }.

Record TokenParams := {
  grant_type : string;
  client_id : string;
  client_secret : string;
  code : string;
  redirect_uri : string
}.

Record AuthUrl := {
  q_response_type : string;
  q_client_id : string;
  q_scope : string;
  q_redirect_uri : string;
  q_state : string;
  q_access_type : string;
  q_prompt : string
}.

(** Everything outside the provider that one call of [login] consults. *)
Record Env := {
  clientId : option string;
  clientSecret : option string;
  apiDomain : option string;
  dialog : option string;         (* the button picked in the credentials dialog *)
  uuidv4 : string;
  listen : Z -> bind_result;
  openExternal : reply bool;
  token_endpoint : TokenParams -> reply TokenData;
  portal_endpoint : string -> string -> reply PortalData
}.

Inductive effect :=
| ShowInformationMessage (msg : string)
| ShowErrorMessage (msg : string)
| ShowCurrentSettings (domain client secret : string)
| ExecuteCommand (command argument : string)
| Listen (port : Z)
| CloseServer
| OpenExternal (u : AuthUrl)
| Respond (r : ServerResponse)
| PostToken (params : TokenParams)
| GetPortal (url bearer : string)
| SecretStore (key value : string)
| GlobalStateUpdate (key value : string).

(** What reaches the process while [login] awaits [waitForAuthCode]. *)
Inductive wait_event :=
| Elapse (ms : Z)
| Request (req : IncomingMessage).

(** [login] returned a session or [undefined], or its promise is still
    pending when the events run out. *)
Inductive login_result :=
| Returned (s : option AuthenticationSession)
| Waiting.

Definition scopes_list : list string :=
  ["ZohoProjects.portals.READ"; "ZohoProjects.projects.READ";
   "ZohoProjects.tasks.READ"; "ZohoProjects.tasks.CREATE";
   "ZohoProjects.timesheets.READ"; "ZohoProjects.timesheets.CREATE";
   "ZohoProjects.timesheets.UPDATE"; "ZohoProjects.timesheets.DELETE"].

Definition SCOPES : string := String.concat "," scopes_list.

Definition already_msg : string :=
  "Ya hay un proceso de autenticación en curso. Por favor, completa ese proceso primero.".
Definition mismatch_msg : string :=
  "Error de seguridad: El estado de la solicitud no coincide".
Definition no_code_msg : string :=
  "Error de autenticación: No se recibió el código de autorización".

Definition set_isAuthenticating (b : bool) (p : Provider) : Provider :=
  {| localAuthServer := localAuthServer p;
     authenticationSession := authenticationSession p;
     isAuthenticating := b; secrets := secrets p; globalState := globalState p |}.

Definition set_localAuthServer (s : option LocalAuthServer) (p : Provider) : Provider :=
  {| localAuthServer := s;
     authenticationSession := authenticationSession p;
     isAuthenticating := isAuthenticating p; secrets := secrets p;
     globalState := globalState p |}.

Definition secrets_store (k v : string) (p : Provider) : Provider :=
  {| localAuthServer := localAuthServer p;
     authenticationSession := authenticationSession p;
     isAuthenticating := isAuthenticating p; secrets := <[k:=v]> (secrets p);
     globalState := globalState p |}.

Definition set_session (s : AuthenticationSession) (p : Provider) : Provider :=
  {| localAuthServer := localAuthServer p;
     authenticationSession := Some s;
     isAuthenticating := isAuthenticating p; secrets := secrets p;
     globalState := <["zoho-account-name":=account_label s]>
                      (<["zoho-user-id":=account_id s]> (globalState p)) |}.

Definition cleanupLocalServer (p : Provider) : Provider * list effect :=
  match localAuthServer p with
  | Some s =>
      (set_localAuthServer None p,
       match server s with Some _ => [CloseServer] | None => [] end)
  | None => (p, [])
  end.

(** The tail shared by the failure paths that stop the listener:
    [await this.cleanupLocalServer(); this.isAuthenticating = false;
     return undefined]. *)
Definition abandon (p : Provider) (done : list effect)
  : login_result * Provider * list effect :=
  let '(p', closing) := cleanupLocalServer p in
  (Returned None, set_isAuthenticating false p', done ++ closing).

Definition or_default (o : option string) (d : string) : string :=
  if truthy o then default d o else d.

(** Lines 175-258: the token exchange and what follows it. *)
Definition exchange (e : Env) (domain cid csec callbackUri c : string)
    (p : Provider) (done : list effect)
  : login_result * Provider * list effect :=
  let params := {| grant_type := "authorization_code"; client_id := cid;
                   client_secret := csec; code := c;
                   redirect_uri := callbackUri |} in
  match token_endpoint e params with
  | Fails msg =>
      let shown :=
        if includes msg "redirect_uri" || includes msg "redirect uri"
        then "Error en la redirección de OAuth: " +:+ msg +:+
             ". Asegúrate de que el URI de redirección configurado en Zoho Developer Console coincide exactamente con: " +:+ callbackUri
        else "Error al procesar la autenticación: " +:+ msg in
      abandon p (done ++ [PostToken params; ShowErrorMessage shown])
  | Ok tok =>
      let p1 := secrets_store "zoho-refresh-token" (refresh_token tok)
                  (secrets_store "zoho-access-token" (access_token tok) p) in
      let stored := [PostToken params;
                     SecretStore "zoho-access-token" (access_token tok);
                     SecretStore "zoho-refresh-token" (refresh_token tok);
                     GetPortal (domain +:+ "/api/v3/portal") (access_token tok)] in
      match portal_endpoint e (domain +:+ "/api/v3/portal") (access_token tok) with
      | Fails msg =>
          let shown :=
            if includes msg "redirect_uri" || includes msg "redirect uri"
            then "Error en la redirección de OAuth: " +:+ msg +:+
                 ". Asegúrate de que el URI de redirección configurado en Zoho Developer Console coincide exactamente con: " +:+ callbackUri
            else "Error al procesar la autenticación: " +:+ msg in
          abandon p1 (done ++ stored ++ [ShowErrorMessage shown])
      | Ok who =>
          let userId := or_default (user_id who) "unknown" in
          let account := or_default (portal_name who) "Zoho Account" in
          let session := {| accessToken := access_token tok; account_id := userId;
                            account_label := account; session_id := userId;
                            scopes := scopes_list |} in
          let p2 := set_session session p1 in
          let '(p3, closing) := cleanupLocalServer p2 in
          (Returned (Some session), set_isAuthenticating false p3,
           done ++ stored ++
           [GlobalStateUpdate "zoho-user-id" userId;
            GlobalStateUpdate "zoho-account-name" account;
            ShowInformationMessage ("Se ha iniciado sesión en Zoho Projects como " +:+ account)]
           ++ closing)
      end
  end.

(** The first request served while [waitForAuthCode] is pending settles its
    promise; the passing of time does not. *)
Fixpoint first_request (events : list wait_event) : option IncomingMessage :=
  match events with
  | [] => None
  | Elapse _ :: rest => first_request rest
  | Request req :: _ => Some req
  end.

(** Lines 140-269: from [waitForAuthCode] on. *)
Definition await_code (e : Env) (events : list wait_event)
    (domain cid csec callbackUri state : string)
    (p : Provider) (done : list effect)
  : login_result * Provider * list effect :=
  match first_request events with
  | None => (Waiting, p, done)
  | Some req =>
      let '(res, emitted) := handleRequest req in
      match emitted with
      | EmitError msg =>
          abandon p (done ++ [Respond res;
            ShowErrorMessage ("Error en el proceso de autenticación: " +:+ msg)])
      | EmitAuthCode c returnedState =>
          if negb (String.eqb returnedState state) then
            abandon p (done ++ [Respond res; ShowErrorMessage mismatch_msg])
          else if String.eqb c "" then
            abandon p (done ++ [Respond res; ShowErrorMessage no_code_msg])
          else
            exchange e domain cid csec callbackUri c p
              (done ++ [Respond res; ShowInformationMessage
                 "Autenticación en progreso. Procesando credenciales..."])
      end
  end.

Definition login (e : Env) (events : list wait_event) (p : Provider)
  : login_result * Provider * list effect :=
  if isAuthenticating p then
    (Returned None, p, [ShowInformationMessage already_msg])
  else
    let p0 := set_isAuthenticating true p in
    let domain := or_default (apiDomain e) "https://projectsapi.zoho.com" in
    match truthy (clientId e) && truthy (clientSecret e), clientId e, clientSecret e with
    | true, Some cid, Some csec =>
        let state := uuidv4 e in
        let '(srv, started, ports) := LocalServer.start (listen e) (LocalServer.new default_port) in
        let p1 := set_localAuthServer (Some srv) p0 in
        match started with
        | inr msg =>
            (Returned None, set_isAuthenticating false p1,
             map Listen ports ++ [ShowErrorMessage ("Error de autenticación: " +:+ msg)])
        | inl _ =>
            let callbackUri := getRedirectUri srv in
            let authUrl := {| q_response_type := "code"; q_client_id := cid;
                              q_scope := SCOPES; q_redirect_uri := callbackUri;
                              q_state := state; q_access_type := "offline";
                              q_prompt := "consent" |} in
            match openExternal e with
            | Fails msg =>
                abandon p1 (map Listen ports ++
                  [OpenExternal authUrl;
                   ShowErrorMessage ("Error al abrir el navegador: " +:+ msg)])
            | Ok _ =>
                await_code e events domain cid csec callbackUri state p1
                  (map Listen ports ++
                   [OpenExternal authUrl;
                    ShowInformationMessage "Se ha abierto una ventana del navegador para iniciar sesión en Zoho Projects. Por favor, completa el proceso en tu navegador."])
            end
        end
    | _, _, _ =>
        let shown := ShowErrorMessage
          "Necesitas configurar el Client ID y Client Secret para OAuth de Zoho Projects" in
        let followup :=
          match dialog e with
          | Some "Configurar ahora" =>
              [ExecuteCommand "workbench.action.openSettings" "zohoProjects"]
          | Some "Mostrar valores actuales" =>
              [ShowCurrentSettings domain
                 (or_default (clientId e) "(no configurado)")
                 (if truthy (clientSecret e) then "(configurado pero oculto)"
                  else "(no configurado)")]
          | _ => []
          end in
        (Returned None, set_isAuthenticating false p0, shown :: followup)
    end.

(** The provider while it awaits the redirect: flag raised, server
    listening on the default port. *)
Definition awaiting (p : Provider) : Provider :=
  set_localAuthServer (Some {| server := Some true; port := default_port |})
    (set_isAuthenticating true p).

(** The effects of [login] up to [waitForAuthCode]. *)
Definition opening (cid state : string) : list effect :=
  [Listen default_port;
   OpenExternal {| q_response_type := "code"; q_client_id := cid;
                   q_scope := SCOPES;
                   q_redirect_uri := "http://localhost:3000/auth-callback";
                   q_state := state; q_access_type := "offline";
                   q_prompt := "consent" |};
   ShowInformationMessage "Se ha abierto una ventana del navegador para iniciar sesión en Zoho Projects. Por favor, completa el proceso en tu navegador."].

(** The parameters of the POST to the token endpoint. *)
Definition token_params (cid csec c : string) : TokenParams :=
  {| grant_type := "authorization_code"; client_id := cid; client_secret := csec;
     code := c; redirect_uri := "http://localhost:3000/auth-callback" |}.

(** *** The session *)

Inductive logout_effect :=
| SecretDelete (key : string)
| GlobalStateClear (key : string)
| LogoutMessage (msg : string)
| LogoutError (msg : string).

Definition secrets_delete (k : string) (p : Provider) : Provider :=
  {| localAuthServer := localAuthServer p;
     authenticationSession := authenticationSession p;
     isAuthenticating := isAuthenticating p; secrets := delete k (secrets p);
     globalState := globalState p |}.

(** [logout()]. [storage k] is what [await secrets.delete(k)] comes to: it
    resolves, or it rejects and the secret stays. A rejection leads to the
    [catch] (lines 306-313): what follows in the [try] is skipped and the
    error is shown. When both resolve, the two entries of the global state
    are set to [undefined] and the session is forgotten. *)
Definition logout (storage : string -> reply unit) (p : Provider)
  : Provider * list logout_effect :=
  match storage "zoho-access-token" with
  | Fails msg =>
      (p, [SecretDelete "zoho-access-token";
           LogoutError ("Error al cerrar sesión: " +:+ msg)])
  | Ok _ =>
      let p1 := secrets_delete "zoho-access-token" p in
      match storage "zoho-refresh-token" with
      | Fails msg =>
          (p1, [SecretDelete "zoho-access-token"; SecretDelete "zoho-refresh-token";
                LogoutError ("Error al cerrar sesión: " +:+ msg)])
      | Ok _ =>
          let p2 := secrets_delete "zoho-refresh-token" p1 in
          ({| localAuthServer := localAuthServer p2;
              authenticationSession := None;
              isAuthenticating := isAuthenticating p2;
              secrets := secrets p2;
              globalState := delete "zoho-account-name"
                               (delete "zoho-user-id" (globalState p2)) |},
           [SecretDelete "zoho-access-token"; SecretDelete "zoho-refresh-token";
            GlobalStateClear "zoho-user-id"; GlobalStateClear "zoho-account-name";
            LogoutMessage "Se ha cerrado la sesión de Zoho Projects"])
      end
  end.

(** [isAuthenticated()]: [!!accessToken]. *)
Definition isAuthenticated (p : Provider) : bool :=
  truthy (secrets p !! "zoho-access-token").

(** [getAccessToken()]. *)
Definition getAccessToken (p : Provider) : option string :=
  if truthy (secrets p !! "zoho-access-token")
  then secrets p !! "zoho-access-token"
  else None.

End Auth.

(* ================================================================== *)
(** ** authentication.ts.new: the draft provider with its own HTTP server *)
(* ================================================================== *)
Module AuthDraft.
Import LocalServer.

(** How the request handler settles the promise of [startLocalServer]
    before any network call. *)
Inductive verdict :=
| Ignored                         (* responded, promise untouched *)
| Rejected (message : string)
| Proceed (code : qvalue).        (* goes on to the token exchange *)

Definition sendResponse (status : Z) (message : string) : ServerResponse :=
  {| statusCode := status; body := MessagePage message |}.

(** Lines 118-156 of the handler given to [http.createServer]. *)
Definition handleCallback (state : string) (req : IncomingMessage)
  : ServerResponse * verdict :=
  if negb (truthy (url req)) then (sendResponse 400 "URL no válida", Ignored)
  else if negb (bool_decide (pathname req = Some "/auth-callback")) then
    (sendResponse 404 "Página no encontrada", Ignored)
  else if negb (bool_decide (query req !! "state" = Some (QStr state))) then
    (sendResponse 400 "Estado no válido. Intente nuevamente.",
     Rejected "El estado no coincide")
  else
    match query req !! "code" with
    | Some c =>
        if qtruthy (Some c) then
          (sendResponse 200
             "¡Autenticación exitosa! Puedes cerrar esta ventana y volver a VS Code.",
           Proceed c)
        else (sendResponse 400 "No se recibió código de autorización",
              Rejected "No se recibió código de autorización")
    | None => (sendResponse 400 "No se recibió código de autorización",
               Rejected "No se recibió código de autorización")
    end.

(** Where the binding of [startLocalServer] ends up. *)
Inductive binding :=
| Bound (port : Z)                (* listening; the promise awaits a request *)
| BindRejected (message : string).

(** Lines 238-255: [listen] on [serverPort]; on an ["error"] whose message
    includes EADDRINUSE, [serverPort++] and [startLocalServer] again, with
    the same handler installed; any other error rejects. The list is the
    ports given to [listen], in order. [fuel] bounds the recursion of the
    model only: the source has no counter. *)
Fixpoint startLocalServer (fuel : nat) (bind : Z -> bind_result) (serverPort : Z)
  : option (binding * list Z) :=
  match fuel with
  | O => None
  | S fuel' =>
      match bind serverPort with
      | Listening => Some (Bound serverPort, [serverPort])
      | BindError msg =>
          if includes msg "EADDRINUSE" then
            match startLocalServer fuel' bind (serverPort + 1) with
            | Some (b, tried) => Some (b, serverPort :: tried)
            | None => None
            end
          else Some (BindRejected msg, [serverPort])
      end
  end.

(** The bind failed because the port is in use, as the ["error"] handler
    tests it. *)
Definition in_use (r : bind_result) : bool :=
  match r with
  | Listening => false
  | BindError msg => includes msg "EADDRINUSE"
  end.

(** What a bind that is not retried makes of the promise. *)
Definition settle (r : bind_result) (port : Z) : binding :=
  match r with
  | Listening => Bound port
  | BindError msg => BindRejected msg
  end.

(** The ports [p], [p + 1], ..., [n] of them. *)
Fixpoint ports_from (p : Z) (n : nat) : list Z :=
  match n with
  | O => []
  | S n' => p :: ports_from (p + 1) n'
  end.

End AuthDraft.

(* ================================================================== *)
(** ** authentication.ts on the custom-scheme URI handler *)
(* ================================================================== *)
Module UriAuth.
Import Auth.

(** A [vscode.Uri] as far as the provider reads it. *)
Record Uri := {
  query : string;                 (* uri.query *)
  toString : string               (* uri.toString() *)
}.

(** *** [URLSearchParams] (the urlencoded parser of the URL standard) *)

Definition hex_digit (c : ascii) : option N :=
  let n := N_of_ascii c in
  if ((48 <=? n) && (n <=? 57))%N then Some (n - 48)%N
  else if ((65 <=? n) && (n <=? 70))%N then Some (n - 55)%N
  else if ((97 <=? n) && (n <=? 102))%N then Some (n - 87)%N
  else None.

Fixpoint percent_decode (s : string) : string :=
  match s with
  | EmptyString => EmptyString
  | String c tl =>
      match tl with
      | String a (String b rest) =>
          match Ascii.eqb c "%", hex_digit a, hex_digit b with
          | true, Some x, Some y => String (ascii_of_N (16 * x + y)) (percent_decode rest)
          | _, _, _ => String c (percent_decode tl)
          end
      | _ => String c (percent_decode tl)
      end
  end.

Fixpoint plus_to_space (s : string) : string :=
  match s with
  | EmptyString => EmptyString
  | String c tl => String (if Ascii.eqb c "+" then " "%char else c) (plus_to_space tl)
  end.

(** [s.split(sep)] for a one-character separator. *)
Fixpoint split_on (sep : ascii) (s : string) : list string :=
  match s with
  | EmptyString => [EmptyString]
  | String c tl =>
      if Ascii.eqb c sep then EmptyString :: split_on sep tl
      else match split_on sep tl with
           | piece :: pieces => String c piece :: pieces
           | [] => [String c EmptyString]
           end
  end.

(** Name and value of one sequence: cut at the first [=]. *)
Fixpoint cut_at_eq (s : string) : string * string :=
  match s with
  | EmptyString => (EmptyString, EmptyString)
  | String c tl =>
      if Ascii.eqb c "=" then (EmptyString, tl)
      else let '(n, v) := cut_at_eq tl in (String c n, v)
  end.

Definition URLSearchParams (init : string) : list (string * string) :=
  let init' := match init with
               | String "?" tl => tl
               | _ => init
               end in
  omap (fun piece =>
          if String.eqb piece "" then None
          else let '(n, v) := cut_at_eq piece in
               Some (percent_decode (plus_to_space n),
                     percent_decode (plus_to_space v)))
       (split_on "&" init').

Fixpoint params_get (k : string) (ps : list (string * string)) : option string :=
  match ps with
  | [] => None
  | (n, v) :: rest => if String.eqb n k then Some v else params_get k rest
  end.

(** *** The fallback of [extractQueryParams] *)

(** Lines 459-485: the first rule whose test holds rewrites the string. *)
Definition normalize (uriString : string) : string :=
  if startsWith uriString "https://vscode//" then
    replace uriString "https://vscode//" "vscode://"
  else if startsWith uriString "http://vscode//" then
    replace uriString "http://vscode//" "vscode://"
  else if includes uriString "vscode:/zoho-projects" then
    replace uriString "vscode:/" "vscode://"
  else if includes uriString "vscode:///" then
    replace uriString "vscode:///" "vscode://"
  else uriString.

Fixpoint until_amp (s : string) : string :=
  match s with
  | EmptyString => EmptyString
  | String c tl => if Ascii.eqb c "&" then EmptyString else String c (until_amp tl)
  end.

(** [s.match(/[?&]key=([^&]+)/)]: the capture of the leftmost match. *)
Fixpoint regex_param (key : string) (s : string) : option string :=
  match s with
  | EmptyString => None
  | String c tl =>
      if (Ascii.eqb c "?" || Ascii.eqb c "&") && startsWith tl (key +:+ "=") then
        match until_amp (drop_chars (String.length key + 1) tl) with
        | EmptyString => regex_param key tl
        | captured => Some captured
        end
      else regex_param key tl
  end.

Definition extractQueryParams (uri : Uri) : option string * option string :=
  let q := URLSearchParams (query uri) in
  let strict_code := params_get "code" q in
  let strict_state := params_get "state" q in
  if truthy strict_code && truthy strict_state then (strict_code, strict_state)
  else
    let normalizedUriString := normalize (toString uri) in
    (regex_param "code" normalizedUriString,
     regex_param "state" normalizedUriString).

Definition canonical_prefix : string :=
  "vscode://zoho-projects-time-tracker/auth-callback?".

(** *** The provider *)

Record Provider := {
  uriHandlerRegistration : bool;    (* the static registration is defined *)
  authenticationSession : option AuthenticationSession;
  secrets : gmap string string;
  globalState : gmap string string
}.

Inductive effect :=
| ShowInformationMessage (msg : string)
| ShowErrorMessage (msg : string)
| ShowWarningMessage (msg : string)
| ShowCurrentSettings (domain client secret : string)
| ExecuteCommand (command argument : string)
| RunCommand (command : string)   (* [executeCommand] without an argument *)
| SetTimeout (ms : Z)
| ClearTimeout
| RegisterUriHandler
| DisposeUriHandler
| OpenExternal (u : AuthUrl)
| OpenFile (path : string)
| PostToken (params : TokenParams)
| GetPortal (url bearer : string)
| SecretStore (key value : string)
| GlobalStateUpdate (key value : string).

Inductive wait_event :=
| Elapse (ms : Z)
| HandleUri (uri : Uri).

Definition callbackUri : string := "vscode://zoho-projects-time-tracker/auth-callback".

(** [10 * 60 * 1000], the delay given to [setTimeout]. *)
Definition deadline_ms : Z := 10 * 60 * 1000.

Definition timeout_msg : string := "Tiempo de espera de autenticación agotado".

Definition set_registration (b : bool) (p : Provider) : Provider :=
  {| uriHandlerRegistration := b;
     authenticationSession := authenticationSession p;
     secrets := secrets p; globalState := globalState p |}.

Definition secrets_store (k v : string) (p : Provider) : Provider :=
  {| uriHandlerRegistration := uriHandlerRegistration p;
     authenticationSession := authenticationSession p;
     secrets := <[k:=v]> (secrets p); globalState := globalState p |}.

Definition set_session (s : AuthenticationSession) (p : Provider) : Provider :=
  {| uriHandlerRegistration := uriHandlerRegistration p;
     authenticationSession := Some s;
     secrets := secrets p;
     globalState := <["zoho-account-name":=account_label s]>
                      (<["zoho-user-id":=account_id s]> (globalState p)) |}.

Definition clearUriHandler (p : Provider) : Provider * list effect :=
  if uriHandlerRegistration p then (set_registration false p, [DisposeUriHandler])
  else (p, []).

(** A rejection of the promise of [setupUriHandler] reaches the [catch] of
    [login] (lines 142-151). *)
Definition rejected (msg : string) (p : Provider) (done : list effect)
  : login_result * Provider * list effect :=
  let '(p', clearing) := clearUriHandler p in
  (Returned None, p',
   done ++ clearing ++ [ShowErrorMessage ("Error de autenticación: " +:+ msg)]).

(** Lines 238-342 of [handleUri]. *)
Definition exchange (e : Env) (domain cid csec c : string)
    (p : Provider) (done : list effect)
  : login_result * Provider * list effect :=
  let params := {| grant_type := "authorization_code"; client_id := cid;
                   client_secret := csec; code := c;
                   redirect_uri := callbackUri |} in
  let failed (msg : string) (p : Provider) (done : list effect) :=
    let shown :=
      if includes msg "redirect_uri" || includes msg "redirect uri"
         || includes msg "redireccionamiento"
      then ShowErrorMessage
             ("Error en la redirección de OAuth: " +:+ msg +:+
              ". Asegúrate de que el URI de redirección configurado en Zoho Developer Console coincide EXACTAMENTE con (incluyendo mayúsculas y minúsculas): " +:+ callbackUri)
           :: match dialog e with
              | Some "Ver instrucciones" =>
                  [OpenFile "c:\Users\Usuario\Documents\zoho\AUTENTICACION_VSCODE.md"]
              | _ => []
              end
      else [ShowErrorMessage ("Error al procesar la autenticación: " +:+ msg)] in
    let '(p', clearing) := clearUriHandler p in
    rejected msg p' (done ++ shown ++ clearing) in
  match token_endpoint e params with
  | Fails msg => failed msg p (done ++ [PostToken params])
  | Ok tok =>
      let p1 := secrets_store "zoho-refresh-token" (refresh_token tok)
                  (secrets_store "zoho-access-token" (access_token tok) p) in
      let stored := [PostToken params;
                     SecretStore "zoho-access-token" (access_token tok);
                     SecretStore "zoho-refresh-token" (refresh_token tok);
                     GetPortal (domain +:+ "/api/v3/portal") (access_token tok)] in
      match portal_endpoint e (domain +:+ "/api/v3/portal") (access_token tok) with
      | Fails msg => failed msg p1 (done ++ stored)
      | Ok who =>
          let userId := or_default (user_id who) "unknown" in
          let account := or_default (portal_name who) "Zoho Account" in
          let session := {| accessToken := access_token tok; account_id := userId;
                            account_label := account; session_id := userId;
                            scopes := scopes_list |} in
          let '(p2, clearing) := clearUriHandler (set_session session p1) in
          (Returned (Some session), p2,
           done ++ stored ++
           [GlobalStateUpdate "zoho-user-id" userId;
            GlobalStateUpdate "zoho-account-name" account;
            ShowInformationMessage ("Se ha iniciado sesión en Zoho Projects como " +:+ account)]
           ++ clearing)
      end
  end.

(** Lines 195-237 of [handleUri]. *)
Definition handleUri (e : Env) (domain cid csec state : string) (uri : Uri)
    (p : Provider) (done : list effect)
  : login_result * Provider * list effect :=
  let '(c, returnedState) := extractQueryParams uri in
  if negb (bool_decide (returnedState = Some state)) then
    let '(p', clearing) := clearUriHandler p in
    rejected "El estado no coincide" p'
      (done ++ [ClearTimeout; ShowErrorMessage mismatch_msg] ++ clearing)
  else
    match truthy c, c with
    | true, Some c' =>
        exchange e domain cid csec c' p
          (done ++ [ClearTimeout; ShowInformationMessage
             "Autenticación en progreso. Procesando credenciales..."])
    | _, _ =>
        let '(p', clearing) := clearUriHandler p in
        rejected "No se recibió código de autorización" p'
          (done ++ [ClearTimeout; ShowErrorMessage no_code_msg] ++ clearing)
    end.

(** *** The timers of [setupUriHandler] *)

(** A timer that [setupUriHandler] armed (line 174) and that has neither
    fired nor been cleared: the milliseconds left on it, and whether a
    [login] awaits the promise that its callback rejects. Only [handleUri]
    clears the timer (line 197): when the browser could not be opened,
    [login] returns and the timer stays armed (lines 126-135). *)
Record ArmedTimer := {
  due_in : Z;
  settles_login : bool
}.

Definition expired_msg : string :=
  "La autenticación ha expirado. Por favor, inténtalo de nuevo.".

(** The button of the warning (lines 178-187). *)
Definition instructions (e : Env) : list effect :=
  if bool_decide (dialog e = Some "Ver instrucciones")
  then [RunCommand "zoho-projects-time-tracker.showAuthInstructions"]
  else [].

(** The callback of a timer (lines 174-190): the warning, [clearUriHandler]
    on whatever handler is registered at that time, and [reject]; when a
    [login] awaits the promise, its [catch] follows (lines 142-151). *)
Definition timer_fires (e : Env) (awaiting_login : bool) (p : Provider)
  : Provider * list effect :=
  let '(p1, clearing) := clearUriHandler p in
  let shown := ShowWarningMessage expired_msg :: clearing in
  if awaiting_login then
    let '(_, p2, eff) := rejected timeout_msg p1 shown in (p2, eff ++ instructions e)
  else (p1, shown ++ instructions e).

(** The timers are kept in the order in which they were armed; as each is
    armed with the same delay, that is the order in which they fire. *)
Fixpoint fire_all (e : Env) (ts : list ArmedTimer) (p : Provider)
  : Provider * list effect :=
  match ts with
  | [] => (p, [])
  | t :: rest =>
      let '(p1, eff1) := timer_fires e (settles_login t) p in
      let '(p2, eff2) := fire_all e rest p1 in
      (p2, eff1 ++ eff2)
  end.

(** The timers that fire within [ms], and what is left of the others. *)
Definition fired_within (ms : Z) (ts : list ArmedTimer) : list ArmedTimer :=
  List.filter (fun t => (due_in t <=? ms)%Z) ts.

Definition still_armed (ms : Z) (ts : list ArmedTimer) : list ArmedTimer :=
  map (fun t => {| due_in := due_in t - ms; settles_login := settles_login t |})
      (List.filter (fun t => negb (due_in t <=? ms)%Z) ts).

(** Time that passes between two calls of [login]. *)
Definition pass (e : Env) (ms : Z) (p : Provider) (ts : list ArmedTimer)
  : Provider * list effect * list ArmedTimer :=
  let '(p', eff) := fire_all e (fired_within ms ts) p in
  (p', eff, still_armed ms ts).

(** [await authPromise] (line 139): [remaining] is left on the timer of
    this attempt, [earlier] are the timers of earlier attempts that are
    still armed. A timer of an earlier attempt that is due at the same time
    fires first. A URI reaches the handler only while one is registered. *)
Fixpoint await_auth (e : Env) (domain cid csec state : string) (remaining : Z)
    (earlier : list ArmedTimer) (events : list wait_event)
    (p : Provider) (done : list effect)
  : login_result * Provider * list effect * list ArmedTimer :=
  match events with
  | [] =>
      (Waiting, p, done,
       earlier ++ [{| due_in := remaining; settles_login := true |}])
  | Elapse ms :: rest =>
      if (remaining <=? ms)%Z then
        let '(p1, eff1) := fire_all e (fired_within remaining earlier) p in
        let '(p2, eff2) := timer_fires e true p1 in
        (Returned None, p2, done ++ eff1 ++ eff2, still_armed remaining earlier)
      else
        let '(p1, eff1) := fire_all e (fired_within ms earlier) p in
        await_auth e domain cid csec state (remaining - ms) (still_armed ms earlier)
          rest p1 (done ++ eff1)
  | HandleUri uri :: rest =>
      if uriHandlerRegistration p then
        let '(r, p', eff) := handleUri e domain cid csec state uri p done in
        (r, p', eff, earlier)
      else await_auth e domain cid csec state remaining earlier rest p done
  end.

(** [login()], with the timers of earlier attempts that are still armed when
    it is called and those that are armed when it has got as far as
    [events] take it. *)
Definition login_with_timers (e : Env) (earlier : list ArmedTimer)
    (events : list wait_event) (p : Provider)
  : login_result * Provider * list effect * list ArmedTimer :=
  if uriHandlerRegistration p then
    (Returned None, p, [ShowInformationMessage already_msg], earlier)
  else
    let domain := or_default (apiDomain e) "https://projectsapi.zoho.com" in
    match truthy (clientId e) && truthy (clientSecret e), clientId e, clientSecret e with
    | true, Some cid, Some csec =>
        let state := uuidv4 e in
        let authUrl := {| q_response_type := "code"; q_client_id := cid;
                          q_scope := SCOPES; q_redirect_uri := callbackUri;
                          q_state := state; q_access_type := "offline";
                          q_prompt := "consent" |} in
        (* setupUriHandler *)
        let '(p0, clearing) := clearUriHandler p in
        let p1 := set_registration true p0 in
        let setup := clearing ++ [SetTimeout deadline_ms; RegisterUriHandler] in
        match openExternal e with
        | Fails msg =>
            let '(p2, clearing2) := clearUriHandler p1 in
            (Returned None, p2,
             setup ++ [OpenExternal authUrl;
                       ShowErrorMessage ("Error al abrir el navegador: " +:+ msg)]
             ++ clearing2,
             earlier ++ [{| due_in := deadline_ms; settles_login := false |}])
        | Ok _ =>
            await_auth e domain cid csec state deadline_ms earlier events p1
              (setup ++
               [OpenExternal authUrl;
                ShowInformationMessage "Se ha abierto una ventana del navegador para iniciar sesión en Zoho Projects. Por favor, completa el proceso en tu navegador."])
        end
    | _, _, _ =>
        let shown := ShowErrorMessage
          "Necesitas configurar el Client ID y Client Secret para OAuth de Zoho Projects" in
        let followup :=
          match dialog e with
          | Some "Configurar ahora" =>
              [ExecuteCommand "workbench.action.openSettings" "zohoProjects"]
          | Some "Mostrar valores actuales" =>
              [ShowCurrentSettings domain
                 (or_default (clientId e) "(no configurado)")
                 (if truthy (clientSecret e) then "(configurado pero oculto)"
                  else "(no configurado)")]
          | _ => []
          end in
        (Returned None, p, shown :: followup, earlier)
    end.

(** [login()] when no timer of an earlier attempt is armed. *)
Definition login (e : Env) (events : list wait_event) (p : Provider)
  : login_result * Provider * list effect :=
  (login_with_timers e [] events p).1.

(** What ends the wait of an attempt that no earlier timer disturbs: its
    timer, set for [remaining] milliseconds, or the handler. *)
Inductive awaited :=
| StillPending
| TimerFired
| Invoked (uri : Uri).

Fixpoint await_uri (remaining : Z) (events : list wait_event) : awaited :=
  match events with
  | [] => StillPending
  | Elapse ms :: rest =>
      if (remaining <=? ms)%Z then TimerFired else await_uri (remaining - ms) rest
  | HandleUri uri :: _ => Invoked uri
  end.

(** *** Queries to state properties with *)

(** No character of [s] is one of [bad]. *)
Fixpoint lacks (bad : list ascii) (s : string) : bool :=
  match s with
  | EmptyString => true
  | String c tl => negb (existsb (Ascii.eqb c) bad) && lacks bad tl
  end.

(** A name or value that needs no encoding in a query. *)
Definition plain (s : string) : bool :=
  lacks ["&"; "="; "+"; "%"; "?"]%char s.

(** [name=value] pairs joined with [&]. *)
Definition render (pairs : list (string * string)) : string :=
  String.concat "&" (map (fun kv => kv.1 +:+ "=" +:+ kv.2) pairs).

(** The time that a list of waits takes. *)
Definition total (ds : list Z) : Z := foldr Z.add 0 ds.

End UriAuth.

(* ================================================================== *)
(** ** views.ts: [TasksProvider] *)
(* ================================================================== *)
Module Views.

Record ZohoProject := {
  project_id : string;
  project_name : string;
  project_status : string
}.

(** [ZohoTask] with the fields the tree reads. *)
Inductive ZohoTask := {
  id : string;
  name : string;
  status : string;
  task_project_id : string;         (* task.project.id *)
  subtasks : option (list ZohoTask)
}.

Inductive TreeItemCollapsibleState := StateNone | Collapsed | Expanded.

Record Meta := {
  taskId : option string;
  projectId : option string;
  parentTaskId : option string
}.

Record TaskTreeItem := {
  label : string;
  description : string;
  collapsibleState : TreeItemCollapsibleState;
  contextValue : string;
  meta : option Meta
}.

Record TasksProvider := {
  tasks : list ZohoTask;
  projects : gmap string ZohoProject
}.

(** [setData]: the map is cleared and filled again, a later project with
    the same id replacing an earlier one. *)
Definition setData (ts : list ZohoTask) (ps : list ZohoProject) : TasksProvider :=
  {| tasks := ts;
     projects := fold_left (fun m pr => <[project_id pr := pr]> m) ps ∅ |}.

(** The [Map] built at the root level: keys in the order of their first
    insertion, each with the tasks pushed to it. *)
Fixpoint map_push (k : string) (t : ZohoTask) (m : list (string * list ZohoTask))
  : list (string * list ZohoTask) :=
  match m with
  | [] => [(k, [t])]
  | (k', ts) :: rest =>
      if String.eqb k' k then (k', ts ++ [t]) :: rest
      else (k', ts) :: map_push k t rest
  end.

Definition projectMap (ts : list ZohoTask) : list (string * list ZohoTask) :=
  fold_left (fun m t => map_push (task_project_id t) t m) ts [].

(** [status.toLowerCase()] on the letters A-Z. *)
Definition lower (c : ascii) : ascii :=
  let n := N_of_ascii c in
  if ((65 <=? n) && (n <=? 90))%N then ascii_of_N (n + 32) else c.

Fixpoint toLowerCase (s : string) : string :=
  match s with
  | EmptyString => EmptyString
  | String c tl => String (lower c) (toLowerCase tl)
  end.

Definition getTaskStatusText (st : string) : string :=
  let l := toLowerCase st in
  if String.eqb l "open" then "Abierta"
  else if String.eqb l "in progress" then "En progreso"
  else if String.eqb l "completed" then "Completada"
  else if String.eqb l "deferred" then "Pospuesta"
  else if String.eqb l "closed" then "Cerrada"
  else st.

Definition findTaskById (p : TasksProvider) (tid : string) : option ZohoTask :=
  match List.find (fun t => String.eqb (id t) tid) (tasks p) with
  | Some t => Some t
  | None =>
      (fix in_subtasks (ts : list ZohoTask) : option ZohoTask :=
         match ts with
         | [] => None
         | parent :: rest =>
             match subtasks parent with
             | Some sts =>
                 match List.find (fun st => String.eqb (id st) tid) sts with
                 | Some st => Some st
                 | None => in_subtasks rest
                 end
             | None => in_subtasks rest
             end
         end) (tasks p)
  end.

Definition has_subtasks (t : ZohoTask) : bool :=
  match subtasks t with
  | Some (_ :: _) => true
  | _ => false
  end.

Definition project_item (p : TasksProvider) (pid : string) : TaskTreeItem :=
  {| label := match projects p !! pid with
              | Some pr => project_name pr
              | None => "Proyecto desconocido"
              end;
     description := "";
     collapsibleState := Expanded;
     contextValue := "project";
     meta := Some {| taskId := None; projectId := Some pid; parentTaskId := None |} |}.

Definition task_item (t : ZohoTask) : TaskTreeItem :=
  {| label := name t;
     description := getTaskStatusText (status t);
     collapsibleState := if has_subtasks t then Collapsed else StateNone;
     contextValue := "task";
     meta := Some {| taskId := Some (id t); projectId := Some (task_project_id t);
                     parentTaskId := None |} |}.

Definition subtask_item (parent st : ZohoTask) : TaskTreeItem :=
  {| label := name st;
     description := getTaskStatusText (status st);
     collapsibleState := StateNone;
     contextValue := "subtask";
     meta := Some {| taskId := Some (id st); projectId := Some (task_project_id parent);
                     parentTaskId := Some (id parent) |} |}.

(** [getChildren(element)]. *)
Definition getChildren (p : TasksProvider) (element : option TaskTreeItem)
  : list TaskTreeItem :=
  match element with
  | None => map (fun entry => project_item p entry.1) (projectMap (tasks p))
  | Some el =>
      if String.eqb (contextValue el) "project" then
        match meta el ≫= projectId with
        | Some pid =>
            if String.eqb pid "" then []
            else map task_item
                   (filter (fun t => task_project_id t = pid) (tasks p))
        | None => []
        end
      else if String.eqb (contextValue el) "task" && truthy (meta el ≫= taskId) then
        match meta el ≫= taskId with
        | Some tid =>
            match findTaskById p tid with
            | Some t =>
                if has_subtasks t
                then map (subtask_item t) (default [] (subtasks t))
                else []
            | None => []
            end
        | None => []
        end
      else []
  end.

(** The project ids of the [Map] built at the root level, in its order. *)
Definition keys (m : list (string * list ZohoTask)) : list string := map fst m.

End Views.

(* ================================================================== *)
(** ** extension.ts: the timer commands *)
(* ================================================================== *)
Module Extension.

(** The two module-level instances that the timer commands drive. The tree
    view of the timer, which [updateTimerView] refreshes from them, keeps
    nothing that the commands read back and is left out. *)
Record State := {
  tasksManager : Tasks.TasksManager;
  statusBar : StatusBar.ZohoStatusBar
}.

Inductive event :=
| FromManager (e : Tasks.event)
| FromStatusBar (e : StatusBar.event)
| ShowInformationMessage (msg : string)
| ShowWarningMessage (msg : string).

(** [tasksManager.startTimer(task.id)] and, on success, [statusBar.start(task)]
    and the message; the two objects read the clock one after the other. *)
Definition start_task (api : Tasks.remote) (nowM nowB : Z) (task : Tasks.ZohoTask)
    (said : string) (st : State) : State * list event :=
  let o := Tasks.startTimer api nowM (Tasks.id task) (tasksManager st) in
  if Tasks.ret o then
    let '(bar, shown) := StatusBar.start nowB (Tasks.id task) (statusBar st) in
    ({| tasksManager := Tasks.post o; statusBar := bar |},
     map FromManager (Tasks.trace o) ++ map FromStatusBar shown ++
     [ShowInformationMessage (said +:+ Tasks.name task)])
  else
    ({| tasksManager := Tasks.post o; statusBar := statusBar st |},
     map FromManager (Tasks.trace o)).

(** The command [startTimer]; [pick] is the index chosen in the quick pick,
    if one was. *)
Definition startTimerCommand (api : Tasks.remote) (nowM nowB : Z) (pick : option nat)
    (st : State) : State * list event :=
  match Tasks.getTimerStatus (tasksManager st) with
  | Tasks.paused_status =>
      match Tasks.getCurrentTimerTask (tasksManager st) with
      | Some task => start_task api nowM nowB task "Temporizador reanudado para: " st
      | None => (st, [])
      end
  | _ =>
      match Tasks.tasks (tasksManager st) with
      | [] => (st, [ShowWarningMessage
                      "No hay tareas disponibles. Actualiza las tareas primero."])
      | _ =>
          match pick ≫= (fun i => Tasks.tasks (tasksManager st) !! i) with
          | Some task => start_task api nowM nowB task "Temporizador iniciado para: " st
          | None => (st, [])
          end
      end
  end.

(** "Iniciar temporizador" chosen for an item of the tasks tree. *)
Definition startFromTree (api : Tasks.remote) (nowM nowB : Z) (tid : string)
    (st : State) : State * list event :=
  match List.find (fun t => bool_decide (Tasks.id t = tid))
                  (Tasks.tasks (tasksManager st)) with
  | Some task => start_task api nowM nowB task "Temporizador iniciado para: " st
  | None => (st, [])
  end.

(** The command [pauseTimer]. *)
Definition pauseTimerCommand (api : Tasks.remote) (now : Z) (st : State)
  : State * list event :=
  let o := Tasks.pauseTimer api now (tasksManager st) in
  if Tasks.ret o then
    let '(bar, shown) := StatusBar.pause (statusBar st) in
    ({| tasksManager := Tasks.post o; statusBar := bar |},
     map FromManager (Tasks.trace o) ++ map FromStatusBar shown ++
     [ShowInformationMessage "Temporizador pausado"])
  else
    ({| tasksManager := Tasks.post o; statusBar := statusBar st |},
     map FromManager (Tasks.trace o)).

Definition number (n : Z) : string := NilZero.string_of_int (Z.to_int n).

(** The command [stopTimer]. *)
Definition stopTimerCommand (api : Tasks.remote) (now : Z) (today : string)
    (st : State) : State * list event :=
  let o := Tasks.stopTimer api now today (tasksManager st) in
  if Tasks.ret o then
    let '(bar, timerData, shown) := StatusBar.stop (statusBar st) in
    ({| tasksManager := Tasks.post o; statusBar := bar |},
     map FromManager (Tasks.trace o) ++ map FromStatusBar shown ++
     [ShowInformationMessage
        ("Temporizador detenido. Tiempo registrado: " +:+
         number (StatusBar.hours timerData) +:+ "h " +:+
         number (StatusBar.minutes timerData) +:+ "m " +:+
         number (StatusBar.seconds timerData) +:+ "s")])
  else
    ({| tasksManager := Tasks.post o; statusBar := statusBar st |},
     map FromManager (Tasks.trace o)).

(** [refreshTasks()] as far as the manager goes. *)
Definition refreshTasks (reply : option (list Tasks.ZohoTask)) (st : State) : State :=
  {| tasksManager := Tasks.loadMyTasks reply (tasksManager st);
     statusBar := statusBar st |}.

(** What the user does with the timer. *)
Inductive command :=
| Start (api : Tasks.remote) (nowM nowB : Z) (pick : option nat)
| StartFromTree (api : Tasks.remote) (nowM nowB : Z) (tid : string)
| Pause (api : Tasks.remote) (now : Z)
| Stop (api : Tasks.remote) (now : Z) (today : string)
| Refresh (reply : option (list Tasks.ZohoTask))
| Second (now : Z).               (* the interval of the status bar fires *)

Definition execute (c : command) (st : State) : State :=
  match c with
  | Start api nowM nowB pick => (startTimerCommand api nowM nowB pick st).1
  | StartFromTree api nowM nowB tid => (startFromTree api nowM nowB tid st).1
  | Pause api now => (pauseTimerCommand api now st).1
  | Stop api now today => (stopTimerCommand api now today st).1
  | Refresh reply => refreshTasks reply st
  | Second now =>
      {| tasksManager := tasksManager st;
         statusBar := StatusBar.act (StatusBar.Tick now) (statusBar st) |}
  end.

Definition execute_all (cs : list command) (st : State) : State :=
  fold_left (fun st c => execute c st) cs st.

(** The status bar shows the state that the manager is in. *)
Definition in_step (st : State) : Prop :=
  match Tasks.getTimerStatus (tasksManager st) with
  | Tasks.running =>
      StatusBar.isTimerRunning (statusBar st) = true
  | Tasks.paused_status =>
      StatusBar.isTimerPaused (statusBar st) = true
  | Tasks.stopped =>
      StatusBar.isRunning (statusBar st) = false /\
      StatusBar.isPaused (statusBar st) = false
  end.

End Extension.

(* ================================================================== *)
(** ** Concrete runs used by the examples below *)
(* ================================================================== *)
Module Scenarios.
Import Tasks.

Definition T1 : ZohoTask :=
  {| id := "T1"; name := "Draft report"; project_id := "P1"; subtasks := None |}.
Definition T2 : ZohoTask :=
  {| id := "T2"; name := "Review"; project_id := "P1"; subtasks := None |}.

(** A manager after [initialize], [loadInitialData] and [loadMyTasks]. *)
Definition loaded : TasksManager :=
  {| apiClient := Some "access-token"; portalId := Some "portal-1";
     tasks := [T1; T2]; currentTimer := None |}.

(** A remote service that acknowledges every call. *)
Definition api_ok : remote := fun _ => Data true.

(** [startTimer("T1")] at t = 0. *)
Definition running_T1 : TasksManager := post (startTimer api_ok 0 "T1" loaded).

(** ... then [pauseTimer()] at t = 10s. *)
Definition paused_T1 : TasksManager := post (pauseTimer api_ok 10000 running_T1).

(** ... then [startTimer("T1")] again at t = 15s. *)
Definition resumed_T1 : TasksManager := post (startTimer api_ok 15000 "T1" paused_T1).

(** ... then the task list is refreshed and T1 is no longer assigned. *)
Definition paused_T1_reloaded : TasksManager := loadMyTasks (Some [T2]) paused_T1.

(** [pauseTimer()] at [a] then [startTimer(tid)] at [b], for each interval
    [(a, b)] in turn. *)
Fixpoint pause_resume (api : remote) (tid : string) (intervals : list (Z * Z))
    (m : TasksManager) : TasksManager :=
  match intervals with
  | [] => m
  | (a, b) :: rest =>
      pause_resume api tid rest (post (startTimer api b tid (post (pauseTimer api a m))))
  end.

Definition paused_total (intervals : list (Z * Z)) : Z :=
  foldr (fun ab acc => (ab.2 - ab.1) + acc) 0 intervals.

(** *** Login attempts *)

(** Credentials configured, port 3000 free, the browser opens, the provider
    answers the exchange with a pair of tokens. *)
Definition env_ok : Auth.Env :=
  {| Auth.clientId := Some "1000.CLIENT"; Auth.clientSecret := Some "s3cret";
     Auth.apiDomain := None; Auth.dialog := None;
     Auth.uuidv4 := "6f1c2b9e-0d4a-4a57-9a3e-2f8d5c7b1a10";
     Auth.listen := fun _ => LocalServer.Listening;
     Auth.openExternal := Auth.Ok true;
     Auth.token_endpoint := fun _ =>
       Auth.Ok {| Auth.access_token := "1000.access"; Auth.refresh_token := "1000.refresh" |};
     Auth.portal_endpoint := fun _ _ =>
       Auth.Ok {| Auth.user_id := Some "u-17"; Auth.portal_name := Some "Acme" |} |}.


Definition idle : Auth.Provider :=
  {| Auth.localAuthServer := None; Auth.authenticationSession := None;
     Auth.isAuthenticating := false; Auth.secrets := ∅; Auth.globalState := ∅ |}.

Definition idle_uri : UriAuth.Provider :=
  {| UriAuth.uriHandlerRegistration := false; UriAuth.authenticationSession := None;
     UriAuth.secrets := ∅; UriAuth.globalState := ∅ |}.

(** [GET /auth-callback?code=c&state=s]. *)
Definition callback (c s : string) : LocalServer.IncomingMessage :=
  {| LocalServer.url := Some ("/auth-callback?code=" +:+ c +:+ "&state=" +:+ s);
     LocalServer.pathname := Some "/auth-callback";
     LocalServer.query := <["state" := LocalServer.QStr s]>
                            (<["code" := LocalServer.QStr c]> ∅) |}.

(** [GET /favicon.ico], which browsers send on their own. *)
Definition favicon : LocalServer.IncomingMessage :=
  {| LocalServer.url := Some "/favicon.ico";
     LocalServer.pathname := Some "/favicon.ico";
     LocalServer.query := ∅ |}.

(** Ports 3000 and 3001 are taken, every other port is free. *)
Definition two_ports_taken (port : Z) : LocalServer.bind_result :=
  if bool_decide (port = 3000) || bool_decide (port = 3001)
  then LocalServer.BindError ("listen EADDRINUSE: address already in use :::" +:+
                              NilZero.string_of_int (Z.to_int port))
  else LocalServer.Listening.

(** *** More runs of the timer *)

(** The remote service stops the timer but the time log throws. *)
Definition api_log_throws : remote := fun r =>
  match r with
  | ReqLogTime _ _ _ => Throws "Error al registrar el tiempo: 500 - Error desconocido"
  | _ => Data true
  end.

(** T1 with two subtasks, and T2. *)
Definition T1a : ZohoTask :=
  {| id := "T1a"; name := "Outline"; project_id := "P1"; subtasks := None |}.
Definition T1b : ZohoTask :=
  {| id := "T1b"; name := "Figures"; project_id := "P1"; subtasks := None |}.
Definition T1_with_subtasks : ZohoTask :=
  {| id := "T1"; name := "Draft report"; project_id := "P1";
     subtasks := Some [T1a; T1b] |}.

Definition loaded_with_subtasks : TasksManager :=
  {| apiClient := Some "access-token"; portalId := Some "portal-1";
     tasks := [T1_with_subtasks; T2]; currentTimer := None |}.

(** A morning of work: start, two pauses, a refresh in between. *)
Definition morning : list call :=
  [CallStartTimer api_ok 0 "T1";
   CallPauseTimer api_ok 600000;
   CallStartTimer api_ok 900000 "T1";
   CallLoadMyTasks (Some [T1; T2]);
   CallPauseTimer api_ok 1500000].

(** *** Commands *)

(** Start the first task, pause, resume, start the second task while the
    first runs, stop; the seconds tick in between. *)
Definition afternoon : list Extension.command :=
  [Extension.Start api_ok 0 1 (Some 0%nat);
   Extension.Second 1001;
   Extension.Pause api_ok 10000;
   Extension.Start api_ok 15000 15001 None;
   Extension.Start api_ok 20000 20001 (Some 1%nat);
   Extension.Refresh (Some [T2]);
   Extension.Stop api_ok 25000 "2025-06-02"].

(** A provider that holds tokens from an earlier login, and another secret. *)
Definition logged_in : Auth.Provider :=
  {| Auth.localAuthServer := None;
     Auth.authenticationSession := None;
     Auth.isAuthenticating := false;
     Auth.secrets := <["zoho-refresh-token" := "1000.refresh"]>
                       (<["zoho-access-token" := "1000.access"]>
                          (<["other-extension" := "kept"]> ∅));
     Auth.globalState := <["zoho-user-id" := "u-17"]> ∅ |}.

(** No client secret configured. *)
Definition env_no_secret : Auth.Env :=
  {| Auth.clientId := Some "1000.CLIENT"; Auth.clientSecret := None;
     Auth.apiDomain := None; Auth.dialog := Some "Configurar ahora";
     Auth.uuidv4 := "6f1c2b9e-0d4a-4a57-9a3e-2f8d5c7b1a10";
     Auth.listen := fun _ => LocalServer.Listening;
     Auth.openExternal := Auth.Ok true;
     Auth.token_endpoint := fun _ => Auth.Fails "unused";
     Auth.portal_endpoint := fun _ _ => Auth.Fails "unused" |}.

(** *** The tasks tree *)

Definition V1a : Views.ZohoTask :=
  {| Views.id := "T1a"; Views.name := "Collect figures"; Views.status := "Open";
     Views.task_project_id := "P1"; Views.subtasks := None |}.
Definition V1 : Views.ZohoTask :=
  {| Views.id := "T1"; Views.name := "Draft report"; Views.status := "In Progress";
     Views.task_project_id := "P1"; Views.subtasks := Some [V1a] |}.
Definition V2 : Views.ZohoTask :=
  {| Views.id := "T2"; Views.name := "Review"; Views.status := "Open";
     Views.task_project_id := "P2"; Views.subtasks := None |}.
Definition V3 : Views.ZohoTask :=
  {| Views.id := "T3"; Views.name := "Publish"; Views.status := "Open";
     Views.task_project_id := "P1"; Views.subtasks := None |}.

(** Three tasks of two projects, of which only the first is known. *)
Definition board : Views.TasksProvider :=
  Views.setData [V1; V2; V3]
    [{| Views.project_id := "P1"; Views.project_name := "Annual report";
        Views.project_status := "active" |}].

(** The browser cannot be opened. *)
Definition env_no_browser : Auth.Env :=
  {| Auth.clientId := Some "1000.CLIENT"; Auth.clientSecret := Some "s3cret";
     Auth.apiDomain := None; Auth.dialog := None;
     Auth.uuidv4 := "0b5e7d1c-93aa-4c1e-8a46-5d2f6e9c3b77";
     Auth.listen := fun _ => LocalServer.Listening;
     Auth.openExternal := Auth.Fails "spawn xdg-open ENOENT";
     Auth.token_endpoint := fun _ => Auth.Fails "unused";
     Auth.portal_endpoint := fun _ _ => Auth.Fails "unused" |}.

(** A secret storage that deletes what it is asked to, and one that fails
    on the refresh token. *)
Definition storage_ok : string -> Auth.reply unit := fun _ => Auth.Ok tt.
Definition storage_keeps_refresh : string -> Auth.reply unit :=
  fun k => if String.eqb k "zoho-refresh-token"
           then Auth.Fails "keychain locked" else Auth.Ok tt.

End Scenarios.

(* ================================================================== *)
(** ** The timer of [TasksManager] *)
(* ================================================================== *)
Module TimerFacts.
Import Tasks.

Lemma status_running_inv m :
  getTimerStatus m = running ->
  exists t, currentTimer m = Some t /\ isPaused t = false.
Proof.
  unfold getTimerStatus. destruct (currentTimer m) as [t|]; [|discriminate].
  destruct (isPaused t) eqn:E; [discriminate|]. eauto.
Qed.

(** Every branch of [pauseTimer] that calls the service starts with a timer
    that is not paused. *)
Lemma pauseTimer_call_running api now m r :
  Call r ∈ trace (pauseTimer api now m) -> getTimerStatus m = running.
Proof.
  unfold pauseTimer, getTimerStatus.
  destruct (apiClient m), (truthy (portalId m)), (portalId m), (currentTimer m) as [t|];
    cbn; try (intros Hin; apply list_elem_of_singleton in Hin; discriminate).
  destruct (isPaused t); [|reflexivity].
  intros Hin; apply list_elem_of_singleton in Hin; discriminate.
Qed.

(** C10. [pauseTimer()] with no timer, or with a timer that is already
    paused, returns [false], leaves the manager as it was and calls nothing
    on the remote service; a remote call in a run of [pauseTimer] means the
    timer was running. *)
Theorem pauseTimer_needs_running api now m :
  (getTimerStatus m = stopped \/ getTimerStatus m = paused_status ->
   ret (pauseTimer api now m) = false /\
   post (pauseTimer api now m) = m /\
   forall r, Call r ∉ trace (pauseTimer api now m)) /\
  (forall r, Call r ∈ trace (pauseTimer api now m) -> getTimerStatus m = running).
Proof.
  split; [|intros r; apply pauseTimer_call_running].
  intros Hst.
  assert (Hnr : getTimerStatus m <> running) by (destruct Hst as [-> | ->]; discriminate).
  split; [|split].
  - unfold pauseTimer, getTimerStatus in *.
    destruct (apiClient m), (truthy (portalId m)), (portalId m), (currentTimer m) as [t|];
      try reflexivity.
    destruct (isPaused t); [reflexivity | congruence].
  - unfold pauseTimer, getTimerStatus in *.
    destruct (apiClient m), (truthy (portalId m)), (portalId m), (currentTimer m) as [t|];
      try reflexivity.
    destruct (isPaused t); [reflexivity | congruence].
  - intros r Hin. apply Hnr. eapply pauseTimer_call_running; eauto.
Qed.

Lemma pauseTimer_needs_running_witness :
  ret (pauseTimer Scenarios.api_ok 12000 Scenarios.paused_T1) = false /\
  post (pauseTimer Scenarios.api_ok 12000 Scenarios.paused_T1) = Scenarios.paused_T1 /\
  forall r, Call r ∉ trace (pauseTimer Scenarios.api_ok 12000 Scenarios.paused_T1).
Proof.
  apply (pauseTimer_needs_running Scenarios.api_ok 12000 Scenarios.paused_T1).
  right. reflexivity.
Defined.

(** The guards that precede the resume branch of [startTimer] can fail in a
    paused state: here the task list was refreshed and no longer holds T1. *)
Lemma resume_fails_when_task_unloaded :
  getTimerStatus Scenarios.paused_T1_reloaded = paused_status /\
  (taskId <$> currentTimer Scenarios.paused_T1_reloaded) = Some "T1" /\
  startTimer Scenarios.api_ok 15000 "T1" Scenarios.paused_T1_reloaded =
    {| ret := false; post := Scenarios.paused_T1_reloaded;
       trace := [ShowErrorMessage "No se encontró la tarea seleccionada"] |}.
Proof. repeat split. Qed.

(** C9, as amended. With the manager initialised and the task still among
    the loaded tasks, [startTimer] on the task of a paused timer returns
    [true] whatever the remote service would answer and calls nothing; the
    timer keeps its task, project and start time, is no longer paused, has
    no [pausedAt], and its paused total has grown by [now - pausedAt]. *)
Theorem resume_paused_timer api now m client portal task t p :
  apiClient m = Some client ->
  portalId m = Some portal -> portal <> "" ->
  findTaskById m (taskId t) = Some task ->
  currentTimer m = Some t -> isPaused t = true -> pausedAt t = Some p ->
  startTimer api now (taskId t) m =
    {| ret := true;
       post := {| apiClient := apiClient m; portalId := portalId m; tasks := tasks m;
                  currentTimer := Some
                    {| taskId := taskId t; projectId := projectId t;
                       startTime := startTime t; isPaused := false;
                       pausedAt := None;
                       totalPausedMs := totalPausedMs t + (now - p) |} |};
       trace := [] |}.
Proof.
  intros Hc Hp Hne Hf Ht Hpa Hat.
  unfold startTimer, is_resume. rewrite Hc, Hp, Hf, Ht, Hpa.
  destruct portal as [|a portal']; [congruence|]. cbn.
  rewrite bool_decide_eq_true_2 by reflexivity. cbn.
  unfold set_timer, resumed. rewrite Hat, Hc, Hp. reflexivity.
Qed.

Lemma resume_paused_timer_witness :
  startTimer Scenarios.api_ok 15000 "T1" Scenarios.paused_T1 =
    {| ret := true;
       post := {| apiClient := Some "access-token"; portalId := Some "portal-1";
                  tasks := [Scenarios.T1; Scenarios.T2];
                  currentTimer := Some
                    {| taskId := "T1"; projectId := "P1"; startTime := 0;
                       isPaused := false; pausedAt := None;
                       totalPausedMs := 0 + (15000 - 10000) |} |};
       trace := [] |}.
Proof.
  apply (resume_paused_timer Scenarios.api_ok 15000 Scenarios.paused_T1
           "access-token" "portal-1" Scenarios.T1
           {| taskId := "T1"; projectId := "P1"; startTime := 0; isPaused := true;
              pausedAt := Some 10000; totalPausedMs := 0 |} 10000);
    first [reflexivity | discriminate].
Defined.

(** *** Elapsed time *)

Lemma stop_totalMs_running now t :
  isPaused t = false -> stop_totalMs now t = elapsed_totalMs now t.
Proof. intros H. unfold stop_totalMs, elapsed_totalMs. rewrite H. reflexivity. Qed.

(** [stopTimer] leaves out the subtraction that [getCurrentTimerElapsed]
    makes for a pause that is still open. *)
Lemma stop_totalMs_paused now t p :
  isPaused t = true -> pausedAt t = Some p ->
  stop_totalMs now t = elapsed_totalMs now t + (now - p).
Proof.
  intros H1 H2. unfold stop_totalMs, elapsed_totalMs. rewrite H1, H2. lia.
Qed.

Lemma findTaskById_set_timer m t tid :
  findTaskById (set_timer m t) tid = findTaskById m tid.
Proof. reflexivity. Qed.

(** One acknowledged pause at [a] followed by the resume at [b]. *)
Lemma pause_then_resume api m client portal tid task t a b :
  (forall r, api r = Data true) ->
  apiClient m = Some client -> portalId m = Some portal -> portal <> "" ->
  findTaskById m tid = Some task ->
  currentTimer m = Some t -> taskId t = tid -> isPaused t = false ->
  post (startTimer api b tid (post (pauseTimer api a m))) =
    set_timer m (Some (resumed b (paused a t))).
Proof.
  intros Hapi Hc Hp Hne Hf Ht Hid Hpa.
  destruct portal as [|c0 portal']; [congruence|].
  assert (E1 : post (pauseTimer api a m) = set_timer m (Some (paused a t))).
  { unfold pauseTimer. rewrite Hc, Hp, Ht, Hpa, Hapi. reflexivity. }
  rewrite E1. unfold startTimer, is_resume.
  rewrite findTaskById_set_timer, Hf. cbn. rewrite Hc, Hp. cbn.
  rewrite bool_decide_eq_true_2 by assumption. reflexivity.
Qed.

(** Closed pauses are accounted for: after any number of acknowledged
    pause/resume pairs the timer is running again with the same start time
    and the lengths of the pauses added to [totalPausedMs]. *)
Lemma pause_resume_total api m client portal tid task intervals t :
  (forall r, api r = Data true) ->
  apiClient m = Some client -> portalId m = Some portal -> portal <> "" ->
  findTaskById m tid = Some task ->
  currentTimer m = Some t -> taskId t = tid ->
  isPaused t = false -> pausedAt t = None ->
  currentTimer (Scenarios.pause_resume api tid intervals m) =
    Some {| taskId := tid; projectId := projectId t; startTime := startTime t;
            isPaused := false; pausedAt := None;
            totalPausedMs := totalPausedMs t + Scenarios.paused_total intervals |}.
Proof.
  intros Hapi Hc Hp Hne Hf.
  revert m t Hc Hp Hf.
  induction intervals as [|[a b] rest IH]; intros m t Hc Hp Hf Ht Hid Hpa Hat.
  - cbn. rewrite Ht. destruct t; cbn in *; subst. f_equal. f_equal. lia.
  - cbn [Scenarios.pause_resume].
    rewrite (pause_then_resume api m client portal tid task t a b) by assumption.
    rewrite (IH _ (resumed b (paused a t))); try assumption; try reflexivity.
    cbn. f_equal. f_equal. unfold Scenarios.paused_total. lia.
Qed.

(** So a timer stopped while running logs the wall-clock time since the
    start minus the closed pauses. *)
Lemma stop_after_closed_pauses api m client portal tid task intervals t now :
  (forall r, api r = Data true) ->
  apiClient m = Some client -> portalId m = Some portal -> portal <> "" ->
  findTaskById m tid = Some task ->
  currentTimer m = Some t -> taskId t = tid ->
  isPaused t = false -> pausedAt t = None -> totalPausedMs t = 0 ->
  exists t', currentTimer (Scenarios.pause_resume api tid intervals m) = Some t' /\
             stop_totalMs now t' = now - startTime t - Scenarios.paused_total intervals.
Proof.
  intros Hapi Hc Hp Hne Hf Ht Hid Hpa Hat H0.
  eexists; split.
  - eapply pause_resume_total; eauto.
  - unfold stop_totalMs. cbn. lia.
Qed.

(** Start at 0, pause at 10s, resume at 15s, stop at 25s: 20s are counted,
    which the time log truncates to no hours and no minutes. *)
Example stop_after_one_closed_pause :
  stop_totalMs 25000 <$> currentTimer Scenarios.resumed_T1 = Some 20000 /\
  trace (stopTimer Scenarios.api_ok 25000 "2025-06-02" Scenarios.resumed_T1) =
    [Call (ReqStopTimer "portal-1" "P1" "T1");
     Call (ReqLogTime "portal-1" "P1"
       {| task_id := "T1"; hours := 0; minutes := 0;
          work_date := "2025-06-02"; bill_status := "Billable";
          notes := "Tiempo registrado automáticamente por VS Code Extension" |})] /\
  getCurrentTimerElapsed 0 fresh = "00:00:00".
Proof. repeat split. Qed.

(** C2. Start T1 at 0, pause at 10s, stop at 70s while still paused: the
    time log that [stopTimer] submits is computed from 70000 ms (one
    minute), the open pause of 60s is not subtracted; the elapsed time that
    [getCurrentTimerElapsed] shows at the same instant is the 10s net of it. *)
Theorem stop_while_paused_ignores_open_pause :
  currentTimer Scenarios.paused_T1 =
    Some {| taskId := "T1"; projectId := "P1"; startTime := 0; isPaused := true;
            pausedAt := Some 10000; totalPausedMs := 0 |} /\
  stopTimer Scenarios.api_ok 70000 "2025-06-02" Scenarios.paused_T1 =
    {| ret := true;
       post := set_timer Scenarios.paused_T1 None;
       trace := [Call (ReqStopTimer "portal-1" "P1" "T1");
                 Call (ReqLogTime "portal-1" "P1"
                   {| task_id := "T1"; hours := 0; minutes := 1;
                      work_date := "2025-06-02"; bill_status := "Billable";
                      notes := "Tiempo registrado automáticamente por VS Code Extension" |})] |} /\
  getCurrentTimerElapsed 70000 Scenarios.paused_T1 = "00:00:10".
Proof. repeat split. Qed.

(** *** One timer at a time *)

(** [startTimer] has no branch for a timer that runs for another task: once
    the service acknowledges, the running timer is overwritten. *)
Lemma start_replaces_running api now m client portal tid task t :
  apiClient m = Some client -> portalId m = Some portal -> portal <> "" ->
  findTaskById m tid = Some task ->
  currentTimer m = Some t -> isPaused t = false ->
  api (ReqStartTimer portal (project_id task) tid) = Data true ->
  startTimer api now tid m =
    {| ret := true;
       post := set_timer m (Some {| taskId := tid; projectId := project_id task;
                                    startTime := now; isPaused := false;
                                    pausedAt := None; totalPausedMs := 0 |});
       trace := [Call (ReqStartTimer portal (project_id task) tid)] |}.
Proof.
  intros Hc Hp Hne Hf Ht Hpa Hapi.
  unfold startTimer, is_resume. rewrite Hc, Hp, Hf, Ht, Hpa, andb_false_r.
  destruct portal as [|c0 portal']; [congruence|]. cbn.
  rewrite Hapi. reflexivity.
Qed.

(** The status bar, which is started after [startTimer] succeeded, does
    refuse a second timer. *)
Lemma status_bar_refuses_second_timer now task s :
  StatusBar.isRunning s = true -> StatusBar.isPaused s = false ->
  StatusBar.start now task s =
    (s, [StatusBar.ShowWarningMessage
           "Ya hay un temporizador activo. Deténgalo antes de iniciar uno nuevo."]).
Proof. intros H1 H2. unfold StatusBar.start. rewrite H1, H2. reflexivity. Qed.

(** C4. With the timer running for T1 since 0, [startTimer("T2")] at 5s is
    not rejected: it calls the service, returns [true] and the current timer
    becomes a fresh one for T2 started at 5000; the timer of T1 is gone. *)
Theorem start_other_task_while_running :
  getTimerStatus Scenarios.running_T1 = running /\
  (taskId <$> currentTimer Scenarios.running_T1) = Some "T1" /\
  startTimer Scenarios.api_ok 5000 "T2" Scenarios.running_T1 =
    {| ret := true;
       post := {| apiClient := Some "access-token"; portalId := Some "portal-1";
                  tasks := [Scenarios.T1; Scenarios.T2];
                  currentTimer := Some
                    {| taskId := "T2"; projectId := "P1"; startTime := 5000;
                       isPaused := false; pausedAt := None; totalPausedMs := 0 |} |};
       trace := [Call (ReqStartTimer "portal-1" "P1" "T2")] |}.
Proof. repeat split. Qed.

End TimerFacts.

(* ================================================================== *)
(** ** The loopback listener *)
(* ================================================================== *)
Module ListenerFacts.
Import LocalServer.





(** The draft's handler does check the path, and answers 404 elsewhere. *)
Lemma draft_answers_404_elsewhere state req :
  truthy (url req) = true -> pathname req <> Some "/auth-callback" ->
  AuthDraft.handleCallback state req =
    (AuthDraft.sendResponse 404 "Página no encontrada", AuthDraft.Ignored).
Proof.
  intros Hu Hp. unfold AuthDraft.handleCallback. rewrite Hu. cbn.
  rewrite bool_decide_eq_false_2 by assumption. reflexivity.
Qed.

(** ... but on the callback path it validates before it answers: a state
    that does not match gets a 400, not the success page. *)
Lemma draft_answers_400_on_mismatch state req :
  truthy (url req) = true -> pathname req = Some "/auth-callback" ->
  query req !! "state" <> Some (QStr state) ->
  AuthDraft.handleCallback state req =
    (AuthDraft.sendResponse 400 "Estado no válido. Intente nuevamente.",
     AuthDraft.Rejected "El estado no coincide").
Proof.
  intros Hu Hp Hs. unfold AuthDraft.handleCallback. rewrite Hu. cbn.
  rewrite bool_decide_eq_true_2 by assumption. cbn.
  rewrite bool_decide_eq_false_2 by assumption. reflexivity.
Qed.

(** C6. [GET /favicon.ico] on the listener of [LocalAuthServer]: the path
    is not /auth-callback, yet the answer is 200 with the success page, not
    404, and an error is emitted to the waiting login. *)
Theorem handleRequest_other_path_gets_success_page :
  pathname Scenarios.favicon <> Some "/auth-callback" /\
  handleRequest Scenarios.favicon =
    ({| statusCode := 200; body := SuccessPage |},
     EmitError "No se recibió código de autorización o estado").
Proof. split; [discriminate | reflexivity]. Qed.

(** *** Binding the port *)

(** The draft binds on [p], [p + 1], ... for as long as the port is in use
    and settles on the first port where the bind does anything else. *)
Lemma draft_retries_while_in_use bind k :
  forall p fuel,
  (forall i, (i < k)%nat -> AuthDraft.in_use (bind (p + Z.of_nat i)) = true) ->
  AuthDraft.in_use (bind (p + Z.of_nat k)) = false ->
  (k < fuel)%nat ->
  AuthDraft.startLocalServer fuel bind p =
    Some (AuthDraft.settle (bind (p + Z.of_nat k)) (p + Z.of_nat k),
          AuthDraft.ports_from p (S k)).
Proof.
  induction k as [|k IH]; intros p fuel Hused Hfree Hfuel.
  - destruct fuel as [|fuel]; [lia|].
    replace (p + Z.of_nat 0) with p in * by lia.
    cbn. unfold AuthDraft.in_use in Hfree.
    destruct (bind p) as [|msg]; [reflexivity|]. rewrite Hfree. reflexivity.
  - destruct fuel as [|fuel]; [lia|].
    cbn [AuthDraft.startLocalServer].
    pose proof (Hused 0%nat ltac:(lia)) as H0.
    replace (p + Z.of_nat 0) with p in H0 by lia.
    unfold AuthDraft.in_use in H0.
    destruct (bind p) as [|msg]; [discriminate|]. rewrite H0.
    rewrite (IH (p + 1) fuel).
    + replace (p + 1 + Z.of_nat k) with (p + Z.of_nat (S k)) by lia. reflexivity.
    + intros i Hi. replace (p + 1 + Z.of_nat i) with (p + Z.of_nat (S i)) by lia.
      apply Hused. lia.
    + replace (p + 1 + Z.of_nat k) with (p + Z.of_nat (S k)) by lia. assumption.
    + lia.
Qed.

(** Two ports taken: the draft retries twice and listens on 3002, it does
    not stop at a single retry; [LocalAuthServer.start] fails on 3000 without
    a retry. *)
Lemma retry_is_not_exactly_once :
  AuthDraft.startLocalServer 5 Scenarios.two_ports_taken 3000 =
    Some (AuthDraft.Bound 3002, [3000; 3001; 3002]) /\
  start Scenarios.two_ports_taken (new default_port) =
    ({| server := Some false; port := 3000 |},
     inr "listen EADDRINUSE: address already in use :::3000", [3000]).
Proof. split; reflexivity. Qed.

(** C7, as amended. The draft listener retries on the next higher port
    after every port-in-use failure, however many there are, and settles
    with the first bind that succeeds or fails otherwise; a failure that is
    not port-in-use rejects. [LocalAuthServer.start] calls [listen] once on
    its own port and rejects on any failure, which [login] turns into an
    error message and [undefined]. *)
Theorem bind_retry_behaviour bind p k fuel s e events pr msg :
  (forall i, (i < k)%nat -> AuthDraft.in_use (bind (p + Z.of_nat i)) = true) ->
  AuthDraft.in_use (bind (p + Z.of_nat k)) = false ->
  (k < fuel)%nat ->
  server s = None ->
  Auth.isAuthenticating pr = false ->
  truthy (Auth.clientId e) = true -> truthy (Auth.clientSecret e) = true ->
  Auth.listen e default_port = BindError msg ->
  AuthDraft.startLocalServer fuel bind p =
    Some (AuthDraft.settle (bind (p + Z.of_nat k)) (p + Z.of_nat k),
          AuthDraft.ports_from p (S k)) /\
  start bind s =
    ({| server := Some match bind (port s) with
                       | Listening => true
                       | BindError _ => false
                       end;
        port := port s |},
     match bind (port s) with
     | Listening => inl tt
     | BindError m => inr m
     end,
     [port s]) /\
  Auth.login e events pr =
    (Auth.Returned None,
     Auth.set_isAuthenticating false
       (Auth.set_localAuthServer (Some {| server := Some false; port := default_port |})
          (Auth.set_isAuthenticating true pr)),
     [Auth.Listen default_port;
      Auth.ShowErrorMessage ("Error de autenticación: " +:+ msg)]).
Proof.
  intros Hused Hfree Hfuel Hs Hidle Hid Hsec Hbind.
  split; [|split].
  - apply draft_retries_while_in_use; assumption.
  - unfold start. rewrite Hs. destruct (bind (port s)); reflexivity.
  - unfold Auth.login. rewrite Hidle, Hid, Hsec.
    destruct (Auth.clientId e) as [cid|]; [|discriminate].
    destruct (Auth.clientSecret e) as [csec|]; [|discriminate].
    cbn. unfold start, new. cbn. rewrite Hbind. reflexivity.
Qed.

Lemma bind_retry_behaviour_witness :
  AuthDraft.startLocalServer 5 Scenarios.two_ports_taken 3000 =
    Some (AuthDraft.Bound 3002, [3000; 3001; 3002]) /\
  start Scenarios.two_ports_taken (new 3001) =
    ({| server := Some false; port := 3001 |},
     inr "listen EADDRINUSE: address already in use :::3001", [3001]).
Proof.
  assert (Hused : forall i, (i < 2)%nat ->
            AuthDraft.in_use (Scenarios.two_ports_taken (3000 + Z.of_nat i)) = true).
  { intros [|[|i]] Hi; [reflexivity | reflexivity | lia]. }
  destruct (bind_retry_behaviour Scenarios.two_ports_taken 3000 2 5 (new 3001)
    {| Auth.clientId := Some "1000.CLIENT"; Auth.clientSecret := Some "s3cret";
       Auth.apiDomain := None; Auth.dialog := None; Auth.uuidv4 := "n";
       Auth.listen := Scenarios.two_ports_taken;
       Auth.openExternal := Auth.Ok true;
       Auth.token_endpoint := fun _ => Auth.Fails "unused";
       Auth.portal_endpoint := fun _ _ => Auth.Fails "unused" |}
    [] Scenarios.idle "listen EADDRINUSE: address already in use :::3000"
    Hused eq_refl ltac:(lia) eq_refl eq_refl eq_refl eq_refl eq_refl)
    as (H1 & H2 & _).
  split; [exact H1 | exact H2].
Defined.

End ListenerFacts.

(* ================================================================== *)
(** ** The wait of [login] on the URI handler *)
(* ================================================================== *)
Module WaitFacts.
Import Auth UriAuth.

Lemma instructions_shape e :
  instructions e = [] \/
  instructions e = [RunCommand "zoho-projects-time-tracker.showAuthInstructions"].
Proof. unfold instructions. case_bool_decide; auto. Qed.

Lemma clear_unregisters p : uriHandlerRegistration (clearUriHandler p).1 = false.
Proof.
  unfold clearUriHandler. destruct (uriHandlerRegistration p) eqn:H; [reflexivity | exact H].
Qed.

Lemma clear_shape p :
  (clearUriHandler p).2 = [] \/ (clearUriHandler p).2 = [DisposeUriHandler].
Proof. unfold clearUriHandler. destruct (uriHandlerRegistration p); auto. Qed.

Lemma clear_registered p :
  uriHandlerRegistration p = true ->
  clearUriHandler p = (set_registration false p, [DisposeUriHandler]).
Proof. intros H. unfold clearUriHandler. rewrite H. reflexivity. Qed.

Lemma clear_unregistered p :
  uriHandlerRegistration p = false -> clearUriHandler p = (p, []).
Proof. intros H. unfold clearUriHandler. rewrite H. reflexivity. Qed.

Lemma rejected_unregisters msg p done :
  uriHandlerRegistration (rejected msg p done).1.2 = false.
Proof.
  unfold rejected. pose proof (clear_unregisters p) as H.
  destruct (clearUriHandler p). exact H.
Qed.

Lemma uri_rejected_returned msg p done : (rejected msg p done).1.1 = Returned None.
Proof. unfold rejected. destruct (clearUriHandler p). reflexivity. Qed.

Lemma exchange_unregisters e domain cid csec c p done :
  uriHandlerRegistration (exchange e domain cid csec c p done).1.2 = false.
Proof.
  unfold exchange. destruct (token_endpoint e _).
  - destruct (portal_endpoint e _ _).
    + match goal with |- context [clearUriHandler ?q] =>
        pose proof (clear_unregisters q) as H; destruct (clearUriHandler q) end.
      exact H.
    + destruct (clearUriHandler _). apply rejected_unregisters.
  - destruct (clearUriHandler _). apply rejected_unregisters.
Qed.

Lemma handleUri_unregisters e domain cid csec state uri p done :
  uriHandlerRegistration (handleUri e domain cid csec state uri p done).1.2 = false.
Proof.
  unfold handleUri. destruct (extractQueryParams uri) as [c st].
  destruct (negb _).
  - destruct (clearUriHandler _). apply rejected_unregisters.
  - destruct (truthy c), c; try apply exchange_unregisters;
      destruct (clearUriHandler _); apply rejected_unregisters.
Qed.

Lemma uri_exchange_returned e domain cid csec c p done :
  (exchange e domain cid csec c p done).1.1 <> Waiting.
Proof.
  unfold exchange. destruct (token_endpoint e _).
  - destruct (portal_endpoint e _ _).
    + destruct (clearUriHandler _). discriminate.
    + destruct (clearUriHandler _). rewrite uri_rejected_returned. discriminate.
  - destruct (clearUriHandler _). rewrite uri_rejected_returned. discriminate.
Qed.

Lemma uri_handleUri_returned e domain cid csec state uri p done :
  (handleUri e domain cid csec state uri p done).1.1 <> Waiting.
Proof.
  unfold handleUri. destruct (extractQueryParams uri) as [c st].
  destruct (negb _).
  - destruct (clearUriHandler _). rewrite uri_rejected_returned. discriminate.
  - destruct (truthy c), c; try apply uri_exchange_returned;
      destruct (clearUriHandler _); rewrite uri_rejected_returned; discriminate.
Qed.

(** Whatever timer fires, no handler is registered afterwards. *)
Lemma timer_fires_unregisters e b p :
  uriHandlerRegistration (timer_fires e b p).1 = false.
Proof.
  unfold timer_fires. pose proof (clear_unregisters p) as H.
  destruct (clearUriHandler p) as [p1 clearing]. cbn in H.
  destruct b; [|exact H].
  pose proof (rejected_unregisters timeout_msg p1
                (ShowWarningMessage expired_msg :: clearing)) as H'.
  destruct (rejected _ _ _) as [[r p2] eff]. exact H'.
Qed.

(** The timer of the attempt itself, with the handler still registered. *)
Lemma own_timer_fires e p :
  uriHandlerRegistration p = true ->
  timer_fires e true p =
    (set_registration false p,
     [ShowWarningMessage expired_msg; DisposeUriHandler;
      ShowErrorMessage ("Error de autenticación: " +:+ timeout_msg)] ++ instructions e).
Proof.
  intros H. unfold timer_fires. rewrite (clear_registered p H).
  unfold rejected. rewrite clear_unregistered by reflexivity. reflexivity.
Qed.

(** With no timer of an earlier attempt armed, the wait is the race of the
    attempt's own timer with the handler. *)
Lemma await_auth_alone e domain cid csec state events : forall remaining p done,
  uriHandlerRegistration p = true ->
  (await_auth e domain cid csec state remaining [] events p done).1 =
    match await_uri remaining events with
    | StillPending => (Waiting, p, done)
    | TimerFired =>
        (Returned None, (timer_fires e true p).1, done ++ (timer_fires e true p).2)
    | Invoked uri => handleUri e domain cid csec state uri p done
    end.
Proof.
  induction events as [|[ms|uri] rest IH]; intros remaining p done Hreg;
    cbn [await_auth await_uri].
  - reflexivity.
  - destruct (remaining <=? ms)%Z.
    + cbn [fired_within List.filter fire_all]. destruct (timer_fires e true p). reflexivity.
    + cbn [fired_within still_armed List.filter map fire_all].
      rewrite IH by assumption. rewrite app_nil_r. reflexivity.
  - rewrite Hreg. destruct (handleUri _ _ _ _ _ _ _ _) as [[r p'] eff]. reflexivity.
Qed.

(** However the wait ends, with whatever timers armed, it leaves no handler
    registered once [login] has returned. *)
Lemma await_auth_unregisters e domain cid csec state events :
  forall remaining earlier p done r p' eff ts,
  await_auth e domain cid csec state remaining earlier events p done
    = (Returned r, p', eff, ts) ->
  uriHandlerRegistration p' = false.
Proof.
  induction events as [|[ms|uri] rest IH]; intros remaining earlier p done r p' eff ts;
    cbn [await_auth].
  - discriminate.
  - destruct (remaining <=? ms)%Z.
    + destruct (fire_all e _ p) as [p1 eff1].
      pose proof (timer_fires_unregisters e true p1) as H.
      destruct (timer_fires e true p1) as [p2 eff2]. intros [= _ <- _ _]. exact H.
    + destruct (fire_all e _ p) as [p1 eff1]. apply IH.
  - destruct (uriHandlerRegistration p); [|apply IH].
    pose proof (handleUri_unregisters e domain cid csec state uri p done) as H.
    destruct (handleUri _ _ _ _ _ _ _ _) as [[r0 p0] eff0].
    intros [= _ <- _ _]. exact H.
Qed.

End WaitFacts.

(* ================================================================== *)
(** ** [login] on the loopback listener *)
(* ================================================================== *)
Module AuthFacts.
Import LocalServer Auth.

(** Membership in a list of effects written out with [++] and [::]. *)
Ltac member :=
  apply list_elem_of_In; repeat rewrite in_app_iff; cbn [In]; intuition auto.

(** With credentials configured, the port free and the browser opened,
    [login] gets to [waitForAuthCode]. *)
Lemma login_reaches_wait e events p cid csec opened :
  isAuthenticating p = false ->
  clientId e = Some cid -> cid <> "" ->
  clientSecret e = Some csec -> csec <> "" ->
  listen e default_port = Listening ->
  openExternal e = Ok opened ->
  login e events p =
    await_code e events (or_default (apiDomain e) "https://projectsapi.zoho.com")
      cid csec "http://localhost:3000/auth-callback" (uuidv4 e)
      (awaiting p) (opening cid (uuidv4 e)).
Proof.
  intros Hidle Hid Hne Hsec Hne' Hbind Hopen.
  unfold login. rewrite Hidle, Hid, Hsec.
  destruct cid as [|a cid']; [congruence|].
  destruct csec as [|b csec']; [congruence|].
  cbn [truthy andb]. unfold start, new.
  cbn [server port]. rewrite Hbind. cbn [map app]. rewrite Hopen.
  reflexivity.
Qed.









(** *** One attempt at a time *)

Lemma abandon_returned p done : (abandon p done).1.1 = Returned None.
Proof. unfold abandon. destruct (cleanupLocalServer p). reflexivity. Qed.

Lemma exchange_returned e domain cid csec uri c p done :
  (exchange e domain cid csec uri c p done).1.1 <> Waiting.
Proof.
  unfold exchange. destruct (token_endpoint e _).
  - destruct (portal_endpoint e _ _).
    + destruct (cleanupLocalServer _). discriminate.
    + rewrite abandon_returned. discriminate.
  - rewrite abandon_returned. discriminate.
Qed.

(** A result whose first component is a return is not a pending promise. *)
Ltac not_waiting H :=
  apply (f_equal (fun x => x.1.1)) in H; cbn [fst] in H;
  first [ rewrite abandon_returned in H; discriminate
        | exfalso; revert H; apply exchange_returned ].

(** While the promise of [login] is pending the flag is raised. *)
Lemma pending_login_raises_flag e events p p' eff :
  login e events p = (Waiting, p', eff) -> isAuthenticating p' = true.
Proof.
  unfold login. destruct (isAuthenticating p); [discriminate|].
  destruct (truthy (clientId e) && truthy (clientSecret e));
    destruct (clientId e) as [cid|], (clientSecret e) as [csec|]; try discriminate.
  destruct (start (listen e) (new default_port)) as [[srv started] tried].
  destruct started as [[]|msg]; [|discriminate].
  destruct (openExternal e) as [opened|msg]; [|intros H; not_waiting H].
  unfold await_code. destruct (first_request events) as [req|].
  - destruct (handleRequest req) as [res [c st|msg]]; [|intros H; not_waiting H].
    destruct (negb (st =? uuidv4 e)%string); [intros H; not_waiting H|].
    destruct (c =? "")%string; intros H; not_waiting H.
  - intros [= <- _]. reflexivity.
Qed.

(** The same for the provider on the URI handler, as long as no timer of
    an earlier attempt is armed: a pending attempt holds the registration. *)
Lemma pending_uri_login_registers e events p p' eff :
  UriAuth.login e events p = (Waiting, p', eff) ->
  UriAuth.uriHandlerRegistration p' = true.
Proof.
  unfold UriAuth.login, UriAuth.login_with_timers.
  destruct (UriAuth.uriHandlerRegistration p) eqn:Hreg; [discriminate|].
  destruct (truthy (clientId e) && truthy (clientSecret e));
    destruct (clientId e) as [cid|], (clientSecret e) as [csec|]; try discriminate.
  rewrite (WaitFacts.clear_unregistered p Hreg).
  destruct (openExternal e) as [opened|msg]; [|discriminate].
  rewrite WaitFacts.await_auth_alone by reflexivity.
  destruct (UriAuth.await_uri UriAuth.deadline_ms events) as [| |uri].
  - intros [= <- _]. reflexivity.
  - discriminate.
  - intros H. apply (f_equal (fun x => x.1.1)) in H. cbn [fst] in H.
    exfalso. revert H. apply WaitFacts.uri_handleUri_returned.
Qed.

(** A call of [login] in a state where the marker of an attempt in
    progress is set (the flag of the loopback provider raised, the URI
    handler of the other provider registered) shows the "already in
    progress" information and returns [undefined]; the provider is left
    exactly as it was, and that message is the only effect. *)
Lemma login_while_marked e events p e' events' q :
  isAuthenticating p = true ->
  UriAuth.uriHandlerRegistration q = true ->
  login e events p = (Returned None, p, [ShowInformationMessage already_msg]) /\
  UriAuth.login e' events' q =
    (Returned None, q, [UriAuth.ShowInformationMessage already_msg]).
Proof.
  intros Hp Hq. unfold login, UriAuth.login, UriAuth.login_with_timers.
  rewrite Hp, Hq. split; reflexivity.
Qed.

(** C3. On the URI handler a pending attempt does not keep its marker. The
    browser cannot be opened for a first [login], which returns with its
    timer still armed. Five minutes later a second [login] opens the
    browser and waits. After five more minutes the timer of the first
    fires and disposes of the handler of the second, which goes on waiting
    for its own timer. A third [login] is then not turned away: it
    registers a handler, arms a timer and opens a second browser window,
    and two attempts are pending. *)
Theorem stale_timer_admits_second_attempt :
  let '(r1, p1, eff1, t1) :=
    UriAuth.login_with_timers Scenarios.env_no_browser [] [] Scenarios.idle_uri in
  let '(p1', shown, t1') := UriAuth.pass Scenarios.env_ok 300000 p1 t1 in
  let '(r2, p2, eff2, t2) :=
    UriAuth.login_with_timers Scenarios.env_ok t1' [UriAuth.Elapse 300000] p1' in
  let '(r3, p3, eff3, t3) := UriAuth.login_with_timers Scenarios.env_ok t2 [] p2 in
  r1 = Returned None /\
  t1 = [{| UriAuth.due_in := 600000; UriAuth.settles_login := false |}] /\
  r2 = Waiting /\ UriAuth.uriHandlerRegistration p2 = false /\
  t2 = [{| UriAuth.due_in := 300000; UriAuth.settles_login := true |}] /\
  r3 = Waiting /\ UriAuth.uriHandlerRegistration p3 = true /\
  eff3 =
    [UriAuth.SetTimeout 600000; UriAuth.RegisterUriHandler;
     UriAuth.OpenExternal
       {| q_response_type := "code"; q_client_id := "1000.CLIENT"; q_scope := SCOPES;
          q_redirect_uri := "vscode://zoho-projects-time-tracker/auth-callback";
          q_state := "6f1c2b9e-0d4a-4a57-9a3e-2f8d5c7b1a10";
          q_access_type := "offline"; q_prompt := "consent" |};
     UriAuth.ShowInformationMessage "Se ha abierto una ventana del navegador para iniciar sesión en Zoho Projects. Por favor, completa el proceso en tu navegador."] /\
  t3 = [{| UriAuth.due_in := 300000; UriAuth.settles_login := true |};
        {| UriAuth.due_in := 600000; UriAuth.settles_login := true |}].
Proof. vm_compute. repeat split. Qed.

(** *** The deadline *)

Lemma first_request_elapse ds : first_request (map Elapse ds) = None.
Proof. induction ds as [|d ds IH]; [reflexivity | exact IH]. Qed.

(** On the loopback listener nothing but a request ends the wait: however
    much time passes, the promise of [login] stays pending with the flag
    raised and the server listening. *)
Lemma loopback_login_waits e p cid csec opened ds :
  isAuthenticating p = false ->
  clientId e = Some cid -> cid <> "" ->
  clientSecret e = Some csec -> csec <> "" ->
  listen e default_port = Listening ->
  openExternal e = Ok opened ->
  login e (map Elapse ds) p = (Waiting, awaiting p, opening cid (uuidv4 e)).
Proof.
  intros. rewrite (login_reaches_wait e _ p cid csec opened) by assumption.
  unfold await_code. rewrite first_request_elapse. reflexivity.
Qed.

(** The timer of [setupUriHandler] fires once the time that has passed
    reaches what remains of the delay. *)
Lemma await_uri_fires ds : forall remaining,
  Forall (fun d => 0 <= d) ds ->
  remaining <= foldr Z.add 0 ds -> 0 < remaining ->
  UriAuth.await_uri remaining (map UriAuth.Elapse ds) = UriAuth.TimerFired.
Proof.
  induction ds as [|d ds IH]; intros remaining Hpos Hsum Hrem; cbn in *; [lia|].
  destruct (Z.leb_spec remaining d) as [_|Hlt]; [reflexivity|].
  apply IH; [by inversion Hpos | lia | lia].
Qed.

(** On the URI handler the deadline ends the attempt: the handler is
    disposed and [login] returns [undefined] with the time-out error. *)
Lemma uri_login_times_out e p cid csec opened ds :
  UriAuth.uriHandlerRegistration p = false ->
  clientId e = Some cid -> cid <> "" ->
  clientSecret e = Some csec -> csec <> "" ->
  openExternal e = Ok opened ->
  Forall (fun d => 0 <= d) ds -> UriAuth.deadline_ms <= foldr Z.add 0 ds ->
  exists eff,
    UriAuth.login e (map UriAuth.Elapse ds) p = (Returned None, p, eff) /\
    UriAuth.DisposeUriHandler ∈ eff /\
    UriAuth.ShowErrorMessage ("Error de autenticación: " +:+ UriAuth.timeout_msg) ∈ eff.
Proof.
  intros Hreg Hid Hne Hsec Hne' Hopen Hpos Hsum.
  unfold UriAuth.login, UriAuth.login_with_timers. rewrite Hreg, Hid, Hsec.
  destruct cid as [|a cid']; [congruence|].
  destruct csec as [|b csec']; [congruence|].
  cbn [truthy andb]. rewrite (WaitFacts.clear_unregistered p Hreg), Hopen.
  rewrite WaitFacts.await_auth_alone by reflexivity.
  rewrite await_uri_fires by (try assumption; reflexivity).
  rewrite WaitFacts.own_timer_fires by reflexivity.
  cbn. eexists; split.
  - f_equal. f_equal. destruct p; cbn in *; subst; reflexivity.
  - split; member.
Qed.

(** C5. The browser is opened and no redirect ever arrives. On the
    loopback listener, after the ten minutes and a further hour [login] is
    still pending, flag raised and server listening: its wait has no
    deadline. The provider on the URI handler, in the same situation, has
    timed out when the ten minutes are over. *)
Theorem loopback_login_never_times_out :
  login Scenarios.env_ok [Elapse 600000; Elapse 3600000] Scenarios.idle =
    (Waiting, awaiting Scenarios.idle,
     opening "1000.CLIENT" "6f1c2b9e-0d4a-4a57-9a3e-2f8d5c7b1a10") /\
  (UriAuth.login Scenarios.env_ok [UriAuth.Elapse 600000] Scenarios.idle_uri).1 =
    (Returned None, Scenarios.idle_uri).
Proof. split; vm_compute; reflexivity. Qed.

End AuthFacts.

(* ================================================================== *)
(** ** The rewrite rules of [extractQueryParams] *)
(* ================================================================== *)
Module UriFacts.
Import UriAuth.

(** The malformed redirect seen in the field is recovered by the first rule
    and the regular expressions. *)
Example malformed_redirect_recovered :
  normalize "https://vscode//zoho-projects-time-tracker/auth-callback?state=S&code=C"
    = "vscode://zoho-projects-time-tracker/auth-callback?state=S&code=C" /\
  extractQueryParams
    {| query := "";
       toString := "https://vscode//zoho-projects-time-tracker/auth-callback?state=S&code=C" |}
    = (Some "C", Some "S").
Proof. split; reflexivity. Qed.

(** No occurrence of the patterns of the third and fourth rule starts inside
    the canonical prefix: they can only be found in what follows it. *)
Lemma includes_single_slash_after_prefix q :
  includes (canonical_prefix +:+ q) "vscode:/zoho-projects"
    = includes q "vscode:/zoho-projects".
Proof. reflexivity. Qed.

Lemma includes_triple_slash_after_prefix q :
  includes (canonical_prefix +:+ q) "vscode:///" = includes q "vscode:///".
Proof. reflexivity. Qed.

(** The rules search the whole string, so a canonical URI is rewritten when
    its query happens to contain one of the patterns: the third rule then
    turns the canonical prefix into [vscode:///...], the fourth one edits
    the query and with it the state that is extracted. *)
Lemma canonical_uri_rewritten :
  normalize (canonical_prefix +:+ "state=vscode:/zoho-projects&code=C")
    = "vscode:///zoho-projects-time-tracker/auth-callback?state=vscode:/zoho-projects&code=C" /\
  normalize (canonical_prefix +:+ "state=vscode:///x&code=C")
    = canonical_prefix +:+ "state=vscode://x&code=C" /\
  regex_param "state" (normalize (canonical_prefix +:+ "state=vscode:///x&code=C"))
    <> regex_param "state" (canonical_prefix +:+ "state=vscode:///x&code=C").
Proof. repeat split. discriminate. Qed.

(** C8, as amended. A canonical URI whose query contains neither
    [vscode:/zoho-projects] nor [vscode:///] is left unchanged by the
    rewrite rules, and so is what the regular expressions extract from it. *)
Theorem normalize_canonical q :
  includes q "vscode:/zoho-projects" = false ->
  includes q "vscode:///" = false ->
  normalize (canonical_prefix +:+ q) = canonical_prefix +:+ q /\
  regex_param "code" (normalize (canonical_prefix +:+ q))
    = regex_param "code" (canonical_prefix +:+ q) /\
  regex_param "state" (normalize (canonical_prefix +:+ q))
    = regex_param "state" (canonical_prefix +:+ q).
Proof.
  intros H3 H4.
  assert (E : normalize (canonical_prefix +:+ q) = canonical_prefix +:+ q).
  { unfold normalize.
    change (startsWith (canonical_prefix +:+ q) "https://vscode//") with false.
    change (startsWith (canonical_prefix +:+ q) "http://vscode//") with false.
    cbv iota.
    rewrite includes_single_slash_after_prefix, H3.
    rewrite includes_triple_slash_after_prefix, H4.
    reflexivity. }
  rewrite E. repeat split.
Qed.

Lemma normalize_canonical_witness :
  normalize (canonical_prefix +:+ "state=S&code=C") = canonical_prefix +:+ "state=S&code=C".
Proof.
  apply (normalize_canonical "state=S&code=C"); reflexivity.
Defined.

End UriFacts.

(* ================================================================== *)
(** ** More on the timer of [TasksManager] *)
(* ================================================================== *)
Module TimerProps.
Import Tasks.

(** The three outcomes of an operation on the timer. *)
Lemma startTimer_cases api now tid m :
  (ret (startTimer api now tid m) = false /\ post (startTimer api now tid m) = m) \/
  (ret (startTimer api now tid m) = true /\
   exists t, currentTimer m = Some t /\ taskId t = tid /\ isPaused t = true /\
             post (startTimer api now tid m) = set_timer m (Some (resumed now t))) \/
  (ret (startTimer api now tid m) = true /\
   exists task, findTaskById m tid = Some task /\
     post (startTimer api now tid m) =
       set_timer m (Some {| taskId := tid; projectId := project_id task;
                            startTime := now; isPaused := false;
                            pausedAt := None; totalPausedMs := 0 |})).
Proof.
  unfold startTimer.
  destruct (apiClient m); [|by left].
  destruct (truthy (portalId m)); [|by left].
  destruct (portalId m) as [portal|]; [|by left].
  destruct (findTaskById m tid) as [task|] eqn:Hf; [|by left].
  unfold is_resume. destruct (currentTimer m) as [t|] eqn:Ht.
  - destruct (bool_decide (taskId t = tid)) eqn:Hid; cbn [andb].
    + destruct (isPaused t) eqn:Hp.
      * right; left. split; [reflexivity|]. exists t.
        apply bool_decide_eq_true_1 in Hid. auto.
      * destruct (api _) as [[]|]; [right; right | by left | by left].
        split; [reflexivity|]. eauto.
    + destruct (api _) as [[]|]; [right; right | by left | by left].
      split; [reflexivity|]. eauto.
  - destruct (api _) as [[]|]; [right; right | by left | by left].
    split; [reflexivity|]. eauto.
Qed.

Lemma pauseTimer_cases api now m :
  (ret (pauseTimer api now m) = false /\ post (pauseTimer api now m) = m) \/
  (ret (pauseTimer api now m) = true /\
   exists t, currentTimer m = Some t /\ isPaused t = false /\
             post (pauseTimer api now m) = set_timer m (Some (paused now t))).
Proof.
  unfold pauseTimer.
  destruct (apiClient m); [|by left].
  destruct (truthy (portalId m)); [|by left].
  destruct (portalId m) as [portal|]; [|by left].
  destruct (currentTimer m) as [t|]; [|by left].
  destruct (isPaused t) eqn:Hp; [by left|].
  destruct (api _) as [[]|]; [right | by left | by left].
  split; [reflexivity|]. eauto.
Qed.

Lemma stopTimer_cases api now today m :
  (ret (stopTimer api now today m) = false /\ post (stopTimer api now today m) = m) \/
  (ret (stopTimer api now today m) = true /\
   exists portal t, portalId m = Some portal /\ currentTimer m = Some t /\
     post (stopTimer api now today m) = set_timer m None /\
     trace (stopTimer api now today m) =
       [Call (ReqStopTimer portal (projectId t) (taskId t));
        Call (ReqLogTime portal (projectId t) (stop_timeLog now today t))]).
Proof.
  unfold stopTimer.
  destruct (apiClient m); [|by left].
  destruct (truthy (portalId m)); [|by left].
  destruct (portalId m) as [portal|]; [|by left].
  destruct (currentTimer m) as [t|]; [|by left].
  destruct (api (ReqStopTimer _ _ _)) as [[]|]; [| by left | by left].
  destruct (api (ReqLogTime _ _ _)) as [d|]; [right | by left].
  split; [reflexivity|]. eauto 10.
Qed.

(** X1. An operation on the timer that returns [false] leaves the manager
    exactly as it was, whatever made it fail: a guard, a remote call that
    was refused or threw, or the time log that threw after the remote timer
    was stopped. *)
Theorem failed_operation_keeps_state api now today tid m :
  (ret (startTimer api now tid m) = false -> post (startTimer api now tid m) = m) /\
  (ret (pauseTimer api now m) = false -> post (pauseTimer api now m) = m) /\
  (ret (stopTimer api now today m) = false -> post (stopTimer api now today m) = m).
Proof.
  split; [|split]; intros Hret.
  - destruct (startTimer_cases api now tid m) as [[_ H] | [[H _] | [H _]]];
      [assumption | congruence | congruence].
  - destruct (pauseTimer_cases api now m) as [[_ H] | [H _]];
      [assumption | congruence].
  - destruct (stopTimer_cases api now today m) as [[_ H] | [H _]];
      [assumption | congruence].
Qed.

Lemma failed_operation_keeps_state_witness :
  post (stopTimer Scenarios.api_log_throws 25000 "2025-06-02" Scenarios.running_T1)
    = Scenarios.running_T1.
Proof.
  destruct (failed_operation_keeps_state Scenarios.api_log_throws 25000 "2025-06-02"
              "T1" Scenarios.running_T1) as (_ & _ & H).
  apply H. reflexivity.
Defined.

(** *** The bookkeeping stays consistent *)

Lemma consistent_later T T' t : T <= T' -> consistent T t -> consistent T' t.
Proof.
  intros Hle [H0 H]. split; [assumption|].
  destruct (pausedAt t); intuition lia.
Qed.

Lemma perform_consistent c m T :
  match reading c with Some now => T <= now | None => True end ->
  (forall t, currentTimer m = Some t -> consistent T t) ->
  forall t, currentTimer (perform c m) = Some t ->
            consistent (default T (reading c)) t.
Proof.
  intros Hclock Hm t'.
  destruct c as [tok | reply | api now tid | api now | api now today]; cbn in *.
  - apply Hm.
  - unfold loadMyTasks.
    destruct (bool_decide _ && truthy _); [destruct reply|]; apply Hm.
  - destruct (startTimer_cases api now tid m)
      as [[_ ->] | [[_ (t & Ht & _ & Hp & ->)] | [_ (task & _ & ->)]]].
    + intros H. eapply consistent_later; eauto.
    + cbn. intros [= <-]. destruct (Hm t Ht) as [H0 H].
      unfold consistent, resumed. cbn.
      destruct (pausedAt t) as [p|]; [|intuition congruence].
      intuition lia.
    + cbn. intros [= <-]. unfold consistent. cbn. intuition lia.
  - destruct (pauseTimer_cases api now m) as [[_ ->] | [_ (t & Ht & Hp & ->)]].
    + intros H. eapply consistent_later; eauto.
    + cbn. intros [= <-]. destruct (Hm t Ht) as [H0 H].
      unfold consistent, paused. cbn.
      destruct (pausedAt t) as [p|]; [intuition congruence|].
      intuition lia.
  - destruct (stopTimer_cases api now today m)
      as [[_ ->] | [_ (portal & t & _ & _ & -> & _)]].
    + intros H. eapply consistent_later; eauto.
    + cbn. discriminate.
Qed.

Lemma perform_all_consistent cs : forall m T,
  clock_monotone T cs ->
  (forall t, currentTimer m = Some t -> consistent T t) ->
  forall t, currentTimer (perform_all cs m) = Some t ->
            consistent (last_reading T cs) t.
Proof.
  induction cs as [|c cs IH]; intros m T Hclock Hm t; [apply Hm|].
  cbn in Hclock |- *.
  apply IH.
  - destruct (reading c); [apply Hclock | exact Hclock].
  - apply perform_consistent; [|assumption].
    destruct (reading c); [apply Hclock | exact I].
Qed.

(** X2. Whatever is called on a manager that starts without a timer, in
    whatever order and with whatever answers from the remote service, as
    long as the clock does not go back: the timer it ends with has
    [pausedAt] set exactly when it is paused, a paused total that is not
    negative, and an elapsed time that is not negative at any later
    reading. *)
Theorem timer_bookkeeping_consistent cs m T t now :
  currentTimer m = None ->
  clock_monotone T cs ->
  currentTimer (perform_all cs m) = Some t ->
  last_reading T cs <= now ->
  (isPaused t = true <-> is_Some (pausedAt t)) /\
  0 <= totalPausedMs t /\
  0 <= elapsed_totalMs now t.
Proof.
  intros Hnone Hclock Ht Hnow.
  destruct (perform_all_consistent cs m T Hclock) with (t := t) as [H0 H];
    [intros t0; rewrite Hnone; discriminate | assumption |].
  unfold elapsed_totalMs.
  destruct (pausedAt t) as [p|], (isPaused t); split;
    try (split; [assumption | lia]);
    try (split; intros G; [eauto | reflexivity]);
    try (destruct H; congruence).
  split; intros G; [discriminate | destruct G; discriminate].
Qed.

Lemma timer_bookkeeping_consistent_witness :
  0 <= elapsed_totalMs 2000000
         {| taskId := "T1"; projectId := "P1"; startTime := 0; isPaused := true;
            pausedAt := Some 1500000; totalPausedMs := 300000 |}.
Proof.
  apply (timer_bookkeeping_consistent Scenarios.morning Scenarios.loaded 0
           {| taskId := "T1"; projectId := "P1"; startTime := 0; isPaused := true;
              pausedAt := Some 1500000; totalPausedMs := 300000 |} 2000000).
  - reflexivity.
  - cbn. lia.
  - reflexivity.
  - cbn. lia.
Defined.

(** *** What is shown and what is logged *)

Lemma getCurrentTimerElapsed_of_ms now now' m m' t t' :
  currentTimer m = Some t -> currentTimer m' = Some t' ->
  elapsed_totalMs now t = elapsed_totalMs now' t' ->
  getCurrentTimerElapsed now m = getCurrentTimerElapsed now' m'.
Proof.
  intros Ht Ht' E. unfold getCurrentTimerElapsed. rewrite Ht, Ht', E. reflexivity.
Qed.

(** X3. Once [pauseTimer] has succeeded at [a], the elapsed time shown at
    any reading of the clock is the one that was shown at [a]: the display
    stands still while the timer is paused. *)
Theorem pause_freezes_elapsed api a m now :
  ret (pauseTimer api a m) = true ->
  getCurrentTimerElapsed now (post (pauseTimer api a m)) = getCurrentTimerElapsed a m.
Proof.
  intros Hret.
  destruct (pauseTimer_cases api a m) as [[H _] | [_ (t & Ht & Hp & ->)]];
    [congruence|].
  apply (getCurrentTimerElapsed_of_ms _ _ _ _ (paused a t) t); [reflexivity | assumption |].
  unfold elapsed_totalMs, paused. cbn. rewrite Hp. lia.
Qed.

Lemma pause_freezes_elapsed_witness :
  getCurrentTimerElapsed 99000 Scenarios.paused_T1 = "00:00:10".
Proof.
  exact (pause_freezes_elapsed Scenarios.api_ok 10000 Scenarios.running_T1 99000 eq_refl).
Defined.

(** X4. When [stopTimer] succeeds on a timer whose start and pauses lie in
    the past, it has called the remote stop and then logged, for the task
    of the timer and as billable on the given date, the elapsed time cut
    down to whole minutes: minutes below sixty, hours and minutes not
    negative, and less than a minute lost; afterwards there is no timer. *)
Theorem stop_logs_whole_minutes api now today m t :
  currentTimer m = Some t ->
  startTime t + totalPausedMs t <= now ->
  ret (stopTimer api now today m) = true ->
  exists portal log,
    trace (stopTimer api now today m) =
      [Call (ReqStopTimer portal (projectId t) (taskId t));
       Call (ReqLogTime portal (projectId t) log)] /\
    task_id log = taskId t /\ work_date log = today /\ bill_status log = "Billable" /\
    0 <= hours log /\ 0 <= minutes log < 60 /\
    (60 * hours log + minutes log) * 60000 <= now - startTime t - totalPausedMs t
      < (60 * hours log + minutes log + 1) * 60000 /\
    getTimerStatus (post (stopTimer api now today m)) = stopped.
Proof.
  intros Ht Hpast Hret.
  destruct (stopTimer_cases api now today m)
    as [[H _] | [_ (portal & t' & _ & Ht' & Hpost & Htrace)]]; [congruence|].
  rewrite Ht in Ht'. injection Ht' as <-.
  exists portal, (stop_timeLog now today t).
  rewrite Hpost. unfold stop_timeLog, stop_totalMs. cbn.
  repeat split; try assumption; try reflexivity;
    Z.to_euclidean_division_equations; lia.
Qed.

Lemma stop_logs_whole_minutes_witness :
  exists portal log,
    trace (stopTimer Scenarios.api_ok 4000000 "2025-06-02" Scenarios.running_T1) =
      [Call (ReqStopTimer portal "P1" "T1"); Call (ReqLogTime portal "P1" log)] /\
    hours log = 1 /\ minutes log = 6.
Proof.
  destruct (stop_logs_whole_minutes Scenarios.api_ok 4000000 "2025-06-02"
              Scenarios.running_T1
              {| taskId := "T1"; projectId := "P1"; startTime := 0; isPaused := false;
                 pausedAt := None; totalPausedMs := 0 |}
              eq_refl ltac:(cbn; lia) eq_refl)
    as (portal & log & Htrace & _).
  exists portal, log. split; [exact Htrace|].
  cbn in Htrace. inversion Htrace. split; reflexivity.
Defined.

(** *** Looking a task up *)

Lemma find_by_id_Some tid ts t :
  find_by_id tid ts = Some t -> id t = tid /\ t ∈ ts.
Proof.
  unfold find_by_id. intros H. apply find_some in H as [Hin Hid].
  apply bool_decide_eq_true_1 in Hid. split; [assumption|].
  apply list_elem_of_In. assumption.
Qed.

Lemma find_by_id_None tid ts :
  find_by_id tid ts = None -> forall t, t ∈ ts -> id t <> tid.
Proof.
  unfold find_by_id. intros H t Hin Hid.
  apply list_elem_of_In in Hin.
  pose proof (find_none _ _ H t Hin) as G. cbn in G.
  apply bool_decide_eq_false_1 in G. contradiction.
Qed.

Lemma find_in_subtasks_Some tid ts st :
  find_in_subtasks tid ts = Some st ->
  id st = tid /\ exists parent sts, parent ∈ ts /\ subtasks parent = Some sts /\ st ∈ sts.
Proof.
  induction ts as [|parent rest IH]; cbn; [discriminate|].
  destruct (subtasks parent) as [sts|] eqn:Hs.
  - destruct (find_by_id tid sts) as [st'|] eqn:Hf.
    + intros [= <-]. apply find_by_id_Some in Hf as [Hid Hin].
      split; [assumption|]. exists parent, sts. repeat split; [left | assumption..].
    + intros H. destruct (IH H) as (Hid & p & l & Hp & Hl & Hin).
      split; [assumption|]. exists p, l. repeat split; [by right | assumption..].
  - intros H. destruct (IH H) as (Hid & p & l & Hp & Hl & Hin).
    split; [assumption|]. exists p, l. repeat split; [by right | assumption..].
Qed.

Lemma find_in_subtasks_None tid ts :
  find_in_subtasks tid ts = None ->
  forall parent sts st, parent ∈ ts -> subtasks parent = Some sts -> st ∈ sts ->
                        id st <> tid.
Proof.
  induction ts as [|p rest IH]; cbn; intros H parent sts st Hp Hs Hin.
  - inversion Hp.
  - apply elem_of_cons in Hp as [-> | Hp].
    + rewrite Hs in H. destruct (find_by_id tid sts) eqn:Hf; [discriminate|].
      eapply find_by_id_None; eauto.
    + destruct (subtasks p) as [l|].
      * destruct (find_by_id tid l); [discriminate|]. eapply IH; eauto.
      * eapply IH; eauto.
Qed.

(** X5. [findTaskById] returns a task only if its id is the one asked for
    and it is a loaded task or a direct subtask of one; a loaded task wins
    over a subtask with the same id; and it returns [undefined] only if no
    loaded task and no direct subtask has that id. *)
Theorem findTaskById_sound_and_complete m tid :
  (forall t, findTaskById m tid = Some t ->
     id t = tid /\
     (t ∈ tasks m \/
      exists parent sts, parent ∈ tasks m /\ subtasks parent = Some sts /\ t ∈ sts)) /\
  (forall t, find_by_id tid (tasks m) = Some t -> findTaskById m tid = Some t) /\
  (findTaskById m tid = None ->
     (forall t, t ∈ tasks m -> id t <> tid) /\
     (forall parent sts st, parent ∈ tasks m -> subtasks parent = Some sts ->
                            st ∈ sts -> id st <> tid)).
Proof.
  unfold findTaskById. split; [|split].
  - intros t. destruct (find_by_id tid (tasks m)) as [t'|] eqn:Hf.
    + intros [= <-]. apply find_by_id_Some in Hf as [Hid Hin]. auto.
    + intros H. apply find_in_subtasks_Some in H as [Hid H]. auto.
  - intros t ->. reflexivity.
  - destruct (find_by_id tid (tasks m)) eqn:Hf; [discriminate|].
    intros H. split.
    + apply find_by_id_None. assumption.
    + apply find_in_subtasks_None. assumption.
Qed.

Lemma findTaskById_sound_and_complete_witness :
  id Scenarios.T1b = "T1b" /\
  (Scenarios.T1b ∈ tasks Scenarios.loaded_with_subtasks \/
   exists parent sts, parent ∈ tasks Scenarios.loaded_with_subtasks /\
                      subtasks parent = Some sts /\ Scenarios.T1b ∈ sts).
Proof.
  destruct (findTaskById_sound_and_complete Scenarios.loaded_with_subtasks "T1b")
    as (Hsound & _).
  apply Hsound. reflexivity.
Defined.

(** *** Closed pauses *)

Lemma post_keeps_connection api now today tid m :
  (apiClient (post (startTimer api now tid m)) = apiClient m /\
   portalId (post (startTimer api now tid m)) = portalId m) /\
  (apiClient (post (pauseTimer api now m)) = apiClient m /\
   portalId (post (pauseTimer api now m)) = portalId m) /\
  (apiClient (post (stopTimer api now today m)) = apiClient m /\
   portalId (post (stopTimer api now today m)) = portalId m).
Proof.
  split; [|split].
  - destruct (startTimer_cases api now tid m)
      as [[_ ->] | [[_ (t & _ & _ & _ & ->)] | [_ (task & _ & ->)]]]; auto.
  - destruct (pauseTimer_cases api now m) as [[_ ->] | [_ (t & _ & _ & ->)]]; auto.
  - destruct (stopTimer_cases api now today m)
      as [[_ ->] | [_ (portal & t & _ & _ & -> & _)]]; auto.
Qed.

Lemma pause_resume_keeps_connection api tid intervals : forall m,
  apiClient (Scenarios.pause_resume api tid intervals m) = apiClient m /\
  portalId (Scenarios.pause_resume api tid intervals m) = portalId m.
Proof.
  induction intervals as [|[a b] rest IH]; intros m; [auto|].
  cbn [Scenarios.pause_resume].
  destruct (IH (post (startTimer api b tid (post (pauseTimer api a m))))) as [-> ->].
  destruct (post_keeps_connection api b "" tid (post (pauseTimer api a m)))
    as [[-> ->] _].
  destruct (post_keeps_connection api a "" tid m) as [_ [[-> ->] _]]. auto.
Qed.

(** X6. A timer that was paused and resumed any number of times and is then
    stopped while running logs the time since it was started less the sum
    of its pauses, in hours and minutes. *)
Theorem stop_logs_net_of_closed_pauses
    api m client portal tid task intervals t now today :
  (forall r, api r = Data true) ->
  apiClient m = Some client -> portalId m = Some portal -> portal <> "" ->
  findTaskById m tid = Some task ->
  currentTimer m = Some t -> taskId t = tid ->
  isPaused t = false -> pausedAt t = None ->
  let m' := Scenarios.pause_resume api tid intervals m in
  let net := now - startTime t - totalPausedMs t - Scenarios.paused_total intervals in
  ret (stopTimer api now today m') = true /\
  exists log,
    trace (stopTimer api now today m') =
      [Call (ReqStopTimer portal (projectId t) tid);
       Call (ReqLogTime portal (projectId t) log)] /\
    hours log = net / 60000 / 60 /\ minutes log = Z.rem (net / 60000) 60.
Proof.
  intros Hapi Hc Hp Hne Hf Ht Hid Hpa Hat m' net.
  pose proof (TimerFacts.pause_resume_total api m client portal tid task intervals t
                Hapi Hc Hp Hne Hf Ht Hid Hpa Hat) as Ht'.
  destruct (pause_resume_keeps_connection api tid intervals m) as [Hc' Hp'].
  fold m' in Ht', Hc', Hp'.
  unfold stopTimer. rewrite Hc', Hp', Hc, Hp, Ht'.
  destruct portal as [|c0 portal]; [contradiction|]. cbn [truthy].
  rewrite !Hapi. cbn. split; [reflexivity|].
  eexists. split; [reflexivity|]. cbn. unfold stop_totalMs. cbn.
  subst net. split; f_equal; f_equal; lia.
Qed.

Lemma stop_logs_net_of_closed_pauses_witness :
  exists log,
    trace (stopTimer Scenarios.api_ok 4000000 "2025-06-02"
             (Scenarios.pause_resume Scenarios.api_ok "T1" [(10000, 15000)]
                Scenarios.running_T1)) =
      [Call (ReqStopTimer "portal-1" "P1" "T1"); Call (ReqLogTime "portal-1" "P1" log)] /\
    hours log = (4000000 - 0 - 0 - Scenarios.paused_total [(10000, 15000)]) / 60000 / 60.
Proof.
  destruct (stop_logs_net_of_closed_pauses Scenarios.api_ok Scenarios.running_T1
           "access-token" "portal-1" "T1" Scenarios.T1 [(10000, 15000)]
           {| taskId := "T1"; projectId := "P1"; startTime := 0; isPaused := false;
              pausedAt := None; totalPausedMs := 0 |} 4000000 "2025-06-02"
           (fun _ => eq_refl) eq_refl eq_refl ltac:(discriminate) eq_refl eq_refl
           eq_refl eq_refl eq_refl) as (_ & log & Htrace & Hh & _).
  exists log. split; assumption.
Defined.

End TimerProps.

(* ================================================================== *)
(** ** The stopwatch of the status bar *)
(* ================================================================== *)
Module BarProps.
Import StatusBar.

Lemma act_settled a s : settled s -> settled (act a s).
Proof.
  intros [-> | (Hr & Ht & [st Hs] & [ct Hc])].
  - destruct a; cbn; [right | left | left | left]; try reflexivity.
    cbn. repeat split; eauto.
  - destruct s as [tm st' run psd dur ct' el]. cbn in *. subst.
    destruct a as [now t | | | now], psd; cbn;
      try (left; reflexivity);
      right; cbn; repeat split; eauto.
Qed.

Lemma act_all_settled l : forall s, settled s -> settled (act_all l s).
Proof.
  induction l as [|a l IH]; intros s Hs; [exact Hs|].
  cbn. apply IH, act_settled, Hs.
Qed.

(** X7. Whatever is called on a new status bar, and whenever its interval
    fires: it is paused only while running, so "running" and "paused" never
    hold together; the interval is installed exactly while it runs and is
    not paused; a running one has a start time and a task; and one that is
    not running is back in its initial state, with nothing left from the
    timer before. *)
Theorem status_bar_invariant l :
  let s := act_all l initial in
  (isRunning s = false -> s = initial) /\
  (isPaused s = true -> isRunning s = true) /\
  timer s = isTimerRunning s /\
  (isRunning s = true -> is_Some (startTime s) /\ is_Some (currentTask s)) /\
  isTimerRunning s && isTimerPaused s = false.
Proof.
  cbn zeta.
  destruct (act_all_settled l initial) as [-> | (Hr & Ht & Hs & Hc)];
    [left; reflexivity | repeat split; try discriminate |].
  unfold isTimerRunning, isTimerPaused. rewrite Hr, Ht.
  repeat split; try congruence; try assumption.
  destruct (isPaused _); reflexivity.
Qed.

Lemma status_bar_invariant_witness :
  act_all [DoStart 0 "T1"; Tick 1000; DoPause; DoStart 9000 "T1"; Tick 10000; DoStop]
    initial = initial.
Proof.
  apply (status_bar_invariant
           [DoStart 0 "T1"; Tick 1000; DoPause; DoStart 9000 "T1"; Tick 10000; DoStop]).
  reflexivity.
Defined.

(** X8. [stop()] on a running status bar whose count is not negative
    returns that count as the duration, split into hours, minutes below
    sixty and seconds below sixty that add up to it again, and leaves the
    bar in its initial state; a second [stop()] then only warns and returns
    zeros. *)
Theorem stop_splits_duration s :
  isRunning s = true -> 0 <= elapsedSeconds s ->
  let '(s', r, shown) := stop s in
  s' = initial /\ shown = [] /\
  task r = currentTask s /\ duration r = elapsedSeconds s /\
  hours r * 3600 + minutes r * 60 + seconds r = duration r /\
  0 <= hours r /\ 0 <= minutes r < 60 /\ 0 <= seconds r < 60 /\
  stop s' = (initial,
             {| task := None; duration := 0; hours := 0; minutes := 0; seconds := 0 |},
             [ShowWarningMessage "No hay un temporizador activo."]).
Proof.
  intros Hr Hpos. unfold stop. rewrite Hr. cbn.
  repeat split; try reflexivity; Z.to_euclidean_division_equations; lia.
Qed.

Lemma stop_splits_duration_witness :
  let s := act_all [DoStart 0 "T1"; Tick 3725000] initial in
  (stop s).1.1 = initial /\
  (stop s).1.2 =
    {| task := Some "T1"; duration := 3725; hours := 1; minutes := 2; seconds := 5 |}.
Proof.
  cbn zeta.
  pose proof (stop_splits_duration (act_all [DoStart 0 "T1"; Tick 3725000] initial)
                eq_refl ltac:(vm_compute; discriminate)) as H.
  destruct (stop (act_all [DoStart 0 "T1"; Tick 3725000] initial)) as [[s' r] shown] eqn:E.
  destruct H as (H & _). split; [exact H|].
  vm_compute in E. injection E as _ <- _. reflexivity.
Defined.

(** X9. Pause and resume do not take the pause out of the count: with the
    bar running since [t0], after [pause()], [start(task)] at [t2] and a
    tick at [t3], the seconds counted are those since [t2] plus all those
    from [t0] to [t2], the paused ones among them. *)
Theorem resume_counts_the_pause s t0 t2 t3 task :
  isRunning s = true -> isPaused s = false -> startTime s = Some t0 ->
  elapsedSeconds (act_all [DoPause; DoStart t2 task; Tick t3] s) =
    (t3 - t2) / 1000 + (pausedDuration s + (t2 - t0) / 1000).
Proof.
  intros Hr Hp Hs. destruct s as [tm st run psd dur ct el]. cbn in *. subst.
  reflexivity.
Qed.

Lemma resume_counts_the_pause_witness :
  elapsedSeconds
    (act_all [DoPause; DoStart 70000 "T1"; Tick 75000]
       (act_all [DoStart 0 "T1"; Tick 10000] initial)) = 75.
Proof.
  exact (resume_counts_the_pause (act_all [DoStart 0 "T1"; Tick 10000] initial)
           0 70000 75000 "T1" eq_refl eq_refl eq_refl).
Defined.

(** *** The format of the clock *)

Lemma pad2_two_digits n :
  0 <= n < 100 ->
  exists a b, pad2 n = String a (String b EmptyString) /\ digit a = true /\ digit b = true.
Proof.
  intros Hn.
  set (ok := fun k : nat =>
    match pad2 (Z.of_nat k) with
    | String a (String b EmptyString) => digit a && digit b
    | _ => false
    end).
  assert (Hall : forallb ok (seq 0 100) = true) by (vm_compute; reflexivity).
  rewrite forallb_forall in Hall.
  specialize (Hall (Z.to_nat n)).
  assert (Hin : In (Z.to_nat n) (seq 0 100)) by (apply in_seq; lia).
  specialize (Hall Hin). unfold ok in Hall.
  rewrite Z2Nat.id in Hall by lia.
  destruct (pad2 n) as [|a [|b [|c r]]]; try discriminate.
  apply andb_prop in Hall as [Ha Hb]. eauto.
Qed.

(** X10. For a count of seconds from zero to just under a hundred hours,
    [formatTime] gives exactly eight characters: two digits, a colon, two
    digits, a colon, two digits; and so does [getCurrentTimerElapsed] of the
    manager for an elapsed time in that range. *)
Theorem clock_has_two_digit_fields secs now m t :
  0 <= secs < 360000 ->
  Tasks.currentTimer m = Some t ->
  0 <= Tasks.elapsed_totalMs now t < 360000000 ->
  clock_shape (formatTime secs) = true /\
  clock_shape (Tasks.getCurrentTimerElapsed now m) = true.
Proof.
  intros Hsecs Ht Hms.
  assert (shape : forall h mi se, 0 <= h < 100 -> 0 <= mi < 100 -> 0 <= se < 100 ->
            clock_shape (pad2 h +:+ ":" +:+ pad2 mi +:+ ":" +:+ pad2 se) = true).
  { intros h mi se Hh Hmi Hse.
    destruct (pad2_two_digits h Hh) as (a & b & -> & Ha & Hb).
    destruct (pad2_two_digits mi Hmi) as (c & d & -> & Hc & Hd).
    destruct (pad2_two_digits se Hse) as (e & f & -> & He & Hf).
    cbv [String.append clock_shape]. rewrite Ha, Hb, Hc, Hd, He, Hf. reflexivity. }
  split.
  - unfold formatTime. apply shape; Z.to_euclidean_division_equations; lia.
  - unfold Tasks.getCurrentTimerElapsed. rewrite Ht.
    apply shape; Z.to_euclidean_division_equations; lia.
Qed.

Lemma clock_has_two_digit_fields_witness :
  clock_shape (formatTime 3725) = true /\
  clock_shape (Tasks.getCurrentTimerElapsed 99000 Scenarios.paused_T1) = true.
Proof.
  apply (clock_has_two_digit_fields 3725 99000 Scenarios.paused_T1
           {| Tasks.taskId := "T1"; Tasks.projectId := "P1"; Tasks.startTime := 0;
              Tasks.isPaused := true; Tasks.pausedAt := Some 10000;
              Tasks.totalPausedMs := 0 |});
    [lia | reflexivity | unfold Tasks.elapsed_totalMs; cbn; lia].
Defined.

End BarProps.

(* ================================================================== *)
(** ** The timer commands *)
(* ================================================================== *)
Module CommandProps.
Import Extension.

(** [statusBar.start] always ends with the bar running: it refuses only
    when it already runs. *)
Lemma bar_runs_after_start now task s :
  StatusBar.isTimerRunning (StatusBar.start now task s).1 = true.
Proof.
  unfold StatusBar.start, StatusBar.isTimerRunning.
  destruct (StatusBar.isRunning s) eqn:Hr, (StatusBar.isPaused s) eqn:Hp; cbn;
    rewrite ?Hr, ?Hp; reflexivity.
Qed.

Lemma bar_paused_after_pause s :
  StatusBar.isTimerRunning s = true -> StatusBar.isTimerPaused (StatusBar.pause s).1 = true.
Proof.
  unfold StatusBar.pause, StatusBar.isTimerRunning, StatusBar.isTimerPaused.
  destruct (StatusBar.isRunning s) eqn:Hr, (StatusBar.isPaused s) eqn:Hp; cbn;
    rewrite ?Hr, ?Hp; try discriminate; reflexivity.
Qed.

Lemma bar_initial_after_stop s :
  StatusBar.isRunning s = true -> (StatusBar.stop s).1.1 = StatusBar.initial.
Proof. intros Hr. unfold StatusBar.stop. rewrite Hr. reflexivity. Qed.

Lemma tick_keeps_flags now s :
  StatusBar.isRunning (StatusBar.act (StatusBar.Tick now) s) = StatusBar.isRunning s /\
  StatusBar.isPaused (StatusBar.act (StatusBar.Tick now) s) = StatusBar.isPaused s.
Proof.
  cbn. destruct (StatusBar.timer s); [|split; reflexivity].
  unfold StatusBar.updateTimer.
  destruct (StatusBar.startTime s); [|split; reflexivity].
  destruct (StatusBar.isPaused s) eqn:Hp; split; cbn; congruence.
Qed.

Lemma start_task_in_step api nowM nowB task said st :
  in_step st -> in_step (start_task api nowM nowB task said st).1.
Proof.
  intros H. unfold start_task.
  destruct (TimerProps.startTimer_cases api nowM (Tasks.id task) (tasksManager st))
    as [[Hr Hp] | [[Hr (t & _ & _ & _ & Hp)] | [Hr (tk & _ & Hp)]]]; rewrite Hr.
  - cbn. rewrite Hp. destruct st; exact H.
  - pose proof (bar_runs_after_start nowB (Tasks.id task) (statusBar st)) as Hb.
    destruct (StatusBar.start nowB (Tasks.id task) (statusBar st)) as [bar shown].
    unfold in_step. cbn. rewrite Hp. exact Hb.
  - pose proof (bar_runs_after_start nowB (Tasks.id task) (statusBar st)) as Hb.
    destruct (StatusBar.start nowB (Tasks.id task) (statusBar st)) as [bar shown].
    unfold in_step. cbn. rewrite Hp. exact Hb.
Qed.

Lemma execute_in_step c st : in_step st -> in_step (execute c st).
Proof.
  intros H. destruct c as [api nowM nowB pick | api nowM nowB tid | api now
                          | api now today | reply | now]; cbn [execute].
  - unfold startTimerCommand.
    destruct (Tasks.getTimerStatus (tasksManager st)) eqn:Hs.
    + destruct (Tasks.tasks (tasksManager st)) eqn:Ht; [exact H|].
      destruct (pick ≫= _); [apply start_task_in_step | ]; exact H.
    + destruct (Tasks.getCurrentTimerTask (tasksManager st));
        [apply start_task_in_step | ]; exact H.
    + destruct (Tasks.tasks (tasksManager st)) eqn:Ht; [exact H|].
      destruct (pick ≫= _); [apply start_task_in_step | ]; exact H.
  - unfold startFromTree. destruct (find _ _); [apply start_task_in_step | ]; exact H.
  - unfold pauseTimerCommand.
    destruct (TimerProps.pauseTimer_cases api now (tasksManager st))
      as [[Hr Hp] | [Hr (t & Ht & Hpa & Hp)]]; rewrite Hr.
    + cbn. rewrite Hp. destruct st; exact H.
    + unfold in_step, Tasks.getTimerStatus in H. rewrite Ht, Hpa in H.
      pose proof (bar_paused_after_pause (statusBar st) H) as Hb.
      destruct (StatusBar.pause (statusBar st)) as [bar shown].
      unfold in_step. cbn. rewrite Hp. exact Hb.
  - unfold stopTimerCommand.
    destruct (TimerProps.stopTimer_cases api now today (tasksManager st))
      as [[Hr Hp] | [Hr (portal & t & _ & Ht & Hp & _)]]; rewrite Hr.
    + cbn. rewrite Hp. destruct st; exact H.
    + assert (Hrun : StatusBar.isRunning (statusBar st) = true).
      { unfold in_step, Tasks.getTimerStatus in H. rewrite Ht in H.
        unfold StatusBar.isTimerRunning, StatusBar.isTimerPaused in H.
        destruct (Tasks.isPaused t); apply andb_prop in H as [G _]; exact G. }
      pose proof (bar_initial_after_stop (statusBar st) Hrun) as Hb.
      destruct (StatusBar.stop (statusBar st)) as [[bar timerData] shown].
      cbn in Hb. subst bar.
      unfold in_step. cbn. rewrite Hp. split; reflexivity.
  - unfold refreshTasks, in_step in *. cbn.
    replace (Tasks.getTimerStatus (Tasks.loadMyTasks reply (tasksManager st)))
      with (Tasks.getTimerStatus (tasksManager st)); [exact H|].
    unfold Tasks.loadMyTasks, Tasks.getTimerStatus.
    destruct (bool_decide _ && truthy _); [destruct reply|]; reflexivity.
  - destruct (tick_keeps_flags now (statusBar st)) as [Hr Hp].
    unfold in_step, StatusBar.isTimerRunning, StatusBar.isTimerPaused in *.
    cbn [tasksManager statusBar]. rewrite Hr, Hp. exact H.
Qed.

(** X11. The status bar keeps in step with the manager: starting with no
    timer and a new status bar, after any sequence of the timer commands
    (start from the palette or from the tree, pause, stop), of task
    refreshes and of seconds ticking, with whatever the remote service
    answers, the bar runs exactly when the manager has a running timer, is
    paused exactly when that timer is paused, and is stopped when there is
    none. *)
Theorem status_bar_follows_manager cs m :
  Tasks.currentTimer m = None ->
  in_step (execute_all cs {| tasksManager := m; statusBar := StatusBar.initial |}).
Proof.
  intros Hm. unfold execute_all.
  assert (H0 : in_step {| tasksManager := m; statusBar := StatusBar.initial |}).
  { unfold in_step, Tasks.getTimerStatus. cbn. rewrite Hm. split; reflexivity. }
  revert H0. generalize {| tasksManager := m; statusBar := StatusBar.initial |} as st.
  induction cs as [|c cs IH]; intros st H0; [exact H0|].
  cbn. apply IH, execute_in_step, H0.
Qed.

Lemma status_bar_follows_manager_witness :
  in_step (execute_all Scenarios.afternoon
             {| tasksManager := Scenarios.loaded; statusBar := StatusBar.initial |}).
Proof.
  exact (status_bar_follows_manager Scenarios.afternoon Scenarios.loaded eq_refl).
Defined.

End CommandProps.

(* ================================================================== *)
(** ** More on [login] and the session *)
(* ================================================================== *)
Module SessionProps.
Import LocalServer Auth.

Ltac member :=
  apply list_elem_of_In; repeat rewrite in_app_iff; cbn [In]; intuition auto.

(** What the dialog about missing credentials can add to the effects. *)
Lemma followup_shape (e : Env) (domain a b : string) :
  let followup :=
    match dialog e with
    | Some "Configurar ahora" =>
        [ExecuteCommand "workbench.action.openSettings" "zohoProjects"]
    | Some "Mostrar valores actuales" => [ShowCurrentSettings domain a b]
    | _ => []
    end in
  followup = [] \/
  followup = [ExecuteCommand "workbench.action.openSettings" "zohoProjects"] \/
  followup = [ShowCurrentSettings domain a b].
Proof.
  cbn zeta. destruct (dialog e) as [s|]; [|by left].
  repeat case_match; auto.
Qed.

(** The branch of [login] for missing credentials. *)
Lemma login_without_credentials e events p :
  isAuthenticating p = false ->
  truthy (clientId e) && truthy (clientSecret e) = false ->
  exists followup,
    login e events p =
      (Returned None, p,
       ShowErrorMessage
         "Necesitas configurar el Client ID y Client Secret para OAuth de Zoho Projects"
       :: followup) /\
    (followup = [] \/
     followup = [ExecuteCommand "workbench.action.openSettings" "zohoProjects"] \/
     exists a b c, followup = [ShowCurrentSettings a b c]).
Proof.
  intros Hidle Hcreds. unfold login. rewrite Hidle, Hcreds.
  assert (Hp : set_isAuthenticating false (set_isAuthenticating true p) = p).
  { destruct p; cbn in *; subst; reflexivity. }
  rewrite Hp.
  pose proof (followup_shape e (or_default (apiDomain e) "https://projectsapi.zoho.com")
                (or_default (clientId e) "(no configurado)")
                (if truthy (clientSecret e) then "(configurado pero oculto)"
                 else "(no configurado)")) as Hshape.
  cbn zeta in Hshape.
  destruct (clientId e), (clientSecret e);
    (eexists; split; [reflexivity|]);
    destruct Hshape as [-> | [-> | ->]]; eauto 10.
Qed.

(** With credentials, [login] is the start of the server, the browser and
    the wait. *)
Lemma login_with_credentials e events p :
  isAuthenticating p = false ->
  truthy (clientId e) && truthy (clientSecret e) = true ->
  exists cid csec,
    clientId e = Some cid /\ clientSecret e = Some csec /\
    login e events p =
      match listen e default_port with
      | BindError msg =>
          (Returned None,
           set_isAuthenticating false
             (set_localAuthServer (Some {| server := Some false; port := default_port |})
                (set_isAuthenticating true p)),
           [Listen default_port; ShowErrorMessage ("Error de autenticación: " +:+ msg)])
      | Listening =>
          match openExternal e with
          | Fails msg =>
              abandon (awaiting p)
                (removelast (opening cid (uuidv4 e)) ++
                 [ShowErrorMessage ("Error al abrir el navegador: " +:+ msg)])
          | Ok _ =>
              await_code e events
                (or_default (apiDomain e) "https://projectsapi.zoho.com")
                cid csec "http://localhost:3000/auth-callback" (uuidv4 e)
                (awaiting p) (opening cid (uuidv4 e))
          end
      end.
Proof.
  intros Hidle Hcreds. unfold login. rewrite Hidle, Hcreds.
  apply andb_prop in Hcreds as [Hid Hsec].
  destruct (clientId e) as [cid|]; [|discriminate].
  destruct (clientSecret e) as [csec|]; [|discriminate].
  exists cid, csec. split; [reflexivity|]. split; [reflexivity|].
  unfold start, new. cbn [server port].
  destruct (listen e default_port); [|reflexivity].
  destruct (openExternal e); reflexivity.
Qed.

(** Every way out of the wait, with what it leaves. *)
Lemma await_code_outcome e events domain cid csec uri state p done r p' eff :
  await_code e events domain cid csec uri state (awaiting p) done = (r, p', eff) ->
  (r = Waiting /\ p' = awaiting p /\ eff = done /\ first_request events = None) \/
  (r <> Waiting /\ isAuthenticating p' = false /\ localAuthServer p' = None /\
   exists rest, eff = done ++ rest /\
     ((r = Returned None /\ authenticationSession p' = authenticationSession p /\
       (forall prm, PostToken prm ∉ rest) /\ secrets p' = secrets p) \/
      (exists req c,
         first_request events = Some req /\
         (handleRequest req).2 = EmitAuthCode c state /\ c <> "" /\
         (forall prm, PostToken prm ∈ rest ->
                      prm = {| grant_type := "authorization_code"; client_id := cid;
                               client_secret := csec; code := c; redirect_uri := uri |}) /\
         match r with
         | Returned (Some sess) =>
             authenticationSession p' = Some sess /\
             secrets p' !! "zoho-access-token" = Some (accessToken sess) /\
             scopes sess = scopes_list /\
             globalState p' !! "zoho-user-id" = Some (account_id sess) /\
             globalState p' !! "zoho-account-name" = Some (account_label sess)
         | _ => authenticationSession p' = authenticationSession p
         end))).
Proof.
  unfold await_code.
  destruct (first_request events) as [req|] eqn:Hreq.
  2: { intros [= <- <- <-]. left. auto. }
  destruct (handleRequest req) as [res emitted] eqn:Hh.
  assert (Hemit : (handleRequest req).2 = emitted) by (rewrite Hh; reflexivity).
  clear Hh.
  intros H. right.
  destruct emitted as [c st | msg].
  - destruct (String.eqb_spec st state) as [-> | Hne]; cbn [negb] in H.
    + destruct (String.eqb_spec c "") as [-> | Hc].
      * unfold abandon, cleanupLocalServer in H. cbn in H.
        injection H as <- <- <-. repeat split; try discriminate.
        eexists. split; [rewrite <- app_assoc; reflexivity|]. left.
        repeat split. intros prm Hin%list_elem_of_In. cbn in Hin.
        intuition discriminate.
      * unfold exchange, abandon, cleanupLocalServer in H. cbn in H.
        repeat case_match; simplify_eq/=; repeat split; try discriminate;
          (eexists; split; [rewrite <- ?app_assoc; reflexivity|]); right;
          exists req, c; repeat split; try assumption; try reflexivity;
          try (intros prm Hin%list_elem_of_In; cbn in Hin; intuition congruence).
        all: rewrite ?lookup_insert_eq; try reflexivity.
        all: rewrite lookup_insert_ne by discriminate; apply lookup_insert_eq.
    + unfold abandon, cleanupLocalServer in H. cbn in H.
      injection H as <- <- <-. repeat split; try discriminate.
      eexists. split; [rewrite <- app_assoc; reflexivity|]. left.
      repeat split. intros prm Hin%list_elem_of_In. cbn in Hin.
      intuition discriminate.
  - unfold abandon, cleanupLocalServer in H. cbn in H.
    injection H as <- <- <-. repeat split; try discriminate.
    eexists. split; [rewrite <- app_assoc; reflexivity|]. left.
    repeat split. intros prm Hin%list_elem_of_In. cbn in Hin.
    intuition discriminate.
Qed.

(** Every way out of [login] for a provider that is not yet authenticating. *)
Lemma login_outcome e events p r p' eff :
  isAuthenticating p = false ->
  login e events p = (r, p', eff) ->
  (r = Returned None /\ p' = p /\
   truthy (clientId e) && truthy (clientSecret e) = false /\
   forall x, x ∈ eff ->
     (exists m, x = ShowErrorMessage m) \/ (exists a b, x = ExecuteCommand a b) \/
     (exists a b c, x = ShowCurrentSettings a b c)) \/
  (exists cid csec,
     clientId e = Some cid /\ clientSecret e = Some csec /\
     ((exists msg, listen e default_port = BindError msg /\ r = Returned None /\
         isAuthenticating p' = false /\ secrets p' = secrets p /\
         authenticationSession p' = authenticationSession p /\
         eff = [Listen default_port;
                ShowErrorMessage ("Error de autenticación: " +:+ msg)]) \/
      (exists msg, listen e default_port = Listening /\ openExternal e = Fails msg /\
         r = Returned None /\
         p' = set_isAuthenticating false (set_localAuthServer None (awaiting p)) /\
         forall prm, PostToken prm ∉ eff) \/
      (exists opened, listen e default_port = Listening /\ openExternal e = Ok opened /\
         await_code e events (or_default (apiDomain e) "https://projectsapi.zoho.com")
           cid csec "http://localhost:3000/auth-callback" (uuidv4 e)
           (awaiting p) (opening cid (uuidv4 e)) = (r, p', eff)))).
Proof.
  intros Hidle H.
  destruct (truthy (clientId e) && truthy (clientSecret e)) eqn:Hcreds.
  - right.
    destruct (login_with_credentials e events p Hidle Hcreds)
      as (cid & csec & Hid & Hsec & Hlogin).
    exists cid, csec. split; [assumption|]. split; [assumption|].
    rewrite Hlogin in H.
    destruct (listen e default_port) as [|msg].
    + destruct (openExternal e) as [opened|msg].
      * right; right. eauto.
      * right; left. exists msg.
        unfold abandon, cleanupLocalServer in H. cbn in H. injection H as <- <- <-.
        repeat split. intros prm Hin%list_elem_of_In. cbn in Hin.
        intuition discriminate.
    + left. exists msg. injection H as <- <- <-. repeat split.
  - left.
    destruct (login_without_credentials e events p Hidle Hcreds)
      as (followup & Hlogin & Hshape).
    rewrite Hlogin in H. injection H as <- <- <-.
    repeat split; try reflexivity.
    intros x Hx. apply elem_of_cons in Hx as [-> | Hx]; [eauto|].
    destruct Hshape as [-> | [-> | (a & b & c & ->)]].
    + inversion Hx.
    + apply list_elem_of_singleton in Hx as ->. eauto.
    + apply list_elem_of_singleton in Hx as ->. eauto 10.
Qed.

(** X12. When [login] returns: a call that found an attempt in progress
    has returned [undefined] and left the provider as it was, the flag still
    raised; any other call leaves the flag lowered, without credentials
    with the provider as it was, and with credentials and the port bound
    without a local server object. So no way out of an attempt of its own
    leaves the provider answering "already in progress". *)
Theorem login_returns_idle e events p r p' eff :
  login e events p = (Returned r, p', eff) ->
  if isAuthenticating p then r = None /\ p' = p
  else
    isAuthenticating p' = false /\
    (truthy (clientId e) && truthy (clientSecret e) = false -> p' = p) /\
    (truthy (clientId e) && truthy (clientSecret e) = true ->
     listen e default_port = Listening -> localAuthServer p' = None).
Proof.
  intros H. destruct (isAuthenticating p) eqn:Hidle.
  { unfold login in H. rewrite Hidle in H. injection H as <- <- _. auto. }
  destruct (truthy (clientId e) && truthy (clientSecret e)) eqn:Hcreds.
  - destruct (login_outcome e events p _ _ _ Hidle H)
      as [(_ & _ & Hno & _) | (cid & csec & _ & _ &
           [(msg & Hb & _ & Hf & _) | [(msg & _ & _ & _ & -> & _) | (o & _ & _ & Hw)]])].
    + congruence.
    + split; [assumption|]. split; [discriminate | congruence].
    + split; [reflexivity|]. split; [discriminate | reflexivity].
    + apply await_code_outcome in Hw
        as [(Hr & _) | (_ & Hflag & Hnone & _)]; [discriminate|].
      split; [assumption|]. split; [discriminate | auto].
  - destruct (login_without_credentials e events p Hidle Hcreds) as (followup & Hlogin & _).
    rewrite Hlogin in H. injection H as _ <- _.
    split; [assumption|]. split; [reflexivity | discriminate].
Qed.

Lemma login_returns_idle_witness :
  isAuthenticating
    (login Scenarios.env_ok [Request (Scenarios.callback "1000.code" "forged")]
       Scenarios.idle).1.2 = false.
Proof.
  destruct (login Scenarios.env_ok [Request (Scenarios.callback "1000.code" "forged")]
              Scenarios.idle) as [[r p'] eff] eqn:E.
  assert (Hr : r = Returned None) by (vm_compute in E; congruence).
  subst r.
  exact (proj1 (login_returns_idle Scenarios.env_ok
                  [Request (Scenarios.callback "1000.code" "forged")]
                  Scenarios.idle None p' eff E)).
Defined.

(** X13. The token endpoint is contacted only for a code that the listener
    delivered together with the expected state: whenever the effects of
    [login] hold a POST to it, the first request served carried the state
    generated by this call and a code that is not empty, and that code, the
    configured client and the listener's redirect URI are what was posted. *)
Theorem token_request_needs_matching_state e events p r p' eff prm :
  login e events p = (r, p', eff) ->
  PostToken prm ∈ eff ->
  exists req cid csec,
    first_request events = Some req /\
    (handleRequest req).2 = EmitAuthCode (code prm) (uuidv4 e) /\
    code prm <> "" /\
    clientId e = Some cid /\ clientSecret e = Some csec /\
    prm = token_params cid csec (code prm).
Proof.
  intros H Hin.
  destruct (isAuthenticating p) eqn:Hidle.
  { unfold login in H. rewrite Hidle in H. injection H as <- <- <-.
    apply list_elem_of_singleton in Hin. discriminate. }
  destruct (login_outcome e events p _ _ _ Hidle H)
    as [(_ & _ & _ & Hall) | (cid & csec & Hid & Hsec &
         [(msg & _ & _ & _ & _ & _ & ->) | [(msg & _ & _ & _ & _ & Hno) | (o & _ & _ & Hw)]])].
  - destruct (Hall _ Hin) as [(m & G) | [(a & b & G) | (a & b & c & G)]]; discriminate.
  - apply list_elem_of_In in Hin. cbn in Hin. intuition discriminate.
  - destruct (Hno _ Hin).
  - apply await_code_outcome in Hw
      as [(_ & _ & -> & _) | (_ & _ & _ & rest & -> & Hrest)].
    + apply list_elem_of_In in Hin. cbn in Hin. intuition discriminate.
    + apply elem_of_app in Hin as [Hin | Hin].
      { apply list_elem_of_In in Hin. cbn in Hin. intuition discriminate. }
      destruct Hrest as [(_ & _ & Hno & _) | (req & c & Hreq & Hemit & Hc & Hprm & _)].
      * destruct (Hno _ Hin).
      * specialize (Hprm _ Hin). subst prm. cbn.
        exists req, cid, csec. repeat split; assumption.
Qed.

Lemma token_request_needs_matching_state_witness :
  exists req,
    first_request
      [Request (Scenarios.callback "1000.code" "6f1c2b9e-0d4a-4a57-9a3e-2f8d5c7b1a10")]
      = Some req /\
    (handleRequest req).2 = EmitAuthCode "1000.code" "6f1c2b9e-0d4a-4a57-9a3e-2f8d5c7b1a10".
Proof.
  destruct (login Scenarios.env_ok
              [Request (Scenarios.callback "1000.code" "6f1c2b9e-0d4a-4a57-9a3e-2f8d5c7b1a10")]
              Scenarios.idle) as [[r p'] eff] eqn:E.
  destruct (token_request_needs_matching_state _ _ _ _ _ _
              (token_params "1000.CLIENT" "s3cret" "1000.code") E)
    as (req & _ & _ & Hreq & Hemit & _).
  - vm_compute in E. injection E as _ _ <-. member.
  - exists req. split; assumption.
Defined.

(** X14. When [login] returns a session, that session is the one the
    provider now holds, its access token is the one in the secret storage
    and so the one [getAccessToken] gives when it is not empty, its scopes
    are the fixed list, and the account is recorded in the global state; the
    flag is lowered and the listener gone. When [login] returns [undefined],
    the session held before is still there. *)
Theorem returned_session_is_stored e events p r p' eff :
  isAuthenticating p = false ->
  login e events p = (Returned r, p', eff) ->
  match r with
  | Some sess =>
      authenticationSession p' = Some sess /\
      secrets p' !! "zoho-access-token" = Some (accessToken sess) /\
      isAuthenticated p' = negb (accessToken sess =? "")%string /\
      (accessToken sess <> "" -> getAccessToken p' = Some (accessToken sess)) /\
      scopes sess = scopes_list /\
      globalState p' !! "zoho-user-id" = Some (account_id sess) /\
      globalState p' !! "zoho-account-name" = Some (account_label sess) /\
      isAuthenticating p' = false /\ localAuthServer p' = None
  | None => authenticationSession p' = authenticationSession p
  end.
Proof.
  intros Hidle H.
  destruct (login_outcome e events p _ _ _ Hidle H)
    as [(Hr & -> & _) | (cid & csec & _ & _ &
         [(msg & _ & Hr & _ & _ & Hs & _) | [(msg & _ & _ & Hr & -> & _) | (o & _ & _ & Hw)]])].
  - injection Hr as ->. reflexivity.
  - injection Hr as ->. assumption.
  - injection Hr as ->. reflexivity.
  - apply await_code_outcome in Hw
      as [(Hr & _) | (_ & Hflag & Hnone & rest & _ & Hrest)]; [discriminate|].
    destruct Hrest as [(Hr & Hs & _) | (req & c & _ & _ & _ & _ & Hr)].
    + injection Hr as ->. assumption.
    + destruct r as [sess|]; [|assumption].
      destruct Hr as (Hs & Htok & Hscopes & Hu & Ha).
      unfold isAuthenticated, getAccessToken. rewrite Htok.
      repeat split; try assumption.
      * destruct (accessToken sess); reflexivity.
      * intros Hne. destruct (accessToken sess); [congruence | reflexivity].
Qed.

Lemma returned_session_is_stored_witness :
  getAccessToken
    (login Scenarios.env_ok
       [Request (Scenarios.callback "1000.code" "6f1c2b9e-0d4a-4a57-9a3e-2f8d5c7b1a10")]
       Scenarios.idle).1.2 = Some "1000.access".
Proof.
  destruct (login Scenarios.env_ok
       [Request (Scenarios.callback "1000.code" "6f1c2b9e-0d4a-4a57-9a3e-2f8d5c7b1a10")]
       Scenarios.idle) as [[r p'] eff] eqn:E.
  assert (Hr : exists sess, r = Returned (Some sess) /\ accessToken sess = "1000.access").
  { vm_compute in E. injection E as <- _ _. eexists; split; reflexivity. }
  destruct Hr as (sess & -> & Htok).
  pose proof (returned_session_is_stored Scenarios.env_ok
       [Request (Scenarios.callback "1000.code" "6f1c2b9e-0d4a-4a57-9a3e-2f8d5c7b1a10")]
       Scenarios.idle (Some sess) p' eff eq_refl E) as (_ & _ & _ & Hget & _).
  cbn. rewrite <- Htok. apply Hget. rewrite Htok. discriminate.
Defined.

(** X15. Without a client id or a client secret [login] shows the error
    (and what the chosen button leads to) and returns [undefined] with the
    provider exactly as before: no listener is started, no browser opened,
    nothing posted and nothing stored. *)
Theorem login_without_credentials_does_nothing e events p r p' eff :
  isAuthenticating p = false ->
  truthy (clientId e) && truthy (clientSecret e) = false ->
  login e events p = (r, p', eff) ->
  r = Returned None /\ p' = p /\
  (forall port, Listen port ∉ eff) /\ (forall u, OpenExternal u ∉ eff) /\
  (forall prm, PostToken prm ∉ eff) /\ (forall k v, SecretStore k v ∉ eff).
Proof.
  intros Hidle Hcreds H.
  destruct (login_without_credentials e events p Hidle Hcreds)
    as (followup & Hlogin & Hshape).
  rewrite Hlogin in H. injection H as <- <- <-.
  split; [reflexivity|]. split; [reflexivity|].
  repeat split; intros;
    destruct Hshape as [-> | [-> | (a & b & c & ->)]];
    intros Hin%list_elem_of_In; cbn in Hin; intuition discriminate.
Qed.

Lemma login_without_credentials_does_nothing_witness :
  login Scenarios.env_no_secret [] Scenarios.logged_in =
    (Returned None, Scenarios.logged_in,
     [ShowErrorMessage
        "Necesitas configurar el Client ID y Client Secret para OAuth de Zoho Projects";
      ExecuteCommand "workbench.action.openSettings" "zohoProjects"]).
Proof.
  destruct (login Scenarios.env_no_secret [] Scenarios.logged_in) as [[r p'] eff] eqn:E.
  destruct (login_without_credentials_does_nothing Scenarios.env_no_secret []
              Scenarios.logged_in r p' eff eq_refl eq_refl E)
    as (-> & -> & _).
  f_equal. vm_compute in E. congruence.
Defined.

(** X16. [logout] never touches a secret under another key nor a login
    that is pending. When the storage deletes both tokens, no access token
    is left, so [isAuthenticated] is false and [getAccessToken] gives
    nothing, the refresh token, the session and the account are gone, and a
    second [logout] changes nothing more. When the storage refuses the
    first deletion, the provider is as it was and the error is shown. When
    it refuses the second, the access token is gone but the refresh token,
    the session and the account are still there, and the error is shown
    instead of the confirmation. *)
Theorem logout_forgets_tokens storage p :
  let p' := (logout storage p).1 in
  let shown := (logout storage p).2 in
  ((forall k, k <> "zoho-access-token" -> k <> "zoho-refresh-token" ->
              secrets p' !! k = secrets p !! k) /\
   isAuthenticating p' = isAuthenticating p /\
   localAuthServer p' = localAuthServer p) /\
  (storage "zoho-access-token" = Ok tt -> storage "zoho-refresh-token" = Ok tt ->
     LogoutMessage "Se ha cerrado la sesión de Zoho Projects" ∈ shown /\
     (forall msg, LogoutError msg ∉ shown) /\
     isAuthenticated p' = false /\ getAccessToken p' = None /\
     secrets p' !! "zoho-refresh-token" = None /\
     authenticationSession p' = None /\
     globalState p' !! "zoho-user-id" = None /\
     globalState p' !! "zoho-account-name" = None /\
     (logout storage p').1 = p') /\
  (forall msg, storage "zoho-access-token" = Fails msg ->
     p' = p /\
     shown = [SecretDelete "zoho-access-token";
              LogoutError ("Error al cerrar sesión: " +:+ msg)]) /\
  (forall msg, storage "zoho-access-token" = Ok tt ->
     storage "zoho-refresh-token" = Fails msg ->
     isAuthenticated p' = false /\
     secrets p' !! "zoho-refresh-token" = secrets p !! "zoho-refresh-token" /\
     authenticationSession p' = authenticationSession p /\
     globalState p' = globalState p /\
     LogoutError ("Error al cerrar sesión: " +:+ msg) ∈ shown /\
     (forall said, LogoutMessage said ∉ shown)).
Proof.
  cbn zeta. unfold logout.
  destruct (storage "zoho-access-token") as [[]|msg1] eqn:Ha;
    [destruct (storage "zoho-refresh-token") as [[]|msg2] eqn:Hr|].
  - (* both deleted *)
    cbn [fst snd]. split; [|split; [|split]]; try discriminate.
    + cbn. repeat split.
      intros k H1 H2. rewrite !lookup_delete_ne by congruence. reflexivity.
    + intros _ _. unfold isAuthenticated, getAccessToken. cbn.
      rewrite (lookup_delete_ne _ "zoho-refresh-token" "zoho-access-token")
        by discriminate.
      rewrite !lookup_delete_eq.
      rewrite (lookup_delete_ne _ "zoho-account-name" "zoho-user-id") by discriminate.
      rewrite !lookup_delete_eq. cbn.
      split; [member|]. split.
      { intros msg Hin%list_elem_of_In. cbn in Hin. intuition discriminate. }
      repeat split. cbn. f_equal.
      * rewrite (delete_id (delete _ (delete _ _)) "zoho-access-token")
          by (rewrite lookup_delete_ne by discriminate; apply lookup_delete_eq).
        rewrite (delete_id _ "zoho-refresh-token") by apply lookup_delete_eq.
        reflexivity.
      * rewrite (delete_id (delete _ (delete _ _)) "zoho-user-id")
          by (rewrite lookup_delete_ne by discriminate; apply lookup_delete_eq).
        rewrite (delete_id _ "zoho-account-name") by apply lookup_delete_eq.
        reflexivity.
  - (* the refresh token stays *)
    cbn [fst snd]. split; [|split; [|split]]; try discriminate.
    + cbn. repeat split.
      intros k H1 H2. rewrite lookup_delete_ne by congruence. reflexivity.
    + intros msg _ [= <-]. unfold isAuthenticated. cbn.
      rewrite lookup_delete_eq. rewrite lookup_delete_ne by discriminate. cbn.
      repeat split; [member|].
      intros said Hin%list_elem_of_In. cbn in Hin. intuition discriminate.
  - (* nothing deleted *)
    cbn [fst snd]. split; [|split; [|split]]; try discriminate.
    + repeat split.
    + intros msg [= <-]. split; reflexivity.
Qed.

Lemma logout_forgets_tokens_witness :
  isAuthenticated (logout Scenarios.storage_keeps_refresh Scenarios.logged_in).1 = false /\
  secrets (logout Scenarios.storage_keeps_refresh Scenarios.logged_in).1
    !! "zoho-refresh-token" = Some "1000.refresh".
Proof.
  destruct (logout_forgets_tokens Scenarios.storage_keeps_refresh Scenarios.logged_in)
    as (_ & _ & _ & Hhalf).
  destruct (Hhalf "keychain locked" eq_refl eq_refl) as (Hauth & Hrefresh & _).
  split; [exact Hauth|]. rewrite Hrefresh. reflexivity.
Defined.

End SessionProps.

(* ================================================================== *)
(** ** More on the provider on the URI handler *)
(* ================================================================== *)
Module UriProps.
Import Auth UriAuth WaitFacts.

(** *** The handler is always disposed of *)

Lemma login_with_timers_unregisters e earlier events p r p' eff ts :
  uriHandlerRegistration p = false ->
  login_with_timers e earlier events p = (Returned r, p', eff, ts) ->
  uriHandlerRegistration p' = false.
Proof.
  intros Hreg. unfold login_with_timers. rewrite Hreg.
  destruct (truthy (clientId e) && truthy (clientSecret e));
    destruct (clientId e) as [cid|], (clientSecret e) as [csec|];
    try (intros [= _ <- _ _]; exact Hreg).
  rewrite (clear_unregistered p Hreg).
  destruct (openExternal e) as [opened|msg].
  - apply await_auth_unregisters.
  - cbn. intros [= _ <- _ _]. reflexivity.
Qed.

(** X17. Whenever the [login] of the provider on the URI handler returns,
    with a session, after a refusal, a mismatch, a browser that did not
    open or the deadline, no URI handler is left registered: the next
    [login] is not turned away as "already in progress". *)
Theorem uri_login_disposes_handler e events p r p' eff :
  uriHandlerRegistration p = false ->
  login e events p = (Returned r, p', eff) ->
  uriHandlerRegistration p' = false.
Proof.
  intros Hreg H. unfold login in H.
  destruct (login_with_timers e [] events p) as [[[r0 p0] eff0] ts] eqn:E.
  cbn in H. injection H as -> -> ->.
  exact (login_with_timers_unregisters e [] events p r p' eff ts Hreg E).
Qed.

Lemma uri_login_disposes_handler_witness :
  uriHandlerRegistration
    (login Scenarios.env_ok
       [HandleUri {| query := "state=forged&code=1000.code"; toString := "" |}]
       Scenarios.idle_uri).1.2 = false.
Proof.
  destruct (login Scenarios.env_ok
       [HandleUri {| query := "state=forged&code=1000.code"; toString := "" |}]
       Scenarios.idle_uri) as [[r p'] eff] eqn:E.
  assert (Hr : r = Returned None) by (vm_compute in E; congruence).
  subst r.
  exact (uri_login_disposes_handler Scenarios.env_ok
           [HandleUri {| query := "state=forged&code=1000.code"; toString := "" |}]
           Scenarios.idle_uri None p' eff eq_refl E).
Defined.

(** *** Strings *)

Lemma app_nil_l (s : string) : "" +:+ s = s.
Proof. reflexivity. Qed.

Lemma app_cons (c : ascii) (a b : string) : String c a +:+ b = String c (a +:+ b).
Proof. reflexivity. Qed.

Ltac norm := cbn; rewrite ?app_cons, ?app_nil_l; cbn.

Lemma append_nil_r (s : string) : s +:+ "" = s.
Proof. induction s as [|c s IH]; norm; [reflexivity | rewrite IH; reflexivity]. Qed.

Lemma append_assoc (a b c : string) : (a +:+ b) +:+ c = a +:+ (b +:+ c).
Proof.
  induction a as [|x a IH]; [reflexivity|].
  rewrite !app_cons, IH. reflexivity.
Qed.

Lemma length_append (a b : string) :
  String.length (a +:+ b) = (String.length a + String.length b)%nat.
Proof.
  induction a as [|x a IH]; [reflexivity|].
  rewrite app_cons. cbn. rewrite IH. reflexivity.
Qed.

Lemma startsWith_append (s p : string) :
  startsWith s p = true -> s = p +:+ drop_chars (String.length p) s.
Proof.
  revert s. induction p as [|a p IH]; intros s; [reflexivity|].
  cbn. destruct s as [|b s]; [discriminate|].
  destruct (Ascii.eqb_spec a b) as [->|]; [|discriminate].
  intros H. rewrite app_cons. rewrite <- (IH s H). reflexivity.
Qed.

Lemma startsWith_refl_append (p rest : string) : startsWith (p +:+ rest) p = true.
Proof.
  induction p as [|a p IH]; [reflexivity|].
  rewrite app_cons. cbn. rewrite Ascii.eqb_refl. exact IH.
Qed.

Lemma drop_chars_append (p rest : string) : drop_chars (String.length p) (p +:+ rest) = rest.
Proof.
  induction p as [|a p IH]; [destruct rest; reflexivity|].
  rewrite app_cons. exact IH.
Qed.

(** What [until_amp] takes and what it leaves. *)
Lemma until_amp_split (r : string) :
  exists post, r = until_amp r +:+ post /\ (post = "" \/ startsWith post "&" = true).
Proof.
  induction r as [|c r (post & Hr & Hp)]; cbn.
  - exists "". auto.
  - destruct (Ascii.eqb_spec c "&") as [->|Hc].
    + exists (String "&" r). auto.
    + exists post. rewrite app_cons, <- Hr. auto.
Qed.

Lemma until_amp_lacks (r : string) : lacks ["&"%char] (until_amp r) = true.
Proof.
  induction r as [|c r IH]; cbn; [reflexivity|].
  destruct (Ascii.eqb c "&") eqn:Hc; cbn; [reflexivity|].
  rewrite Hc, IH. reflexivity.
Qed.

Lemma until_amp_whole (v : string) :
  lacks ["&"%char] v = true -> until_amp v = v.
Proof.
  induction v as [|c v IH]; [auto|]. cbn.
  destruct (Ascii.eqb c "&"); cbn; [discriminate|].
  intros H. rewrite (IH H). reflexivity.
Qed.

Lemma until_amp_stops (v rest : string) :
  lacks ["&"%char] v = true -> until_amp (v +:+ String "&" rest) = v.
Proof.
  induction v as [|c v IH]; [auto|].
  rewrite app_cons. cbn.
  destruct (Ascii.eqb c "&"); cbn; [discriminate|].
  intros H. rewrite (IH H). reflexivity.
Qed.

(** X18. What [s.match(/[?&]key=([^&]+)/)] captures is never empty and
    holds no [&]; it stands in [s] right after a [?] or [&] and [key=], and
    runs to the next [&] or to the end. *)
Theorem regex_param_sound key s v :
  regex_param key s = Some v ->
  v <> "" /\ lacks ["&"%char] v = true /\
  exists pre sep post,
    s = pre +:+ String sep (key +:+ "=" +:+ v +:+ post) /\
    (sep = "?"%char \/ sep = "&"%char) /\
    (post = "" \/ startsWith post "&" = true).
Proof.
  induction s as [|c tl IH]; cbn [regex_param]; [discriminate|].
  assert (Hrec : regex_param key tl = Some v ->
            v <> "" /\ lacks ["&"%char] v = true /\
            exists pre sep post,
              String c tl = pre +:+ String sep (key +:+ "=" +:+ v +:+ post) /\
              (sep = "?"%char \/ sep = "&"%char) /\
              (post = "" \/ startsWith post "&" = true)).
  { intros H. destruct (IH H) as (Hv & Hl & pre & sep & post & -> & Hsep & Hpost).
    split; [assumption|]. split; [assumption|].
    exists (String c pre), sep, post. rewrite app_cons. auto. }
  destruct ((Ascii.eqb c "?" || Ascii.eqb c "&") && startsWith tl (key +:+ "=")) eqn:Hhere;
    [|exact Hrec].
  destruct (until_amp (drop_chars (String.length key + 1) tl)) as [|a captured] eqn:Hcap;
    [exact Hrec|].
  intros [= <-].
  apply andb_prop in Hhere as [Hsep Hstart].
  split; [discriminate|]. split.
  { rewrite <- Hcap. apply until_amp_lacks. }
  apply startsWith_append in Hstart.
  rewrite length_append in Hstart. cbn [String.length] in Hstart.
  destruct (until_amp_split (drop_chars (String.length key + 1) tl))
    as (post & Hsplit & Hpost).
  rewrite Hcap in Hsplit.
  exists "", c, post. rewrite app_nil_l.
  split; [|split].
  - f_equal. rewrite Hstart at 1. rewrite Hsplit at 1.
    rewrite !append_assoc. reflexivity.
  - apply orb_prop in Hsep as [H | H];
      apply Ascii.eqb_eq in H; auto.
  - exact Hpost.
Qed.

Lemma regex_param_sound_witness :
  "1000.c" <> "" /\ lacks ["&"%char] "1000.c" = true.
Proof.
  destruct (regex_param_sound "code"
              "vscode://zoho-projects-time-tracker/auth-callback?state=S&code=1000.c&location=us"
              "1000.c" eq_refl) as (H1 & H2 & _).
  split; assumption.
Defined.

(** *** The fallback on the malformed forms *)

Lemma lacks_append bad a b : lacks bad (a +:+ b) = lacks bad a && lacks bad b.
Proof.
  induction a as [|c a IH]; [reflexivity|].
  rewrite app_cons. cbn. rewrite IH, andb_assoc. reflexivity.
Qed.

Lemma lacks_weaken bad c s :
  lacks (c :: bad) s = true -> lacks bad s = true.
Proof.
  induction s as [|x s IH]; [reflexivity|]. cbn.
  destruct (Ascii.eqb x c); cbn; [discriminate|].
  destruct (existsb (Ascii.eqb x) bad); cbn; [discriminate|]. exact IH.
Qed.

(** The regular expression finds nothing in a stretch without [?] and [&]. *)
Lemma regex_param_skip key pre rest :
  lacks ["?"; "&"]%char pre = true ->
  regex_param key (pre +:+ rest) = regex_param key rest.
Proof.
  induction pre as [|c pre IH]; [reflexivity|].
  rewrite app_cons. cbn [lacks existsb regex_param].
  destruct (Ascii.eqb c "?"); [discriminate|].
  destruct (Ascii.eqb c "&"); [discriminate|].
  cbn. exact IH.
Qed.

Lemma regex_param_other key c tl :
  startsWith tl (key +:+ "=") = false ->
  regex_param key (String c tl) = regex_param key tl.
Proof.
  intros H. cbn [regex_param]. rewrite H, andb_false_r. reflexivity.
Qed.

Lemma regex_param_here key sep rest :
  sep = "?"%char \/ sep = "&"%char ->
  until_amp rest <> "" ->
  regex_param key (String sep ((key +:+ "=") +:+ rest)) = Some (until_amp rest).
Proof.
  intros Hsep Hne. cbn [regex_param].
  rewrite startsWith_refl_append.
  replace (String.length key + 1)%nat with (String.length (key +:+ "="))
    by (rewrite length_append; reflexivity).
  rewrite drop_chars_append.
  replace (Ascii.eqb sep "?" || Ascii.eqb sep "&") with true
    by (destruct Hsep as [-> | ->]; reflexivity).
  cbn [andb]. destruct (until_amp rest); [contradiction|reflexivity].
Qed.

Lemma regex_param_not_empty key s : regex_param key s <> Some "".
Proof.
  induction s as [|c tl IH]; cbn [regex_param]; [discriminate|].
  destruct ((Ascii.eqb c "?" || Ascii.eqb c "&") && startsWith tl (key +:+ "="));
    [|exact IH].
  destruct (until_amp (drop_chars (String.length key + 1) tl)); [exact IH|discriminate].
Qed.

(** X19. Neither reading of [extractQueryParams] is ever the empty string:
    the strict path returns only when both are non-empty, and the regular
    expressions capture at least one character.  So [handleUri] reports a
    missing code only when no code was found at all. *)
Theorem extracted_params_never_empty (uri : Uri) :
  (extractQueryParams uri).1 <> Some "" /\ (extractQueryParams uri).2 <> Some "".
Proof.
  unfold extractQueryParams.
  destruct (truthy (params_get "code" (URLSearchParams (query uri))) &&
            truthy (params_get "state" (URLSearchParams (query uri)))) eqn:Hstrict.
  - apply andb_prop in Hstrict as [Hc Hs]. cbn [fst snd].
    split; intros E; [rewrite E in Hc | rewrite E in Hs]; discriminate.
  - cbn [fst snd]. split; apply regex_param_not_empty.
Qed.

(** X20. When the strict reading of [uri.query] does not give both
    parameters, the fallback recovers state and code from a callback whose
    string begins with one of the malformed forms. *)
Theorem fallback_recovers_params (malformed q s c : string) :
  In malformed ["https://vscode//"; "http://vscode//"; "vscode:/"] ->
  truthy (params_get "code" (URLSearchParams q)) &&
    truthy (params_get "state" (URLSearchParams q)) = false ->
  s <> "" -> lacks ["?"; "&"]%char s = true ->
  c <> "" -> lacks ["&"%char] c = true ->
  extractQueryParams
    {| query := q;
       toString := malformed +:+ "zoho-projects-time-tracker/auth-callback?state="
                   +:+ s +:+ "&code=" +:+ c |}
  = (Some c, Some s).
Proof.
  intros Hform Hstrict Hs Hsl Hc Hcl.
  unfold extractQueryParams. cbn [query toString]. rewrite Hstrict.
  assert (Hnorm :
    normalize (malformed +:+ "zoho-projects-time-tracker/auth-callback?state="
               +:+ s +:+ "&code=" +:+ c)
    = "vscode://zoho-projects-time-tracker/auth-callback" +:+
      String "?" (("state" +:+ "=") +:+ s +:+ "&code=" +:+ c)).
  { cbn [In] in Hform. destruct Hform as [<- | [<- | [<- | []]]]; reflexivity. }
  rewrite Hnorm. f_equal.
  - (* code *)
    rewrite regex_param_skip by reflexivity.
    rewrite regex_param_other by reflexivity.
    change (("state" +:+ "=") +:+ s +:+ "&code=" +:+ c)
      with ("state=" +:+ s +:+ String "&" (("code" +:+ "=") +:+ c)).
    rewrite <- append_assoc.
    rewrite regex_param_skip
      by (rewrite lacks_append, Hsl; reflexivity).
    rewrite regex_param_here; rewrite ?until_amp_whole by assumption; auto.
  - (* state *)
    rewrite regex_param_skip by reflexivity.
    change ("&code=" +:+ c) with (String "&" ("code=" +:+ c)).
    rewrite regex_param_here;
      rewrite ?until_amp_stops by (eapply lacks_weaken; eassumption); auto.
Qed.

Lemma fallback_recovers_params_witness :
  extractQueryParams
    {| query := "";
       toString := "https://vscode//zoho-projects-time-tracker/auth-callback?state=S-1&code=1000.c" |}
  = (Some "1000.c", Some "S-1").
Proof.
  apply (fallback_recovers_params "https://vscode//" "" "S-1" "1000.c").
  - cbn. auto.
  - reflexivity.
  - discriminate.
  - reflexivity.
  - discriminate.
  - reflexivity.
Defined.

(** *** The strict reading *)

Lemma lacks_incl bad bad' s :
  (forall x, In x bad' -> In x bad) -> lacks bad s = true -> lacks bad' s = true.
Proof.
  intros Hsub. induction s as [|c s IH]; [reflexivity|]. cbn.
  intros H. apply andb_prop in H as [Hc Hs]. rewrite (IH Hs), andb_true_r.
  destruct (existsb (Ascii.eqb c) bad') eqn:E; [|reflexivity].
  apply existsb_exists in E as (x & Hx & Hcx).
  assert (existsb (Ascii.eqb c) bad = true) as Hbad
    by (apply existsb_exists; exists x; auto).
  rewrite Hbad in Hc. discriminate.
Qed.

Ltac listed := cbn [In]; repeat (first [left; reflexivity | right]).

Lemma plain_lacks (x : ascii) s :
  In x ["&"; "="; "+"; "%"; "?"]%char -> plain s = true -> lacks [x] s = true.
Proof.
  intros Hx. apply lacks_incl. intros y [<- | []]. exact Hx.
Qed.

Lemma split_on_whole sep x : lacks [sep] x = true -> split_on sep x = [x].
Proof.
  induction x as [|c x IH]; [reflexivity|]. cbn.
  destruct (Ascii.eqb c sep); cbn; [discriminate|].
  intros H. rewrite (IH H). reflexivity.
Qed.

Lemma split_on_append sep x rest :
  lacks [sep] x = true ->
  split_on sep (x +:+ String sep rest) = x :: split_on sep rest.
Proof.
  induction x as [|c x IH].
  - intros _. rewrite app_nil_l. cbn. rewrite Ascii.eqb_refl. reflexivity.
  - rewrite app_cons. cbn.
    destruct (Ascii.eqb c sep); cbn; [discriminate|].
    intros H. rewrite (IH H). reflexivity.
Qed.

Lemma split_on_concat sep piece pieces :
  Forall (fun x => lacks [sep] x = true) (piece :: pieces) ->
  split_on sep (String.concat (String sep "") (piece :: pieces)) = piece :: pieces.
Proof.
  revert piece. induction pieces as [|y pieces IH]; intros piece Hall.
  - apply split_on_whole. by inversion Hall.
  - inversion Hall as [|? ? Hx Hrest]; subst.
    change (String.concat (String sep "") (piece :: y :: pieces))
      with (piece +:+ String sep (String.concat (String sep "") (y :: pieces))).
    rewrite split_on_append by assumption. rewrite (IH y Hrest). reflexivity.
Qed.

Lemma cut_at_eq_pair n v :
  lacks ["="%char] n = true -> cut_at_eq (n +:+ "=" +:+ v) = (n, v).
Proof.
  induction n as [|c n IH].
  - reflexivity.
  - rewrite app_cons. cbn.
    destruct (Ascii.eqb c "="); cbn; [discriminate|].
    intros H. rewrite (IH H). reflexivity.
Qed.

Lemma plus_to_space_id s : lacks ["+"%char] s = true -> plus_to_space s = s.
Proof.
  induction s as [|c s IH]; [reflexivity|]. cbn.
  destruct (Ascii.eqb c "+"); cbn; [discriminate|].
  intros H. rewrite (IH H). reflexivity.
Qed.

Lemma percent_decode_id s : lacks ["%"%char] s = true -> percent_decode s = s.
Proof.
  induction s as [|c s IH]; [reflexivity|].
  cbn [lacks existsb]. destruct (Ascii.eqb c "%") eqn:Hc; [discriminate|].
  cbn [orb negb andb]. intros H. specialize (IH H).
  cbn [percent_decode]. rewrite Hc.
  destruct s as [|a [|b rest]]; [reflexivity | rewrite <- IH at 2; reflexivity |].
  rewrite <- IH at 2. destruct (hex_digit a), (hex_digit b); reflexivity.
Qed.

Lemma piece_not_empty n v : String.eqb (n +:+ "=" +:+ v) "" = false.
Proof. destruct n; reflexivity. Qed.

Lemma strip_question s :
  lacks ["?"%char] s = true ->
  match s with String "?" tl => tl | _ => s end = s.
Proof.
  destruct s as [|c tl]; [reflexivity|]. cbn.
  destruct (Ascii.eqb_spec c "?") as [->|Hc]; [discriminate|].
  intros _.
  destruct c as [[] [] [] [] [] [] [] []]; try reflexivity. contradiction.
Qed.

Lemma render_lacks (x : ascii) pairs :
  x <> "="%char -> In x ["&"; "="; "+"; "%"; "?"]%char ->
  Forall (fun kv => plain kv.1 && plain kv.2 = true) pairs ->
  Forall (fun piece => lacks [x] piece = true)
         (map (fun kv => kv.1 +:+ "=" +:+ kv.2) pairs).
Proof.
  intros Hne Hx Hall. apply Forall_map. eapply Forall_impl; [exact Hall|].
  intros [n v] H. cbn in *. apply andb_prop in H as [Hn Hv].
  assert (lacks [x] "=" = true) as Heq.
  { unfold lacks, existsb. destruct (Ascii.eqb_spec "=" x) as [E|]; [congruence|reflexivity]. }
  rewrite !lacks_append, (plain_lacks x n Hx Hn), (plain_lacks x v Hx Hv), Heq.
  reflexivity.
Qed.

(** [URLSearchParams] reads back the pairs of a query that needed no
    encoding. *)
Lemma URLSearchParams_render pairs :
  Forall (fun kv => plain kv.1 && plain kv.2 = true) pairs ->
  URLSearchParams (render pairs) = pairs.
Proof.
  intros Hall. unfold URLSearchParams, render.
  destruct pairs as [|kv pairs]; [reflexivity|].
  rewrite strip_question.
  2:{ pose proof (render_lacks "?" (kv :: pairs) ltac:(discriminate)
                    ltac:(listed) Hall) as Hq.
      clear Hall. revert kv Hq. induction pairs as [|kv' pairs IH]; intros kv Hq.
      - by inversion Hq.
      - inversion Hq as [|? ? H1 H2]; subst.
        change (String.concat "&" (map (fun kv => kv.1 +:+ "=" +:+ kv.2) (kv :: kv' :: pairs)))
          with ((kv.1 +:+ "=" +:+ kv.2) +:+ String "&"
                  (String.concat "&" (map (fun kv => kv.1 +:+ "=" +:+ kv.2) (kv' :: pairs)))).
        rewrite lacks_append, H1. cbn [lacks existsb andb orb negb].
        cbn. apply (IH kv' H2). }
  change (map (fun kv => kv.1 +:+ "=" +:+ kv.2) (kv :: pairs))
    with ((kv.1 +:+ "=" +:+ kv.2) :: map (fun kv => kv.1 +:+ "=" +:+ kv.2) pairs).
  rewrite (split_on_concat "&").
  2:{ apply (render_lacks "&" (kv :: pairs)); [discriminate | listed | exact Hall]. }
  change ((kv.1 +:+ "=" +:+ kv.2) :: map (fun kv => kv.1 +:+ "=" +:+ kv.2) pairs)
    with (map (fun kv => kv.1 +:+ "=" +:+ kv.2) (kv :: pairs)).
  induction Hall as [|[n v] rest Hnv Hrest IH]; [reflexivity|].
  cbn [map omap list_omap fst snd]. rewrite piece_not_empty.
  apply andb_prop in Hnv as [Hn Hv]. cbn [fst snd] in Hn, Hv.
  rewrite cut_at_eq_pair by (apply plain_lacks; [listed | assumption]).
  rewrite !plus_to_space_id by (apply plain_lacks; [listed | assumption]).
  rewrite !percent_decode_id by (apply plain_lacks; [listed | assumption]).
  f_equal. exact IH.
Qed.

(** X21. When [uri.query] carries a non-empty code and state in a query that
    needed no encoding, [extractQueryParams] returns them and never looks at
    [uri.toString()]. *)
Theorem strict_reading_wins (pairs : list (string * string)) (c s t : string) :
  Forall (fun kv => plain kv.1 && plain kv.2 = true) pairs ->
  params_get "code" pairs = Some c -> c <> "" ->
  params_get "state" pairs = Some s -> s <> "" ->
  extractQueryParams {| query := render pairs; toString := t |} = (Some c, Some s).
Proof.
  intros Hall Hc Hcne Hs Hsne.
  unfold extractQueryParams. cbn [query toString].
  rewrite (URLSearchParams_render pairs Hall), Hc, Hs.
  destruct c; [contradiction|]. destruct s; [contradiction|]. reflexivity.
Qed.

Lemma strict_reading_wins_witness :
  extractQueryParams {| query := "code=1000.c&state=S-1&location=us";
                        toString := "https://vscode//?state=other&code=other" |}
  = (Some "1000.c", Some "S-1").
Proof.
  apply (strict_reading_wins
           [("code", "1000.c"); ("state", "S-1"); ("location", "us")]
           "1000.c" "S-1" "https://vscode//?state=other&code=other").
  - repeat constructor.
  - reflexivity.
  - discriminate.
  - reflexivity.
  - discriminate.
Defined.

(** *** The deadline *)

Lemma await_uri_after_deadline ds : forall remaining events,
  0 < remaining -> remaining <= total ds ->
  await_uri remaining (map Elapse ds ++ events) = TimerFired.
Proof.
  unfold total.
  induction ds as [|d ds IH]; intros remaining events Hpos Hle; cbn in *; [lia|].
  destruct (Z.leb_spec remaining d); [reflexivity|].
  apply IH; lia.
Qed.

Lemma await_uri_before_deadline ds : forall remaining uri events,
  Forall (fun d => 0 <= d) ds -> total ds < remaining ->
  await_uri remaining (map Elapse ds ++ HandleUri uri :: events) = Invoked uri.
Proof.
  unfold total.
  induction ds as [|d ds IH]; intros remaining uri events Hall Hlt; cbn in *;
    [reflexivity|].
  inversion Hall as [|? ? Hd Hrest]; subst.
  assert (0 <= foldr Z.add 0 ds).
  { clear -Hrest. induction Hrest; cbn; lia. }
  destruct (Z.leb_spec remaining d); [lia|].
  apply IH; [assumption | lia].
Qed.

(** X22. Once ten minutes have passed after the browser was opened, the
    login on the URI handler has returned without a session: no token
    has been requested, nothing has been stored and the handler has been
    disposed of, so that a callback that comes later finds no handler. *)
Theorem callback_after_deadline_is_too_late e p cid csec opened ds events :
  uriHandlerRegistration p = false ->
  clientId e = Some cid -> cid <> "" ->
  clientSecret e = Some csec -> csec <> "" ->
  openExternal e = Ok opened ->
  deadline_ms <= total ds ->
  exists eff,
    login e (map Elapse ds ++ events) p = (Returned None, p, eff) /\
    In DisposeUriHandler eff /\
    In (ShowErrorMessage ("Error de autenticación: " +:+ timeout_msg)) eff /\
    forall params, ~ In (PostToken params) eff.
Proof.
  intros Hreg Hcid Hcne Hcsec Hsne Hopen Hlate.
  unfold login, login_with_timers. rewrite Hreg, Hcid, Hcsec, Hopen.
  destruct cid; [contradiction|]. destruct csec; [contradiction|]. cbn [truthy andb].
  rewrite (clear_unregistered p Hreg).
  rewrite await_auth_alone by reflexivity.
  rewrite await_uri_after_deadline by (unfold deadline_ms in *; lia).
  rewrite own_timer_fires by reflexivity. cbn [fst snd].
  destruct p as [reg sess sec glob]. cbn in Hreg. subst reg.
  eexists. split; [reflexivity|].
  split; [|split].
  - rewrite !in_app_iff. cbn. tauto.
  - rewrite !in_app_iff. cbn. tauto.
  - intros params H. rewrite !in_app_iff in H.
    destruct (instructions_shape e) as [E | E]; rewrite E in H; cbn in H;
      intuition discriminate.
Qed.

Lemma callback_after_deadline_is_too_late_witness :
  exists eff,
    login Scenarios.env_ok
      ([Elapse 400000; Elapse 200000] ++
       [HandleUri {| query := "state=6f1c2b9e-0d4a-4a57-9a3e-2f8d5c7b1a10&code=1000.code";
                     toString := "" |}])
      Scenarios.idle_uri = (Returned None, Scenarios.idle_uri, eff) /\
    forall params, ~ In (PostToken params) eff.
Proof.
  destruct (callback_after_deadline_is_too_late Scenarios.env_ok Scenarios.idle_uri
              "1000.CLIENT" "s3cret" true [400000; 200000]
              [HandleUri {| query := "state=6f1c2b9e-0d4a-4a57-9a3e-2f8d5c7b1a10&code=1000.code";
                            toString := "" |}]
              eq_refl eq_refl ltac:(discriminate) eq_refl ltac:(discriminate) eq_refl
              ltac:(vm_compute; discriminate))
    as (eff & Hlogin & _ & _ & Hno).
  exists eff. split; assumption.
Defined.

(** *** A callback in time, and the timers of earlier attempts *)

Lemma total_nonneg ds : Forall (fun d => 0 <= d) ds -> 0 <= total ds.
Proof. unfold total. induction 1; cbn; lia. Qed.

Lemma fired_within_none ms ts :
  Forall (fun t => ms < due_in t) ts -> fired_within ms ts = [].
Proof.
  unfold fired_within. induction 1 as [|t ts Ht _ IH]; [reflexivity|]. cbn.
  destruct (Z.leb_spec (due_in t) ms); [lia | exact IH].
Qed.

Lemma fired_within_some ms ts :
  Exists (fun t => due_in t <= ms) ts -> fired_within ms ts <> [].
Proof.
  unfold fired_within. induction 1 as [t ts Ht | t ts _ IH]; cbn.
  - destruct (Z.leb_spec (due_in t) ms); [discriminate | lia].
  - destruct (due_in t <=? ms)%Z; [discriminate | exact IH].
Qed.

Lemma still_armed_all ms ts :
  Forall (fun t => ms < due_in t) ts ->
  still_armed ms ts =
    map (fun t => {| due_in := due_in t - ms; settles_login := settles_login t |}) ts.
Proof.
  unfold still_armed. induction 1 as [|t ts Ht _ IH]; [reflexivity|]. cbn.
  destruct (Z.leb_spec (due_in t) ms); [lia|]. cbn. rewrite IH. reflexivity.
Qed.

(** What a timer shows; it never contacts the token endpoint. *)
Lemma timer_fires_no_post e b p prm : ~ In (PostToken prm) (timer_fires e b p).2.
Proof.
  unfold timer_fires, rejected.
  pose proof (clear_shape p) as H1. destruct (clearUriHandler p) as [p1 c1].
  pose proof (clear_shape p1) as H2. destruct (clearUriHandler p1) as [p2 c2].
  cbn [snd] in H1, H2.
  destruct b; cbn [snd]; rewrite ?in_app_iff; cbn [In]; rewrite ?in_app_iff;
    destruct (instructions_shape e) as [-> | ->];
    destruct H1 as [-> | ->], H2 as [-> | ->]; cbn [In];
    intros H; decompose [or] H; try discriminate; try contradiction.
Qed.

Lemma fire_all_no_post e ts : forall p prm, ~ In (PostToken prm) (fire_all e ts p).2.
Proof.
  induction ts as [|t ts IH]; intros p prm; cbn [fire_all]; [cbn; tauto|].
  pose proof (timer_fires_no_post e (settles_login t) p prm) as H1.
  destruct (timer_fires e (settles_login t) p) as [p1 eff1].
  pose proof (IH p1 prm) as H2. destruct (fire_all e ts p1) as [p2 eff2].
  cbn in *. rewrite in_app_iff. tauto.
Qed.

Lemma fire_all_unregisters e ts : forall p,
  uriHandlerRegistration p = false \/ ts <> [] ->
  uriHandlerRegistration (fire_all e ts p).1 = false.
Proof.
  induction ts as [|t ts IH]; intros p H; cbn [fire_all].
  - destruct H as [H | H]; [exact H | congruence].
  - pose proof (timer_fires_unregisters e (settles_login t) p) as H1.
    destruct (timer_fires e (settles_login t) p) as [p1 eff1].
    pose proof (IH p1 (or_introl H1)) as H2.
    destruct (fire_all e ts p1) as [p2 eff2]. exact H2.
Qed.

(** While no earlier timer fires, time only passes. *)
Lemma await_auth_quiet e domain cid csec state uri ds :
  forall remaining remaining' earlier p done,
  Forall (fun d => 0 <= d) ds -> total ds < remaining ->
  Forall (fun t => total ds < due_in t) earlier ->
  (await_auth e domain cid csec state remaining earlier
     (map Elapse ds ++ [HandleUri uri]) p done).1 =
  (await_auth e domain cid csec state remaining' [] [HandleUri uri] p done).1.
Proof.
  induction ds as [|d ds IH]; intros remaining remaining' earlier p done Hds Hlt Hquiet.
  - cbn. destruct (uriHandlerRegistration p); [|reflexivity].
    destruct (handleUri _ _ _ _ _ _ _ _) as [[r p'] eff]. reflexivity.
  - inversion Hds as [|? ? Hd Hrest]; subst.
    pose proof (total_nonneg ds Hrest) as Hpos.
    change (total (d :: ds)) with (d + total ds) in *.
    cbn [map app await_auth].
    destruct (Z.leb_spec remaining d); [lia|].
    assert (Hnone : Forall (fun t => d < due_in t) earlier).
    { eapply Forall_impl; [exact Hquiet|]. cbn. intros; lia. }
    rewrite (fired_within_none d earlier Hnone), (still_armed_all d earlier Hnone).
    cbn [fire_all]. rewrite app_nil_r.
    apply IH; [assumption | lia |].
    apply Forall_map. eapply Forall_impl; [exact Hquiet|]. cbn. intros; lia.
Qed.

(** Once no handler is registered, the attempt waits for its own timer. *)
Lemma await_auth_deaf e domain cid csec state uri ds :
  forall remaining earlier p done,
  uriHandlerRegistration p = false ->
  Forall (fun d => 0 <= d) ds -> total ds < remaining ->
  (forall prm, ~ In (PostToken prm) done) ->
  exists p' eff ts,
    await_auth e domain cid csec state remaining earlier
      (map Elapse ds ++ [HandleUri uri]) p done = (Waiting, p', eff, ts) /\
    uriHandlerRegistration p' = false /\
    forall prm, ~ In (PostToken prm) eff.
Proof.
  induction ds as [|d ds IH]; intros remaining earlier p done Hreg Hds Hlt Hdone.
  - cbn. rewrite Hreg. eauto 10.
  - inversion Hds as [|? ? Hd Hrest]; subst.
    pose proof (total_nonneg ds Hrest) as Hpos.
    change (total (d :: ds)) with (d + total ds) in *.
    cbn [map app await_auth].
    destruct (Z.leb_spec remaining d); [lia|].
    pose proof (fire_all_unregisters e (fired_within d earlier) p (or_introl Hreg)) as H1.
    pose proof (fire_all_no_post e (fired_within d earlier) p) as H2.
    destruct (fire_all e (fired_within d earlier) p) as [p1 eff1].
    apply IH; [exact H1 | assumption | lia |].
    intros prm. rewrite in_app_iff. specialize (Hdone prm). specialize (H2 prm).
    cbn in H2. tauto.
Qed.

(** When a timer of an earlier attempt fires before the callback, the
    callback finds no handler. *)
Lemma await_auth_disturbed e domain cid csec state uri ds :
  forall remaining earlier p done,
  Forall (fun d => 0 <= d) ds -> total ds < remaining ->
  Forall (fun t => 0 < due_in t) earlier ->
  Exists (fun t => due_in t <= total ds) earlier ->
  (forall prm, ~ In (PostToken prm) done) ->
  exists p' eff ts,
    await_auth e domain cid csec state remaining earlier
      (map Elapse ds ++ [HandleUri uri]) p done = (Waiting, p', eff, ts) /\
    uriHandlerRegistration p' = false /\
    forall prm, ~ In (PostToken prm) eff.
Proof.
  induction ds as [|d ds IH]; intros remaining earlier p done Hds Hlt Harmed Hdue Hdone.
  - exfalso. change (total []) with 0 in Hdue.
    apply Exists_exists in Hdue as (t & Hin & Ht).
    rewrite Forall_forall in Harmed. specialize (Harmed t Hin). lia.
  - inversion Hds as [|? ? Hd Hrest]; subst.
    pose proof (total_nonneg ds Hrest) as Hpos.
    change (total (d :: ds)) with (d + total ds) in *.
    cbn [map app await_auth].
    destruct (Z.leb_spec remaining d); [lia|].
    pose proof (fire_all_no_post e (fired_within d earlier) p) as H2.
    assert (Hdone' : forall p1 eff1, fire_all e (fired_within d earlier) p = (p1, eff1) ->
                       forall prm, ~ In (PostToken prm) (done ++ eff1)).
    { intros p1 eff1 E prm. rewrite in_app_iff. specialize (Hdone prm).
      specialize (H2 prm). rewrite E in H2. cbn in H2. tauto. }
    destruct (decide (Exists (fun t => due_in t <= d) earlier)) as [Hnow | Hlater].
    + pose proof (fire_all_unregisters e (fired_within d earlier) p
                    (or_intror (fired_within_some d earlier Hnow))) as H1.
      destruct (fire_all e (fired_within d earlier) p) as [p1 eff1].
      apply await_auth_deaf; [exact H1 | assumption | lia | eauto].
    + apply not_Exists_Forall in Hlater; [|intros t; apply _].
      assert (Hnone : Forall (fun t => d < due_in t) earlier).
      { eapply Forall_impl; [exact Hlater|]. cbn. intros; lia. }
      rewrite (still_armed_all d earlier Hnone).
      destruct (fire_all e (fired_within d earlier) p) as [p1 eff1].
      apply IH; [assumption | lia | | | eauto].
      * apply Forall_map. eapply Forall_impl; [exact Hnone|]. cbn. intros; lia.
      * apply Exists_exists in Hdue as (t & Hin & Ht).
        apply Exists_exists.
        exists {| due_in := due_in t - d; settles_login := settles_login t |}.
        split; [|cbn; lia]. change (map ?f ?l) with (f <$> l).
        apply list_elem_of_fmap. exists t. auto.
Qed.

(** X23. A callback that comes before the ten minutes are over, after waits
    that no timer of an earlier attempt ends, is handled as if it had come
    at once: the time spent in the browser does not change what [login]
    returns, stores or shows. When a timer that an earlier attempt left
    armed fires during those waits, the callback finds no handler: [login]
    is still pending afterwards, with no handler registered and without
    having contacted the token endpoint. *)
Theorem callback_in_time_is_handled e p earlier ds uri :
  Forall (fun d => 0 <= d) ds ->
  total ds < deadline_ms ->
  (Forall (fun t => total ds < due_in t) earlier ->
   (login_with_timers e earlier (map Elapse ds ++ [HandleUri uri]) p).1
   = login e [HandleUri uri] p) /\
  (Forall (fun t => 0 < due_in t) earlier ->
   Exists (fun t => due_in t <= total ds) earlier ->
   uriHandlerRegistration p = false ->
   truthy (clientId e) && truthy (clientSecret e) = true ->
   (exists opened, openExternal e = Ok opened) ->
   exists p' eff ts,
     login_with_timers e earlier (map Elapse ds ++ [HandleUri uri]) p
     = (Waiting, p', eff, ts) /\
     uriHandlerRegistration p' = false /\
     forall prm, ~ In (PostToken prm) eff).
Proof.
  intros Hds Hlt. split.
  - intros Hquiet. unfold login, login_with_timers.
    destruct (uriHandlerRegistration p); [reflexivity|].
    destruct (truthy (clientId e) && truthy (clientSecret e));
      destruct (clientId e) as [cid|], (clientSecret e) as [csec|]; try reflexivity.
    destruct (clearUriHandler p) as [p0 clearing].
    destruct (openExternal e) as [opened|msg]; [|reflexivity].
    apply await_auth_quiet; assumption.
  - intros Harmed Hdue Hreg Hcreds [opened Hopen].
    unfold login_with_timers. rewrite Hreg, Hcreds, Hopen.
    apply andb_prop in Hcreds as [Hid Hsec].
    destruct (clientId e) as [cid|]; [|discriminate].
    destruct (clientSecret e) as [csec|]; [|discriminate].
    rewrite (clear_unregistered p Hreg).
    apply await_auth_disturbed; try assumption.
    intros prm H. cbn in H. intuition discriminate.
Qed.

Lemma callback_in_time_is_handled_witness :
  exists p' eff ts,
    login_with_timers Scenarios.env_ok
      [{| due_in := 300000; settles_login := false |}]
      (map Elapse [100000; 200000] ++
       [HandleUri {| query := "state=6f1c2b9e-0d4a-4a57-9a3e-2f8d5c7b1a10&code=1000.code";
                     toString := "" |}])
      Scenarios.idle_uri = (Waiting, p', eff, ts) /\
    uriHandlerRegistration p' = false /\
    forall prm, ~ In (PostToken prm) eff.
Proof.
  apply (callback_in_time_is_handled Scenarios.env_ok Scenarios.idle_uri
           [{| due_in := 300000; settles_login := false |}] [100000; 200000]).
  - repeat constructor; lia.
  - vm_compute. reflexivity.
  - repeat constructor.
  - apply Exists_cons_hd. vm_compute. discriminate.
  - reflexivity.
  - reflexivity.
  - exists true. reflexivity.
Defined.

End UriProps.

(* ================================================================== *)
(** ** The tasks tree *)
(* ================================================================== *)
Module ViewProps.
Import Views.

(** *** The grouping at the root *)

Lemma map_push_keys k t m :
  keys (map_push k t m) = if bool_decide (k ∈ keys m) then keys m else keys m ++ [k].
Proof.
  unfold keys. induction m as [|[k' ts] m IH]; [reflexivity|].
  cbn [map_push]. destruct (String.eqb_spec k' k) as [->|Hne].
  - cbn. rewrite bool_decide_eq_true_2 by (apply elem_of_cons; auto). reflexivity.
  - cbn [map fst] in *. rewrite IH.
    destruct (bool_decide (k ∈ map fst m)) eqn:E.
    + apply bool_decide_eq_true in E.
      rewrite bool_decide_eq_true_2 by (apply elem_of_cons; auto). reflexivity.
    + apply bool_decide_eq_false in E.
      rewrite bool_decide_eq_false_2; [reflexivity|].
      intros [?|?]%elem_of_cons; [congruence|contradiction].
Qed.

Lemma map_push_NoDup k t m : NoDup (keys m) -> NoDup (keys (map_push k t m)).
Proof.
  intros H. rewrite map_push_keys. case_bool_decide as Hin; [exact H|].
  apply NoDup_app. split; [exact H|]. split.
  - intros x Hx [->|[]%elem_of_nil]%elem_of_cons. contradiction.
  - apply NoDup_singleton.
Qed.

Lemma map_push_elem k t m x : x ∈ keys (map_push k t m) <-> x ∈ keys m \/ x = k.
Proof.
  rewrite map_push_keys. case_bool_decide as Hin.
  - split; [auto|]. intros [?| ->]; assumption.
  - rewrite elem_of_app, list_elem_of_singleton. reflexivity.
Qed.

Lemma grouping_keys ts : forall m,
  NoDup (keys m) ->
  NoDup (keys (fold_left (fun m t => map_push (task_project_id t) t m) ts m)) /\
  forall x, x ∈ keys (fold_left (fun m t => map_push (task_project_id t) t m) ts m) <->
            x ∈ keys m \/ exists t, t ∈ ts /\ task_project_id t = x.
Proof.
  induction ts as [|t ts IH]; intros m Hm; cbn [fold_left].
  - split; [exact Hm|]. intros x. split; [auto|].
    intros [?|(t & []%elem_of_nil & _)]; assumption.
  - destruct (IH (map_push (task_project_id t) t m) (map_push_NoDup _ _ _ Hm))
      as [Hnd Hiff].
    split; [exact Hnd|]. intros x. rewrite Hiff, map_push_elem. split.
    + intros [[?| ->]|(t' & Ht' & E)]; [auto| |].
      * right. exists t. split; [apply elem_of_cons; auto | reflexivity].
      * right. exists t'. split; [apply elem_of_cons; auto | exact E].
    + intros [?|(t' & [->|Ht']%elem_of_cons & E)]; [auto|auto|].
      right. exists t'. auto.
Qed.

Lemma root_ids p :
  map (fun r => meta r ≫= projectId) (getChildren p None)
  = map Some (keys (projectMap (tasks p))).
Proof.
  cbn [getChildren]. unfold keys. rewrite !map_map. reflexivity.
Qed.

(** X24. The root level of the tasks tree has one item for each project
    that a task belongs to, and no project twice. *)
Theorem root_lists_each_project_once (p : TasksProvider) :
  NoDup (map (fun r => meta r ≫= projectId) (getChildren p None)) /\
  forall pid,
    Some pid ∈ map (fun r => meta r ≫= projectId) (getChildren p None) <->
    exists t, t ∈ tasks p /\ task_project_id t = pid.
Proof.
  rewrite root_ids.
  destruct (grouping_keys (tasks p) [] (NoDup_nil_2)) as [Hnd Hiff].
  split.
  - apply (NoDup_fmap_2 Some). exact Hnd.
  - intros pid. change (map Some ?l) with (Some <$> l).
    rewrite (list_elem_of_fmap_inj Some).
    unfold projectMap. rewrite Hiff. split; [|auto].
    intros [[]%elem_of_nil|H]; exact H.
Qed.

Lemma project_children p pid :
  pid <> "" ->
  getChildren p (Some (project_item p pid))
  = map task_item (filter (fun t => task_project_id t = pid) (tasks p)).
Proof.
  intros Hne. cbn. destruct (String.eqb_spec pid ""); [contradiction|reflexivity].
Qed.

Lemma root_item p r :
  r ∈ getChildren p None ->
  exists pid, r = project_item p pid /\ exists t, t ∈ tasks p /\ task_project_id t = pid.
Proof.
  cbn [getChildren]. change (map ?f ?l) with (f <$> l).
  intros ([k ts] & -> & Hin)%list_elem_of_fmap. exists k. split; [reflexivity|].
  destruct (grouping_keys (tasks p) [] (NoDup_nil_2)) as [_ Hiff].
  destruct (proj1 (Hiff k)) as [[]%elem_of_nil|H]; [|exact H].
  unfold keys. change (map ?f ?l) with (f <$> l).
  apply list_elem_of_fmap. exists (k, ts). auto.
Qed.

(** X25. A loaded task is listed under a root item exactly when its project
    id is not the empty string: the item of a project with the empty id
    shows no children. *)
Theorem task_listed_iff_project_id (p : TasksProvider) (t : ZohoTask) :
  t ∈ tasks p ->
  (exists r, r ∈ getChildren p None /\ task_item t ∈ getChildren p (Some r)) <->
  task_project_id t <> "".
Proof.
  intros Ht. split.
  - intros (r & Hr & Hin) Hempty.
    apply root_item in Hr as (pid & -> & _).
    destruct (String.eqb_spec pid "") as [->|Hne].
    + cbn in Hin. by apply elem_of_nil in Hin.
    + rewrite project_children in Hin by assumption.
      change (map ?f ?l) with (f <$> l) in Hin.
      apply list_elem_of_fmap in Hin as (t' & E & Hin).
      apply list_elem_of_filter in Hin as [Hpid _].
      apply (f_equal (fun i => meta i ≫= projectId)) in E. cbn in E. congruence.
  - intros Hne. exists (project_item p (task_project_id t)). split.
    + cbn [getChildren]. change (map ?f ?l) with (f <$> l).
      destruct (grouping_keys (tasks p) [] (NoDup_nil_2)) as [_ Hiff].
      assert (Hk : task_project_id t ∈ keys (projectMap (tasks p)))
        by (apply Hiff; right; eauto).
      unfold keys in Hk. change (map ?f ?l) with (f <$> l) in Hk.
      apply list_elem_of_fmap in Hk as ([k ts] & E & Hk). cbn in E. subst k.
      apply list_elem_of_fmap. exists (task_project_id t, ts). auto.
    + rewrite project_children by assumption.
      change (map ?f ?l) with (f <$> l).
      apply list_elem_of_fmap. exists t. split; [reflexivity|].
      apply list_elem_of_filter. auto.
Qed.

Lemma findTaskById_id p tid t : findTaskById p tid = Some t -> id t = tid.
Proof.
  unfold findTaskById.
  destruct (List.find (fun t => String.eqb (id t) tid) (tasks p)) as [t0|] eqn:Hfind.
  - intros [= <-]. apply List.find_some in Hfind as [_ H]. by apply String.eqb_eq.
  - clear Hfind. induction (tasks p) as [|parent rest IH]; [discriminate|].
    destruct (subtasks parent) as [sts|]; [|exact IH].
    destruct (List.find (fun st => String.eqb (id st) tid) sts) as [st|] eqn:Hsub;
      [|exact IH].
    intros [= <-]. apply List.find_some in Hsub as [_ H]. by apply String.eqb_eq.
Qed.

(** X26. What is shown under an item that is not a project is a subtask
    that names the item's task as its parent and has no children of its
    own: the tree is three levels deep at most, and the subtasks of a
    subtask are never shown. *)
Theorem children_of_a_task_are_leaves (p : TasksProvider) (el c : TaskTreeItem) :
  contextValue el <> "project" ->
  c ∈ getChildren p (Some el) ->
  contextValue c = "subtask" /\
  meta c ≫= parentTaskId = meta el ≫= taskId /\
  getChildren p (Some c) = [].
Proof.
  intros Hctx. cbn [getChildren].
  destruct (String.eqb_spec (contextValue el) "project"); [contradiction|].
  destruct (String.eqb (contextValue el) "task" && truthy (meta el ≫= taskId));
    [|intros []%elem_of_nil].
  destruct (meta el ≫= taskId) as [tid|]; [|intros []%elem_of_nil].
  destruct (findTaskById p tid) as [t|] eqn:Hfind; [|intros []%elem_of_nil].
  destruct (has_subtasks t); [|intros []%elem_of_nil].
  change (map ?f ?l) with (f <$> l).
  intros (st & -> & _)%list_elem_of_fmap. cbn.
  rewrite (findTaskById_id _ _ _ Hfind). auto.
Qed.

Lemma root_lists_each_project_once_witness :
  Some "P2" ∈ map (fun r => meta r ≫= projectId) (getChildren Scenarios.board None).
Proof.
  destruct (root_lists_each_project_once Scenarios.board) as [_ H].
  apply H. exists Scenarios.V2. split; [|reflexivity].
  apply elem_of_cons. right. apply elem_of_cons. left. reflexivity.
Defined.

Lemma task_listed_iff_project_id_witness :
  exists r, r ∈ getChildren Scenarios.board None /\
            task_item Scenarios.V3 ∈ getChildren Scenarios.board (Some r).
Proof.
  apply (task_listed_iff_project_id Scenarios.board Scenarios.V3).
  - apply elem_of_cons. right. apply elem_of_cons. right.
    apply elem_of_cons. left. reflexivity.
  - discriminate.
Defined.

Lemma children_of_a_task_are_leaves_witness :
  contextValue (subtask_item Scenarios.V1 Scenarios.V1a) = "subtask" /\
  meta (subtask_item Scenarios.V1 Scenarios.V1a) ≫= parentTaskId = Some "T1" /\
  getChildren Scenarios.board (Some (subtask_item Scenarios.V1 Scenarios.V1a)) = [].
Proof.
  apply (children_of_a_task_are_leaves Scenarios.board (task_item Scenarios.V1)).
  - discriminate.
  - apply elem_of_cons. left. reflexivity.
Defined.

End ViewProps.

(* ================================================================== *)
(** ** The request handler of the draft *)
(* ================================================================== *)
Module DraftProps.
Import LocalServer AuthDraft.

(** X27. The handler of the draft answers 200 exactly when it goes on to the
    token exchange, and it goes on only for a request on the callback path
    whose state is the one string expected and whose code is not empty. *)
Theorem draft_callback_checks_before_exchange (state : string) (req : IncomingMessage) :
  (statusCode (handleCallback state req).1 = 200 <->
   exists c, (handleCallback state req).2 = Proceed c) /\
  forall c, (handleCallback state req).2 = Proceed c ->
    truthy (url req) = true /\
    pathname req = Some "/auth-callback" /\
    query req !! "state" = Some (QStr state) /\
    query req !! "code" = Some c /\ c <> QStr "".
Proof.
  unfold handleCallback.
  destruct (truthy (url req)); cbn [negb].
  2:{ cbn. split; [split; [discriminate | intros [? [=]]] | discriminate]. }
  case_bool_decide as Hpath; cbn [negb].
  2:{ cbn. split; [split; [discriminate | intros [? [=]]] | discriminate]. }
  case_bool_decide as Hstate; cbn [negb].
  2:{ cbn. split; [split; [discriminate | intros [? [=]]] | discriminate]. }
  destruct (query req !! "code") as [c|].
  2:{ cbn. split; [split; [discriminate | intros [? [=]]] | discriminate]. }
  destruct (qtruthy (Some c)) eqn:Hc.
  2:{ cbn. split; [split; [discriminate | intros [? [=]]] | discriminate]. }
  cbn. split; [split; eauto|].
  intros ? [= <-]. repeat split; try assumption.
  intros ->. discriminate.
Qed.

Lemma draft_callback_checks_before_exchange_witness :
  query (Scenarios.callback "1000.code" "S-1") !! "state" = Some (QStr "S-1") /\
  query (Scenarios.callback "1000.code" "S-1") !! "code" = Some (QStr "1000.code").
Proof.
  destruct (draft_callback_checks_before_exchange "S-1"
              (Scenarios.callback "1000.code" "S-1")) as [_ H].
  destruct (H (QStr "1000.code") eq_refl) as (_ & _ & Hs & Hc & _).
  split; assumption.
Defined.

End DraftProps.
